(** * Request shaping of the Nodra MCP server ([server.py])

    A shallow embedding of the request-construction layer of [server.py]:
    the three helpers [_get_json], [_post_json], [_post_multipart] and the
    four tools [sol_create_wallet], [sol_transfer_sol], [sol_execute_trade]
    and [sol_create_token], together with the parts of the Python standard
    library they call ([str], [urllib.parse.urlencode], [os.path.basename],
    [uuid.uuid4], [json.loads], [json.dumps]).

    Conventions.
    - A Python [str] is represented by the bytes of its UTF-8 encoding, a
      Rocq [string]; [str.encode()] is then the identity and
      [bytes.decode()] is a validity check.
    - A Python [dict] is an association list in insertion order.
    - A Python [float] is represented by what [_Py_dg_dtoa] returns for it in
      mode 0: a sign, the shortest digit string that determines the double
      and the position of the decimal point.
    - The world outside the process (the file system, the upstream service
      behind [urllib.request.urlopen], [mimetypes], [os.urandom]) is a
      record of functions, and the calls made to [urlopen] are logged. *)

From Stdlib Require Import String Ascii List ZArith NArith Nnat Lia Bool Arith.
From Stdlib Require Import DecimalString DecimalPos.
Import ListNotations.
Open Scope string_scope.
Set Warnings "-register-all".

(** ** Strings and bytes *)

Definition CRLF : string := String "013" (String "010" "").
Definition LF : string := String "010" "".
Definition DQUOTE : ascii := ascii_of_nat 34.

Fixpoint repeat_string (s : string) (n : nat) : string :=
  match n with
  | O => ""
  | S n' => s ++ repeat_string s n'
  end.

(** [sep.join(l)] *)
Fixpoint join (sep : string) (l : list string) : string :=
  match l with
  | [] => ""
  | [x] => x
  | x :: rest => x ++ sep ++ join sep rest
  end.

Fixpoint string_mem (c : ascii) (s : string) : bool :=
  match s with
  | EmptyString => false
  | String d s' => Ascii.eqb c d || string_mem c s'
  end.

Fixpoint string_map (f : ascii -> ascii) (s : string) : string :=
  match s with
  | EmptyString => ""
  | String c s' => String (f c) (string_map f s')
  end.

Fixpoint string_forallb (p : ascii -> bool) (s : string) : bool :=
  match s with
  | EmptyString => true
  | String c s' => p c && string_forallb p s'
  end.

(** [prefix p s]: [s.startswith(p)] *)
Fixpoint starts_with (p s : string) : bool :=
  match p, s with
  | EmptyString, _ => true
  | String a p', String b s' => Ascii.eqb a b && starts_with p' s'
  | String _ _, EmptyString => false
  end.

(** [needle in s] *)
Fixpoint contains (needle s : string) : bool :=
  starts_with needle s ||
  match s with
  | EmptyString => false
  | String _ s' => contains needle s'
  end.

Fixpoint drop (n : nat) (s : string) : string :=
  match n, s with
  | O, _ => s
  | S n', String _ s' => drop n' s'
  | S _, EmptyString => ""
  end.

(** [if (p[-1] == '.') p--;] *)
Fixpoint drop_trailing_dot (s : string) : string :=
  match s with
  | EmptyString => ""
  | String c EmptyString => if Ascii.eqb c "." then "" else s
  | String c s' => String c (drop_trailing_dot s')
  end.

(** ** Python values that reach the encoders *)

(** The result of [_Py_dg_dtoa(x, 0, ...)]: for a finite double the sign,
    the digits (no leading zero, no trailing zero, ["0"] for zero) and
    [decpt], with x = 0.d1d2... * 10^decpt. *)
Inductive pyfloat : Type :=
| FFinite (sign : bool) (digits : string) (decpt : Z)
| FInf (sign : bool)
| FNan.

Inductive pyval : Type :=
| PNone
| PStr (s : string)
| PBool (b : bool)
| PInt (z : Z)
| PFloat (f : pyfloat).

Definition is_None (v : pyval) : bool :=
  match v with PNone => true | _ => false end.

Definition dict (V : Type) : Type := list (string * V).

(** [int.__repr__] *)
Definition int_repr (z : Z) : string := NilZero.string_of_int (Z.to_int z).

(** [sprintf(p, "%+.02d", exp)] *)
Definition exp_repr (e : Z) : string :=
  let a := NilZero.string_of_int (Z.to_int (Z.abs e)) in
  (if e <? 0 then "-" else "+")%Z ++ (if Nat.ltb (String.length a) 2 then "0" ++ a else a).

Definition zeros (n : Z) : string := repeat_string "0" (Z.to_nat n).

(** [format_float_short] of [Python/pystrtod.c] as [float_repr] calls it:
    format code ['r'], [Py_DTSF_ADD_DOT_0] set, no alternate formatting,
    no forced sign.  The buffer is written left to right as in the C code. *)
Definition format_float_short (sign : bool) (digits : string) (decpt0 : Z) : string :=
  let digits_len := Z.of_nat (String.length digits) in
  let use_exp := ((decpt0 <=? -4) || (16 <? decpt0))%Z in
  let exp := (decpt0 - 1)%Z in
  let decpt := if use_exp then 1%Z else decpt0 in
  let vdigits_start := (if decpt <=? 0 then decpt - 1 else 0)%Z in
  let vdigits_end :=
    if negb use_exp
    then (if decpt <? digits_len then digits_len else decpt + 1)%Z
    else (if decpt <? digits_len then digits_len else decpt)%Z in
  let p0 := if sign then "-" else "" in
  (* zero padding on the left of the digit string *)
  let p1 :=
    if (decpt <=? 0)%Z
    then p0 ++ zeros (decpt - vdigits_start) ++ "." ++ zeros (0 - decpt)
    else p0 ++ zeros (0 - vdigits_start) in
  (* digits, with included decimal point *)
  let p2 :=
    if ((0 <? decpt) && (decpt <=? digits_len))%Z
    then p1 ++ substring 0 (Z.to_nat decpt) digits ++ "."
            ++ drop (Z.to_nat decpt) digits
    else p1 ++ digits in
  (* zeros on the right *)
  let p3 :=
    if (digits_len <? decpt)%Z
    then p2 ++ zeros (decpt - digits_len) ++ "." ++ zeros (vdigits_end - decpt)
    else p2 ++ zeros (vdigits_end - digits_len) in
  (* delete a trailing decimal point *)
  let p4 := drop_trailing_dot p3 in
  if use_exp then p4 ++ "e" ++ exp_repr exp else p4.

(** [float.__repr__] *)
Definition float_repr (f : pyfloat) : string :=
  match f with
  | FFinite sign digits decpt => format_float_short sign digits decpt
  | FInf sign => if sign then "-inf" else "inf"
  | FNan => "nan"
  end.

Fixpoint strip_leading_zeros (s : string) : nat * string :=
  match s with
  | String "0" s' => let (n, r) := strip_leading_zeros s' in (S n, r)
  | _ => (O, s)
  end.

Fixpoint strip_trailing_zeros (s : string) : string :=
  match s with
  | EmptyString => ""
  | String c s' =>
      match strip_trailing_zeros s' with
      | EmptyString => if Ascii.eqb c "0" then "" else String c ""
      | r => String c r
      end
  end.

(** The float a decimal literal [i.f] of the source denotes, for a literal
    of at most 15 significant digits: such a literal is the shortest digit
    string of the double nearest to it. *)
Definition float_literal (i f : string) : pyfloat :=
  let (z, r) := strip_leading_zeros (i ++ f) in
  match strip_trailing_zeros r with
  | EmptyString => FFinite false "0" 1
  | d => FFinite false d (Z.of_nat (String.length i) - Z.of_nat z)
  end.

(** [str(v)], which is also what [f"{v}"] yields for these types *)
Definition py_str (v : pyval) : string :=
  match v with
  | PNone => "None"
  | PStr s => s
  | PBool b => if b then "True" else "False"
  | PInt z => int_repr z
  | PFloat f => float_repr f
  end.


(** ** [urllib.parse]: percent-encoding *)

Definition in_range (lo hi : nat) (c : ascii) : bool :=
  let n := nat_of_ascii c in Nat.leb lo n && Nat.leb n hi.

(** [_ALWAYS_SAFE]: letters, digits and [_.-~] *)
Definition always_safe (c : ascii) : bool :=
  in_range 65 90 c || in_range 97 122 c || in_range 48 57 c
  || string_mem c "_.-~".

Definition hex_digit_upper (n : nat) : ascii :=
  match get n "0123456789ABCDEF" with Some c => c | None => "0"%char end.

Definition hex_digit_lower (n : nat) : ascii :=
  match get n "0123456789abcdef" with Some c => c | None => "0"%char end.

(** ['%{:02X}'.format(b)] *)
Definition percent_hex (c : ascii) : string :=
  let n := nat_of_ascii c in
  String "%" (String (hex_digit_upper (n / 16)) (String (hex_digit_upper (n mod 16)) "")).

(** The quoter of [_byte_quoter_factory(safe)] *)
Definition quoter (safe : string) (c : ascii) : string :=
  if always_safe c || string_mem c safe then String c "" else percent_hex c.

(** [quote_from_bytes(bs, safe)]; the shortcut the library takes when every
    byte is safe returns the same string as the general path. *)
Fixpoint quote_from_bytes (safe : string) (bs : string) : string :=
  match bs with
  | EmptyString => ""
  | String c bs' => quoter safe c ++ quote_from_bytes safe bs'
  end.

(** [quote(string, safe)] on a [str]: encode as UTF-8, then quote the bytes *)
Definition quote (safe : string) (s : string) : string := quote_from_bytes safe s.

Definition space_to_plus (c : ascii) : ascii :=
  if Ascii.eqb c " " then "+"%char else c.

(** [quote_plus(string, safe)] *)
Definition quote_plus (safe : string) (s : string) : string :=
  if string_mem " " s
  then string_map space_to_plus (quote (safe ++ " ") s)
  else quote safe s.

(** [urlencode(query)] with the defaults [doseq=False], [safe=''],
    [quote_via=quote_plus], for a dict with [str] keys *)
Definition urlencode_item (kv : string * pyval) : string :=
  quote_plus "" (py_str (PStr (fst kv))) ++ "=" ++ quote_plus "" (py_str (snd kv)).

Definition urlencode (query : dict pyval) : string :=
  join "&" (map urlencode_item query).

(** [{k: v for k, v in data.items() if v is not None}] *)
Definition drop_None (data : dict pyval) : dict pyval :=
  filter (fun kv => negb (is_None (snd kv))) data.

(** The body [_post_json] hands to [urllib.request.Request] *)
Definition form_body (data : dict pyval) : string := urlencode (drop_None data).

(** ** JSON values, [json.dumps(obj, indent=2)] *)

(** What [json.loads] can return: [None], [bool], [int], [float], [str],
    [list] and [dict] with [str] keys (insertion-ordered). *)
Inductive json : Type :=
| JNull
| JBool (b : bool)
| JInt (z : Z)
| JFloat (f : pyfloat)
| JStr (s : string)
| JList (l : list json)
| JDict (d : list (string * json)).

(** ['{0:04x}'.format(n)] for [n < 0x10000] *)
Definition hex4 (n : N) : string :=
  let d (k : N) := hex_digit_lower (N.to_nat (N.land (N.shiftr n k) 15)) in
  String (d 12%N) (String (d 8%N) (String (d 4%N) (String (d 0%N) ""))).

Definition backslash : ascii := ascii_of_nat 92.

Definition u_escape (n : N) : string := String backslash (String "u" (hex4 n)).

(** The [replace] function of [py_encode_basestring_ascii], on the code
    point [n] of a character matched by [ESCAPE_ASCII] *)
Definition escape_code_point (n : N) : string :=
  if (n =? 34)%N then String backslash (String DQUOTE "")
  else if (n =? 92)%N then String backslash (String backslash "")
  else if (n =? 8)%N then String backslash "b"
  else if (n =? 12)%N then String backslash "f"
  else if (n =? 10)%N then String backslash "n"
  else if (n =? 13)%N then String backslash "r"
  else if (n =? 9)%N then String backslash "t"
  else if (n <? 65536)%N then u_escape n
  else
    let m := (n - 65536)%N in
    u_escape (N.lor 55296 (N.land (N.shiftr m 10) 1023))
    ++ u_escape (N.lor 56320 (N.land m 1023)).

(** [ESCAPE_ASCII.sub(replace, s)], reading the code points off the UTF-8
    bytes: [need] continuation bytes are still expected for the code point
    whose high bits are [acc]. *)
Fixpoint escape_ascii (s : string) (need : nat) (acc : N) : string :=
  match s with
  | EmptyString => ""
  | String c s' =>
      let b := N_of_ascii c in
      match need with
      | O =>
          if (b <? 128)%N then
            (if ((32 <=? b) && (b <=? 126) && negb (b =? 34) && negb (b =? 92))%N
             then String c "" else escape_code_point b)
            ++ escape_ascii s' 0 0%N
          else if (b <? 224)%N then escape_ascii s' 1 (N.land b 31)
          else if (b <? 240)%N then escape_ascii s' 2 (N.land b 15)
          else escape_ascii s' 3 (N.land b 7)
      | S need' =>
          let acc' := N.lor (N.shiftl acc 6) (N.land b 63) in
          match need' with
          | O => escape_code_point acc' ++ escape_ascii s' 0 0%N
          | S _ => escape_ascii s' need' acc'
          end
      end
  end.

(** [py_encode_basestring_ascii(s)] *)
Definition encode_basestring_ascii (s : string) : string :=
  String DQUOTE (escape_ascii s 0 0%N) ++ String DQUOTE "".

(** [floatstr] of [JSONEncoder.iterencode] with [allow_nan=True] *)
Definition floatstr (f : pyfloat) : string :=
  match f with
  | FNan => "NaN"
  | FInf false => "Infinity"
  | FInf true => "-Infinity"
  | FFinite _ _ _ => float_repr f
  end.

(** The values [_iterencode_list] and [_iterencode_dict] yield in one chunk *)
Definition scalar_text (o : json) : option string :=
  match o with
  | JStr s => Some (encode_basestring_ascii s)
  | JNull => Some "null"
  | JBool true => Some "true"
  | JBool false => Some "false"
  | JInt z => Some (int_repr z)
  | JFloat f => Some (floatstr f)
  | JList _ | JDict _ => None
  end.

Definition indent_unit : string := "  ".

Definition newline_indent (level : nat) : string :=
  LF ++ repeat_string indent_unit level.

(** [_iterencode], [_iterencode_list] and [_iterencode_dict] of
    [json.encoder._make_iterencode] with [_indent = '  '],
    [_item_separator = ','] and [_key_separator = ': ']; the result is the
    list of chunks the generators yield. *)
Fixpoint iterencode (o : json) (level : nat) : list string :=
  match o with
  | JList lst =>
      match lst with
      | [] => ["[]"]
      | _ =>
          let separator := "," ++ newline_indent (S level) in
          ((fix loop (l : list json) (first : bool) (buf : string) : list string :=
              match l with
              | [] => []
              | value :: l' =>
                  let buf := if first then buf else separator in
                  (match scalar_text value with
                   | Some t => [(buf ++ t)%string]
                   | None => buf :: iterencode value (S level)
                   end ++ loop l' false buf)%list
              end) lst true ("[" ++ newline_indent (S level))%string
           ++ [newline_indent level; "]"])%list
      end
  | JDict dct =>
      match dct with
      | [] => ["{}"]
      | _ =>
          let item_separator := "," ++ newline_indent (S level) in
          (["{"; newline_indent (S level)]
           ++ (fix loop (items : list (string * json)) (first : bool) : list string :=
                 match items with
                 | [] => []
                 | (key, value) :: items' =>
                     ((if first then [] else [item_separator])
                      ++ [encode_basestring_ascii key; ": "]
                      ++ match scalar_text value with
                         | Some t => [t]
                         | None => iterencode value (S level)
                         end
                      ++ loop items' false)%list
                 end) dct true
           ++ [newline_indent level; "}"])%list
      end
  | _ => match scalar_text o with Some t => [t] | None => [] end
  end.

(** [json.dumps(obj, indent=2)]: [''.join(chunks)] *)
Definition json_dumps (obj : json) : string := join "" (iterencode obj 0).

(** ** [bytes.decode()] and [json.loads] *)

(** Well-formed UTF-8 (strict): [need] continuation bytes are expected, the
    next one within [lo .. hi]. *)
Fixpoint utf8_valid_from (s : string) (need : nat) (lo hi : N) : bool :=
  match s with
  | EmptyString => Nat.eqb need 0
  | String c s' =>
      let b := N_of_ascii c in
      match need with
      | O =>
          if (b <? 128)%N then utf8_valid_from s' 0 128 191
          else if ((194 <=? b) && (b <=? 223))%N then utf8_valid_from s' 1 128 191
          else if (b =? 224)%N then utf8_valid_from s' 2 160 191
          else if (b =? 237)%N then utf8_valid_from s' 2 128 159
          else if ((225 <=? b) && (b <=? 239))%N then utf8_valid_from s' 2 128 191
          else if (b =? 240)%N then utf8_valid_from s' 3 144 191
          else if ((241 <=? b) && (b <=? 243))%N then utf8_valid_from s' 3 128 191
          else if (b =? 244)%N then utf8_valid_from s' 3 128 143
          else false
      | S need' =>
          ((lo <=? b) && (b <=? hi))%N && utf8_valid_from s' need' 128 191
      end
  end.

Definition utf8_valid (s : string) : bool := utf8_valid_from s 0 128 191.

(** [chr(n)] as UTF-8 bytes; a lone surrogate, which a Python [str] may
    hold, takes the three-byte form. *)
Definition utf8_of_code_point (n : N) : string :=
  let byte (k : N) := ascii_of_N k in
  let cont (k : N) := byte (N.lor 128 (N.land (N.shiftr n k) 63)) in
  if (n <? 128)%N then String (byte n) ""
  else if (n <? 2048)%N then String (byte (N.lor 192 (N.shiftr n 6))) (String (cont 0%N) "")
  else if (n <? 65536)%N then
    String (byte (N.lor 224 (N.shiftr n 12))) (String (cont 6%N) (String (cont 0%N) ""))
  else
    String (byte (N.lor 240 (N.shiftr n 18)))
      (String (cont 12%N) (String (cont 6%N) (String (cont 0%N) ""))).

(** Result of a scanning step: a value and the rest of the input, or the
    message of the [JSONDecodeError]. *)
Inductive scan (A : Type) : Type :=
| Scanned (a : A) (rest : string)
| ScanError (msg : string).
Arguments Scanned {A} a rest.
Arguments ScanError {A} msg.

Definition is_digit (c : ascii) : bool := in_range 48 57 c.

Definition hex_value (c : ascii) : option N :=
  let n := N_of_ascii c in
  if in_range 48 57 c then Some (n - 48)%N
  else if in_range 97 102 c then Some (n - 87)%N
  else if in_range 65 70 c then Some (n - 55)%N
  else None.

(** [_decode_uXXXX]: four hexadecimal digits *)
Definition decode_uXXXX (s : string) : option (N * string) :=
  match s with
  | String a (String b (String c (String d rest))) =>
      match hex_value a, hex_value b, hex_value c, hex_value d with
      | Some x, Some y, Some z, Some w =>
          Some ((((x * 16 + y) * 16 + z) * 16 + w)%N, rest)
      | _, _, _, _ => None
      end
  | _ => None
  end.

(** [BACKSLASH]: the one-character escapes *)
Definition backslash_escape (c : ascii) : option ascii :=
  if Ascii.eqb c DQUOTE then Some DQUOTE
  else if Ascii.eqb c backslash then Some backslash
  else if Ascii.eqb c "/" then Some "/"%char
  else if Ascii.eqb c "b" then Some (ascii_of_nat 8)
  else if Ascii.eqb c "f" then Some (ascii_of_nat 12)
  else if Ascii.eqb c "n" then Some (ascii_of_nat 10)
  else if Ascii.eqb c "r" then Some (ascii_of_nat 13)
  else if Ascii.eqb c "t" then Some (ascii_of_nat 9)
  else None.

(** [py_scanstring(s, end, strict=True)], started after the opening quote;
    [acc] is the content read so far. *)
Fixpoint scanstring (fuel : nat) (s : string) (acc : string) : scan string :=
  match fuel with
  | O => ScanError "Unterminated string starting at"
  | S fuel' =>
      match s with
      | EmptyString => ScanError "Unterminated string starting at"
      | String c s' =>
          if Ascii.eqb c DQUOTE then Scanned acc s'
          else if Ascii.eqb c backslash then
            match s' with
            | EmptyString => ScanError "Unterminated string starting at"
            | String esc s'' =>
                if Ascii.eqb esc "u" then
                  match decode_uXXXX s'' with
                  | None => ScanError "Invalid \uXXXX escape"
                  | Some (uni, rest) =>
                      if ((55296 <=? uni) && (uni <=? 56319))%N
                         && starts_with (String backslash "u") rest
                      then
                        match decode_uXXXX (drop 2 rest) with
                        | None => ScanError "Invalid \uXXXX escape"
                        | Some (uni2, rest') =>
                            if ((56320 <=? uni2) && (uni2 <=? 57343))%N
                            then scanstring fuel' rest'
                                   (acc ++ utf8_of_code_point
                                      (65536 + N.lor (N.shiftl (uni - 55296) 10)
                                                     (uni2 - 56320))%N)
                            else scanstring fuel' rest (acc ++ utf8_of_code_point uni)
                        end
                      else scanstring fuel' rest (acc ++ utf8_of_code_point uni)
                  end
                else
                  match backslash_escape esc with
                  | Some ch => scanstring fuel' s'' (acc ++ String ch "")
                  | None => ScanError "Invalid \escape"
                  end
            end
          else if (N_of_ascii c <? 32)%N then ScanError "Invalid control character at"
          else scanstring fuel' s' (acc ++ String c "")
      end
  end.

(** [WHITESPACE.match(s, end).end()] *)
Fixpoint skip_ws (s : string) : string :=
  match s with
  | String c s' => if string_mem c (String " " (String "009" (String "010" (String "013" ""))))
                   then skip_ws s' else s
  | EmptyString => ""
  end.

(** The longest prefix of digits and what follows it *)
Fixpoint span_digits (s : string) : string * string :=
  match s with
  | String c s' =>
      if is_digit c then let (d, r) := span_digits s' in (String c d, r) else ("", s)
  | EmptyString => ("", "")
  end.

(** [NUMBER_RE.match]: the integer part, the fraction and the exponent (both
    empty when absent), and the rest of the input *)
Definition match_number (s : string) : option (string * string * string * string) :=
  let (sign, s1) :=
    match s with
    | String "-" s' => ("-", s')
    | _ => ("", s)
    end in
  let int_part :=
    match s1 with
    | String "0" s2 => Some ("0", s2)
    | String c _ =>
        if is_digit c then Some (span_digits s1) else None
    | EmptyString => None
    end in
  match int_part with
  | None => None
  | Some (i, s2) =>
      let (frac, s3) :=
        match s2 with
        | String "." t =>
            match span_digits t with
            | (EmptyString, _) => ("", s2)
            | (d, r) => (String "." d, r)
            end
        | _ => ("", s2)
        end in
      let (exp, s4) :=
        match s3 with
        | String e t =>
            if Ascii.eqb e "e" || Ascii.eqb e "E" then
              let (sg, t') :=
                match t with
                | String "-" u => ("-", u)
                | String "+" u => ("+", u)
                | _ => ("", t)
                end in
              match span_digits t' with
              | (EmptyString, _) => ("", s3)
              | (d, r) => (String e (sg ++ d), r)
              end
            else ("", s3)
        | EmptyString => ("", s3)
        end in
      Some (sign ++ i, frac, exp, s4)
  end.

(** The number a string of decimal digits denotes, read after [acc] *)
Fixpoint digits_value_from (acc : Z) (ds : string) : Z :=
  match ds with
  | EmptyString => acc
  | String c ds' =>
      digits_value_from (10 * acc + (Z.of_nat (nat_of_ascii c) - 48))%Z ds'
  end.

Definition digits_value (ds : string) : Z := digits_value_from 0 ds.

(** [int(s)] for an optional minus sign followed by decimal digits *)
Definition int_of_string (s : string) : Z :=
  match s with
  | String "-" d => (- digits_value d)%Z
  | _ => digits_value s
  end.

(** [dict.__setitem__]: a new key goes last, a known key keeps its place *)
Fixpoint dict_set {V : Type} (d : dict V) (k : string) (v : V) : dict V :=
  match d with
  | [] => [(k, v)]
  | (k', v') :: d' => if String.eqb k' k then (k, v) :: d' else (k', v') :: dict_set d' k v
  end.

(** [dict(pairs)] *)
Definition dict_of_pairs {V : Type} (pairs : list (string * V)) : dict V :=
  fold_left (fun d kv => dict_set d (fst kv) (snd kv)) pairs [].

Section Scanner.

(** [float(s)] on the text of a JSON number with a fraction or an
    exponent: the C library's correctly rounded conversion, represented
    by the digits [dtoa] returns for the result. *)
Variable parse_float : string -> pyfloat.

(** [scan_once], [JSONObject] and [JSONArray] of [json.scanner] and
    [json.decoder]; [object_members] starts at a member's opening quote,
    [array_items] at an item. *)
Fixpoint scan_once (fuel : nat) (s : string) : scan json :=
  match fuel with
  | O => ScanError "maximum recursion depth exceeded"
  | S fuel' =>
      match s with
      | EmptyString => ScanError "Expecting value"
      | String c s' =>
          if Ascii.eqb c DQUOTE then
            match scanstring (String.length s') s' "" with
            | Scanned str rest => Scanned (JStr str) rest
            | ScanError m => ScanError m
            end
          else if Ascii.eqb c "{" then
            match skip_ws s' with
            | String "}" rest => Scanned (JDict []) rest
            | String q rest =>
                if Ascii.eqb q DQUOTE then object_members fuel' rest []
                else ScanError "Expecting property name enclosed in double quotes"
            | EmptyString => ScanError "Expecting property name enclosed in double quotes"
            end
          else if Ascii.eqb c "[" then
            match skip_ws s' with
            | String "]" rest => Scanned (JList []) rest
            | s'' => array_items fuel' s'' []
            end
          else if starts_with "null" s then Scanned JNull (drop 4 s)
          else if starts_with "true" s then Scanned (JBool true) (drop 4 s)
          else if starts_with "false" s then Scanned (JBool false) (drop 5 s)
          else
            match match_number s with
            | Some (integer, frac, exp, rest) =>
                match frac, exp with
                | EmptyString, EmptyString => Scanned (JInt (int_of_string integer)) rest
                | _, _ => Scanned (JFloat (parse_float (integer ++ frac ++ exp))) rest
                end
            | None =>
                if starts_with "NaN" s then Scanned (JFloat FNan) (drop 3 s)
                else if starts_with "Infinity" s then Scanned (JFloat (FInf false)) (drop 8 s)
                else if starts_with "-Infinity" s then Scanned (JFloat (FInf true)) (drop 9 s)
                else ScanError "Expecting value"
            end
      end
  end

with object_members (fuel : nat) (s : string) (pairs : list (string * json))
  : scan json :=
  match fuel with
  | O => ScanError "maximum recursion depth exceeded"
  | S fuel' =>
      match scanstring (String.length s) s "" with
      | ScanError m => ScanError m
      | Scanned key rest =>
          match skip_ws rest with
          | String ":" rest1 =>
              match scan_once fuel' (skip_ws rest1) with
              | ScanError m => ScanError m
              | Scanned value rest2 =>
                  let pairs := (pairs ++ [(key, value)])%list in
                  match skip_ws rest2 with
                  | String "}" rest3 => Scanned (JDict (dict_of_pairs pairs)) rest3
                  | String "," rest3 =>
                      match skip_ws rest3 with
                      | String q rest4 =>
                          if Ascii.eqb q DQUOTE then object_members fuel' rest4 pairs
                          else ScanError "Expecting property name enclosed in double quotes"
                      | EmptyString =>
                          ScanError "Expecting property name enclosed in double quotes"
                      end
                  | _ => ScanError "Expecting ',' delimiter"
                  end
              end
          | _ => ScanError "Expecting ':' delimiter"
          end
      end
  end

with array_items (fuel : nat) (s : string) (values : list json) : scan json :=
  match fuel with
  | O => ScanError "maximum recursion depth exceeded"
  | S fuel' =>
      match scan_once fuel' s with
      | ScanError m => ScanError m
      | Scanned value rest =>
          let values := (values ++ [value])%list in
          match skip_ws rest with
          | String "]" rest1 => Scanned (JList values) rest1
          | String "," rest1 => array_items fuel' (skip_ws rest1) values
          | _ => ScanError "Expecting ',' delimiter"
          end
      end
  end.

(** [json.loads(s)] for a [str]: no byte order mark, one value, then
    only white space *)
Definition json_loads (s : string) : scan json :=
  if starts_with (String "239" (String "187" (String "191" ""))) s
  then ScanError "Unexpected UTF-8 BOM (decode using utf-8-sig)"
  else
    match scan_once (2 * String.length s + 2) (skip_ws s) with
    | ScanError m => ScanError m
    | Scanned obj rest =>
        match skip_ws rest with
        | EmptyString => Scanned obj ""
        | _ => ScanError "Extra data"
        end
    end.

End Scanner.

(** ** [os.path.basename], [uuid.uuid4] *)

(** [posixpath.basename(p)]: [p[p.rfind('/') + 1:]] *)
Fixpoint basename (p : string) : string :=
  match p with
  | EmptyString => ""
  | String _ p' => if string_mem "/" p then basename p' else p
  end.

(** [UUID(bytes=..., version=4).int] for [r = int.from_bytes(bytes)]:
    the variant and version bits are overwritten. *)
Definition uuid4_int (r : Z) : Z :=
  let i := Z.land r (Z.lnot (Z.shiftl 49152 48)) in
  let i := Z.lor i (Z.shiftl 32768 48) in
  let i := Z.land i (Z.lnot (Z.shiftl 61440 64)) in
  Z.lor i (Z.shiftl 4 76).

(** The [n] low hexadecimal digits of [i], most significant first *)
Fixpoint hex_digits (n : nat) (i : Z) : string :=
  match n with
  | O => ""
  | S n' =>
      String (hex_digit_lower (Z.to_nat (Z.land (Z.shiftr i (4 * Z.of_nat n')) 15)))
             (hex_digits n' i)
  end.

(** [UUID.hex]: ['%032x' % self.int], for a 128-bit integer *)
Definition uuid_hex (i : Z) : string := hex_digits 32 i.

(** ** Exceptions *)

Inductive exn : Type :=
| FileNotFoundError (filename : string)
| PermissionError (filename : string)
| IsADirectoryError (filename : string)
| HTTPError (code : Z) (body : string)
| URLError (reason : string)
| TimeoutError
| UnicodeDecodeError
| JSONDecodeError (msg : string)
| TypeError (msg : string).

(** The classes an exception is an instance of (its class first) *)
Definition exn_mro (e : exn) : list string :=
  match e with
  | FileNotFoundError _ => ["FileNotFoundError"; "OSError"; "Exception"; "BaseException"]
  | PermissionError _ => ["PermissionError"; "OSError"; "Exception"; "BaseException"]
  | IsADirectoryError _ => ["IsADirectoryError"; "OSError"; "Exception"; "BaseException"]
  | HTTPError _ _ => ["HTTPError"; "URLError"; "OSError"; "Exception"; "BaseException"]
  | URLError _ => ["URLError"; "OSError"; "Exception"; "BaseException"]
  | TimeoutError => ["TimeoutError"; "OSError"; "Exception"; "BaseException"]
  | UnicodeDecodeError =>
      ["UnicodeDecodeError"; "UnicodeError"; "ValueError"; "Exception"; "BaseException"]
  | JSONDecodeError _ => ["JSONDecodeError"; "ValueError"; "Exception"; "BaseException"]
  | TypeError _ => ["TypeError"; "Exception"; "BaseException"]
  end.

(** [isinstance(e, cls)] by class name *)
Definition isinstance (e : exn) (cls : string) : bool :=
  existsb (String.eqb cls) (exn_mro e).

(** ** The world outside the process *)

Inductive fs_entry : Type :=
| Absent
| Denied
| Directory
| Regular (content : string).

(** What the upstream does with a request: an HTTP response at which
    [urllib] stops (redirections it follows by itself are not modelled),
    or no response at all. *)
Inductive http_outcome : Type :=
| Response (status : Z) (body : string)
| Unreachable (reason : string)
| TimedOut.

(** A [urllib.request.Request] as the module builds it *)
Record request : Type := mkRequest {
  req_url : string;
  req_data : option string;
  req_headers : list (string * string)
}.

(** [Request.get_method()] *)
Definition get_method (r : request) : string :=
  match req_data r with Some _ => "POST" | None => "GET" end.

Record environment : Type := mkEnvironment {
  environ : string -> option string;       (* os.environ *)
  file_system : string -> fs_entry;
  upstream : request -> http_outcome;
  guess_type : string -> option string;    (* mimetypes.guess_type(name)[0] *)
  urandom16 : nat -> Z;                    (* int.from_bytes of the n-th os.urandom(16) *)
  parse_float : string -> pyfloat          (* float(text) *)
}.

(** What a call changes: the calls made to [urlopen] (request and timeout,
    oldest first) and the number of draws taken from [os.urandom]. *)
Record state : Type := mkState {
  calls : list (request * Z);
  draws : nat
}.

Definition initial : state := mkState [] 0.

(** ** Computations that may raise *)

Inductive result (A : Type) : Type :=
| Ok (a : A)
| Raise (e : exn).
Arguments Ok {A} a.
Arguments Raise {A} e.

Definition M (A : Type) : Type := state -> result A * state.

Definition ret {A : Type} (a : A) : M A := fun st => (Ok a, st).
Definition raise {A : Type} (e : exn) : M A := fun st => (Raise e, st).
Definition bind {A B : Type} (m : M A) (k : A -> M B) : M B :=
  fun st =>
    match m st with
    | (Ok a, st') => k a st'
    | (Raise e, st') => (Raise e, st')
    end.

Notation "x <- m ;; k" := (bind m (fun x => k))
  (at level 61, m at next level, right associativity).

Definition lift {A : Type} (r : result A) : M A := fun st => (r, st).

(** ** Module globals *)

Definition getenv (env : environment) (name default : string) : string :=
  match environ env name with Some v => v | None => default end.

Definition SOL_BASE (env : environment) : string :=
  getenv env "PUMP_BASE_URL" "https://api-solana.nodra.app".

(** [int(os.getenv("MCP_HTTP_TIMEOUT", "60"))]; a value [int] rejects stops
    the module while it is imported, before any tool exists. *)
Definition TIMEOUT (env : environment) : Z :=
  int_of_string (getenv env "MCP_HTTP_TIMEOUT" "60").

(** ** Library calls with effects *)

(** [urllib.request.urlopen(req, timeout=...)] followed by
    [response.read()]: the call is recorded, a status outside 200..299
    raises [HTTPError] carrying the status and the body. *)
Definition urlopen (env : environment) (req : request) (timeout : Z) : M string :=
  fun st =>
    let st' := mkState (calls st ++ [(req, timeout)]) (draws st) in
    match upstream env req with
    | Response status body =>
        if ((200 <=? status) && (status <? 300))%Z
        then (Ok body, st')
        else (Raise (HTTPError status body), st')
    | Unreachable reason => (Raise (URLError reason), st')
    | TimedOut => (Raise TimeoutError, st')
    end.

(** [bytes.decode()]: UTF-8, strict *)
Definition decode (bs : string) : result string :=
  if utf8_valid bs then Ok bs else Raise UnicodeDecodeError.

(** [json.loads(text)] as a computation *)
Definition loads (env : environment) (text : string) : result json :=
  match json_loads (parse_float env) text with
  | Scanned obj _ => Ok obj
  | ScanError msg => Raise (JSONDecodeError msg)
  end.

(** [json.loads(response.read().decode())] *)
Definition read_json (env : environment) (body : string) : M json :=
  text <- lift (decode body) ;;
  lift (loads env text).

(** An open binary file: its [name] and what [read()] returns *)
Record file : Type := mkFile {
  file_name : string;
  file_content : string
}.

(** [open(path, "rb")] *)
Definition open_rb (env : environment) (path : string) : M file :=
  match file_system env path with
  | Regular content => ret (mkFile path content)
  | Absent => raise (FileNotFoundError path)
  | Denied => raise (PermissionError path)
  | Directory => raise (IsADirectoryError path)
  end.

(** [uuid.uuid4().hex]: one draw of sixteen random bytes *)
Definition uuid4_hex (env : environment) : M string :=
  fun st =>
    (Ok (uuid_hex (uuid4_int (urandom16 env (draws st)))),
     mkState (calls st) (S (draws st))).

(** ** [server.py] *)

Definition _get_json (env : environment) (url : string) : M json :=
  body <- urlopen env (mkRequest url None []) (TIMEOUT env) ;;
  read_json env body.

Definition _post_json (env : environment) (url : string) (data : dict pyval) : M json :=
  let encoded := urlencode (drop_None data) in
  let req := mkRequest url (Some encoded) [] in
  body <- urlopen env req (TIMEOUT env) ;;
  read_json env body.

Definition quoted (s : string) : string := String DQUOTE s ++ String DQUOTE "".

(** The part appended for a text field (lines 49 to 53) *)
Definition field_part (boundary key : string) (value : pyval) : string :=
  "--" ++ boundary ++ CRLF
  ++ "Content-Disposition: form-data; name=" ++ quoted key ++ CRLF ++ CRLF
  ++ py_str value ++ CRLF.

(** [mimetypes.guess_type(filename)[0] or 'application/octet-stream'] *)
Definition filetype_of (env : environment) (filename : string) : string :=
  match guess_type env filename with
  | Some (String c t) => String c t
  | _ => "application/octet-stream"
  end.

(** The part appended for a file (lines 56 to 63) *)
Definition file_part (env : environment) (boundary field : string) (f : file) : string :=
  let filename := basename (file_name f) in
  let content := file_content f in
  let filetype := filetype_of env filename in
  ("--" ++ boundary ++ CRLF
   ++ "Content-Disposition: form-data; name=" ++ quoted field
   ++ "; filename=" ++ quoted filename ++ CRLF
   ++ "Content-Type: " ++ filetype ++ CRLF ++ CRLF)
  ++ content ++ CRLF.

(** The first loop of [_post_multipart]: [data] after the text fields *)
Definition append_fields (boundary : string) (fields : dict pyval) (data : string) : string :=
  fold_left
    (fun data kv => if is_None (snd kv) then data
                    else data ++ field_part boundary (fst kv) (snd kv))
    fields data.

(** The second loop: [data] after the files *)
Definition append_files (env : environment) (boundary : string) (files : dict file)
    (data : string) : string :=
  fold_left (fun data ff => data ++ file_part env boundary (fst ff) (snd ff)) files data.

(** The body [_post_multipart] builds for a given boundary (lines 44 to 65) *)
Definition multipart_body (env : environment) (boundary : string)
    (fields : dict pyval) (files : dict file) : string :=
  let data := "" in
  let data := append_fields boundary fields data in
  let data := append_files env boundary files data in
  data ++ "--" ++ boundary ++ "--" ++ CRLF.

(** [str.capitalize()] on an ASCII header name, as [Request.add_header]
    applies it *)
Definition capitalize (s : string) : string :=
  let upper (c : ascii) := if in_range 97 122 c then ascii_of_nat (nat_of_ascii c - 32) else c in
  let lower (c : ascii) := if in_range 65 90 c then ascii_of_nat (nat_of_ascii c + 32) else c in
  match s with
  | EmptyString => ""
  | String c s' => String (upper c) (string_map lower s')
  end.

(** [Request.add_header]: [self.headers[key.capitalize()] = val] *)
Definition add_header (req : request) (key val : string) : request :=
  mkRequest (req_url req) (req_data req) (dict_set (req_headers req) (capitalize key) val).

Definition _post_multipart (env : environment) (url : string)
    (fields : dict pyval) (files : dict file) : M json :=
  boundary <- uuid4_hex env ;;
  let data := multipart_body env boundary fields files in
  let req := mkRequest url (Some data) [] in
  let req := add_header req "Content-Type" ("multipart/form-data; boundary=" ++ boundary) in
  body <- urlopen env req (TIMEOUT env) ;;
  read_json env body.

(** *** MCP tools *)

Definition sol_create_wallet (env : environment) : M string :=
  obj <- _get_json env (SOL_BASE env ++ "/pump/createWallet") ;;
  ret (json_dumps obj).

Definition sol_transfer_sol (env : environment)
    (fromPrivateKey toPublicKey amountSol : pyval) : M string :=
  let body := [ ("fromPrivateKey", fromPrivateKey);
                ("toPublicKey", toPublicKey);
                ("amountSol", amountSol) ] in
  obj <- _post_json env (SOL_BASE env ++ "/pump/transferSOL") body ;;
  ret (json_dumps obj).

Definition sol_execute_trade (env : environment)
    (privateKeyBase58 publicKey mint action denominatedInSol amount slippage priorityFee : pyval)
    : M string :=
  let body := [ ("privateKeyBase58", privateKeyBase58);
                ("publicKey", publicKey);
                ("mint", mint);
                ("action", action);
                ("denominatedInSol", denominatedInSol);
                ("amount", amount);
                ("slippage", slippage);
                ("priorityFee", priorityFee) ] in
  obj <- _post_json env (SOL_BASE env ++ "/pump/executeTrade") body ;;
  ret (json_dumps obj).

Definition sol_create_token (env : environment)
    (fromPrivateKey : pyval) (imagePath : string)
    (tokenName tokenSymbol tokenDescription devBuy : pyval) : M string :=
  f <- open_rb env imagePath ;;
  let files := [("file", f)] in
  let body := [ ("fromPrivateKey", fromPrivateKey);
                ("tokenName", tokenName);
                ("tokenSymbol", tokenSymbol);
                ("tokenDescription", tokenDescription);
                ("devBuy", devBuy) ] in
  obj <- _post_multipart env (SOL_BASE env ++ "/pump/createToken") body files ;;
  ret (json_dumps obj).

(** *** Calling a tool by keyword *)

(** A signature: the parameters in order, each with its default if any *)
Definition signature : Type := list (string * option pyval).

Definition sol_transfer_sol_signature : signature :=
  [ ("fromPrivateKey", None); ("toPublicKey", None); ("amountSol", None) ].

Definition sol_execute_trade_signature : signature :=
  [ ("privateKeyBase58", None); ("publicKey", None); ("mint", None);
    ("action", Some (PStr "buy"));
    ("denominatedInSol", Some (PBool false));
    ("amount", Some (PFloat (float_literal "0" "001")));
    ("slippage", Some (PInt 10));
    ("priorityFee", Some (PFloat (float_literal "0" "00001"))) ].

Definition required (sg : signature) : list string :=
  map fst (filter (fun p => match snd p with None => true | Some _ => false end) sg).

Definition optional (sg : signature) : list (string * pyval) :=
  flat_map (fun p => match snd p with None => [] | Some d => [(fst p, d)] end) sg.

Fixpoint lookup {V : Type} (k : string) (d : dict V) : option V :=
  match d with
  | [] => None
  | (k', v) :: d' => if String.eqb k' k then Some v else lookup k d'
  end.

(** Python's binding of keyword arguments to parameters: an unknown keyword
    and a missing parameter without default raise [TypeError]. *)
Fixpoint bind_parameters (sg : signature) (kwargs : dict pyval) : result (list pyval) :=
  match sg with
  | [] => Ok []
  | (name, default) :: sg' =>
      match match lookup name kwargs with Some v => Some v | None => default end with
      | None => Raise (TypeError ("missing a required argument: " ++ name))
      | Some v =>
          match bind_parameters sg' kwargs with
          | Ok vs => Ok (v :: vs)
          | Raise e => Raise e
          end
      end
  end.

Definition bind_arguments (sg : signature) (kwargs : dict pyval) : result (list pyval) :=
  match filter (fun kv => match lookup (fst kv) sg with None => true | Some _ => false end)
               kwargs with
  | (k, _) :: _ => Raise (TypeError ("got an unexpected keyword argument " ++ k))
  | [] => bind_parameters sg kwargs
  end.

(** [sol_transfer_sol] called with keyword arguments only *)
Definition call_sol_transfer_sol (env : environment) (kwargs : dict pyval) : M string :=
  args <- lift (bind_arguments sol_transfer_sol_signature kwargs) ;;
  match args with
  | [a; b; c] => sol_transfer_sol env a b c
  | _ => raise (TypeError "arity")
  end.

(** [sol_execute_trade] called with keyword arguments only *)
Definition call_sol_execute_trade (env : environment) (kwargs : dict pyval) : M string :=
  args <- lift (bind_arguments sol_execute_trade_signature kwargs) ;;
  match args with
  | [a; b; c; d; e; f; g; h] => sol_execute_trade env a b c d e f g h
  | _ => raise (TypeError "arity")
  end.

(** ** Stub environments for closed examples *)

(** No environment variables, the given files, one fixed reply to every
    request, no known MIME type, a random source that returns the given
    draws, and a [float] that is never reached by the examples. *)
Definition stub (files : string -> fs_entry) (reply : http_outcome)
    (random : nat -> Z) : environment :=
  mkEnvironment (fun _ => None) files (fun _ => reply) (fun _ => None) random (fun _ => FNan).

Definition no_files : string -> fs_entry := fun _ => Absent.

Definition one_file (path content : string) : string -> fs_entry :=
  fun p => if String.eqb p path then Regular content else Absent.

(** Double quotes written as single quotes in the examples *)
Definition dq (s : string) : string :=
  string_map (fun c => if Ascii.eqb c "'" then DQUOTE else c) s.

(** The data sent by the calls logged in a state *)
Definition sent (st : state) : list (string * option string) :=
  map (fun c => (req_url (fst c), req_data (fst c))) (calls st).

(** ** What a call amounts to *)

(** The state after one more call to [urlopen] *)
Definition logged (st : state) (req : request) (timeout : Z) : state :=
  mkState (calls st ++ [(req, timeout)]) (draws st).

(** What the upstream's reply to [req] becomes once [urlopen] and
    [json.loads(response.read().decode())] have run *)
Definition answer (env : environment) (req : request) : result json :=
  match upstream env req with
  | Response status body =>
      if ((200 <=? status) && (status <? 300))%Z
      then match decode body with
           | Ok text => loads env text
           | Raise e => Raise e
           end
      else Raise (HTTPError status body)
  | Unreachable reason => Raise (URLError reason)
  | TimedOut => Raise TimeoutError
  end.

(** [json.dumps(_, indent=2)] applied to a result *)
Definition dumped (r : result json) : result string :=
  match r with
  | Ok obj => Ok (json_dumps obj)
  | Raise e => Raise e
  end.

(** The requests the four tools build *)
Definition get_request (env : environment) (path : string) : request :=
  mkRequest (SOL_BASE env ++ path) None [].

Definition form_request (env : environment) (path : string) (data : dict pyval) : request :=
  mkRequest (SOL_BASE env ++ path) (Some (form_body data)) [].

Definition multipart_request (env : environment) (path boundary : string)
    (fields : dict pyval) (files : dict file) : request :=
  mkRequest (SOL_BASE env ++ path)
    (Some (multipart_body env boundary fields files))
    [("Content-type", "multipart/form-data; boundary=" ++ boundary)].

(** The boundary [_post_multipart] generates when [n] draws were taken *)
Definition boundary_at (env : environment) (n : nat) : string :=
  uuid_hex (uuid4_int (urandom16 env n)).

(** ** The text of a value at a nesting level *)

(** The chunks of [iterencode] joined, for a value met at the given level *)
Definition dumps_at (o : json) (level : nat) : string := join "" (iterencode o level).

(** The loop of [_iterencode_dict] on the remaining items *)
Fixpoint dict_loop (level : nat) (items : list (string * json)) (first : bool)
    : list string :=
  match items with
  | [] => []
  | (key, value) :: items' =>
      ((if first then [] else [("," ++ newline_indent (S level))%string])
       ++ [encode_basestring_ascii key; ": "]
       ++ match scalar_text value with
          | Some t => [t]
          | None => iterencode value (S level)
          end
       ++ dict_loop level items' false)%list
  end.

(** The loop of [_iterencode_list] on the remaining values *)
Fixpoint list_loop (level : nat) (l : list json) (first : bool) (buf : string)
    : list string :=
  match l with
  | [] => []
  | value :: l' =>
      let buf := if first then buf else ("," ++ newline_indent (S level))%string in
      (match scalar_text value with
       | Some t => [(buf ++ t)%string]
       | None => buf :: iterencode value (S level)
       end ++ list_loop level l' false buf)%list
  end.

(** One member of an object and one item of an array, as text *)
Definition member_text (level : nat) (kv : string * json) : string :=
  encode_basestring_ascii (fst kv) ++ ": " ++ dumps_at (snd kv) (S level).

Definition item_text (level : nat) (v : json) : string := dumps_at v (S level).

(** ** Parts and random bits *)

(** The 122 of the 128 random bits that [uuid4] keeps: all but bits 62 and
    63 (the variant) and 76 to 79 (the version) *)
Definition kept_bits : Z :=
  Z.land (Z.ones 128)
    (Z.land (Z.lnot (Z.shiftl 49152 48)) (Z.lnot (Z.shiftl 61440 64))).

(** The bits [uuid4] writes: variant [10], version 4 *)
Definition fixed_bits : Z := Z.lor (Z.shiftl 32768 48) (Z.shiftl 4 76).

(** What stands between the boundary line of a part and the line break that
    ends it: the headers, an empty line and the content *)
Definition field_payload (key : string) (value : pyval) : string :=
  "Content-Disposition: form-data; name=" ++ quoted key ++ CRLF ++ CRLF ++ py_str value.

Definition file_payload (env : environment) (field : string) (f : file) : string :=
  "Content-Disposition: form-data; name=" ++ quoted field
  ++ "; filename=" ++ quoted (basename (file_name f)) ++ CRLF
  ++ "Content-Type: " ++ filetype_of env (basename (file_name f)) ++ CRLF ++ CRLF
  ++ file_content f.

(** The payloads of the parts of a body, in the order in which they are
    written: the fields that are not [None], then the files *)
Definition payloads (env : environment) (fields : dict pyval) (files : dict file)
    : list string :=
  (map (fun kv => field_payload (fst kv) (snd kv)) (drop_None fields)
   ++ map (fun ff => file_payload env (fst ff) (snd ff)) files)%list.

(** A payload framed as a part: the boundary line before, a line break after *)
Definition framed (boundary payload : string) : string :=
  "--" ++ boundary ++ CRLF ++ payload ++ CRLF.

(** ** Decoding: [unquote_plus] and a multipart parser

    These are not part of [server.py]: they stand for the receiving side,
    [urllib.parse.unquote_plus] for a form body and a parser of
    [multipart/form-data] after RFC 2046 (section 5.1.1) and RFC 7578 for a
    multipart body. *)

(** [urllib.parse.unquote_plus]: [+] is a space, [%XX] a byte, anything
    else stands for itself *)
Fixpoint unquote_plus (s : string) : string :=
  match s with
  | EmptyString => ""
  | String c s' =>
      if Ascii.eqb c "+" then String " " (unquote_plus s')
      else if Ascii.eqb c "%" then
        match s' with
        | String a (String b rest) =>
            match hex_value a, hex_value b with
            | Some x, Some y => String (ascii_of_N (16 * x + y)) (unquote_plus rest)
            | _, _ => String c (unquote_plus s')
            end
        | _ => String c (unquote_plus s')
        end
      else String c (unquote_plus s')
  end.

(** [s.split(d)] for a non-empty [d]: [skip] characters of a separator
    just found are still to be passed over, [cur] is the piece being read *)
Fixpoint split_on (d s : string) (skip : nat) (cur : string) : list string :=
  match s with
  | EmptyString => [cur]
  | String c s' =>
      match skip with
      | S k => split_on d s' k cur
      | O =>
          if starts_with d s
          then cur :: split_on d s' (String.length d - 1) ""
          else split_on d s' 0 (cur ++ String c "")
      end
  end.

Definition split (d s : string) : list string := split_on d s 0 "".

(** [s.partition(d)]: what stands before and after the first [d] *)
Fixpoint split_at (d s : string) : option (string * string) :=
  if starts_with d s then Some ("", drop (String.length d) s)
  else
    match s with
    | EmptyString => None
    | String c s' =>
        match split_at d s' with
        | Some (a, b) => Some (String c a, b)
        | None => None
        end
    end.

(** The header lines of a part up to the empty line, and the content that
    follows it; [cur] is the line being read *)
Fixpoint read_headers (s cur : string) : option (list string * string) :=
  match s with
  | EmptyString => None
  | String c s' =>
      match c, s' with
      | "013"%char, String "010" rest =>
          match cur with
          | EmptyString => Some ([], rest)
          | _ =>
              match read_headers rest "" with
              | Some (lines, content) => Some (cur :: lines, content)
              | None => None
              end
          end
      | _, _ => read_headers s' (cur ++ String c "")
      end
  end.

Fixpoint skip_spaces (s : string) : string :=
  match s with
  | String " " s' => skip_spaces s'
  | _ => s
  end.

Definition lower (c : ascii) : ascii :=
  if in_range 65 90 c then ascii_of_nat (nat_of_ascii c + 32) else c.

(** The value of the first header with the given name (names do not
    distinguish case) *)
Fixpoint header (name : string) (lines : list string) : option string :=
  match lines with
  | [] => None
  | line :: lines' =>
      if starts_with (string_map lower name ++ ":") (string_map lower line)
      then Some (skip_spaces (drop (S (String.length name)) line))
      else header name lines'
  end.

(** The parameters [; attribute="value"] of a header value; a quoted value
    ends at the next double quote *)
Fixpoint parse_params (fuel : nat) (s : string) : option (list (string * string)) :=
  match fuel with
  | O => None
  | S fuel' =>
      match s with
      | EmptyString => Some []
      | String ";" s1 =>
          match split_at "=" (skip_spaces s1) with
          | Some (attribute, String q s2) =>
              if Ascii.eqb q DQUOTE then
                match split_at (String DQUOTE "") s2 with
                | Some (value, rest) =>
                    match parse_params fuel' rest with
                    | Some params => Some ((attribute, value) :: params)
                    | None => None
                    end
                | None => None
                end
              else None
          | _ => None
          end
      | _ => None
      end
  end.

(** [Content-Disposition: form-data; name="..."[; filename="..."]] *)
Definition parse_disposition (v : string) : option (list (string * string)) :=
  if starts_with "form-data" v
  then parse_params (String.length v) (drop 9 v)
  else None.

(** A decoded part *)
Inductive form_part : Type :=
| TextField (name value : string)
| FileField (name filename content_type content : string).

(** What stands between two delimiters: a line break, the header lines, an
    empty line and the content *)
Definition decode_part (segment : string) : option form_part :=
  match segment with
  | String "013" (String "010" s) =>
      match read_headers s "" with
      | None => None
      | Some (lines, content) =>
          match header "Content-Disposition" lines with
          | None => None
          | Some v =>
              match parse_disposition v with
              | None => None
              | Some params =>
                  match lookup "name" params, lookup "filename" params with
                  | None, _ => None
                  | Some name, None => Some (TextField name content)
                  | Some name, Some filename =>
                      Some (FileField name filename
                              match header "Content-Type" lines with
                              | Some t => t
                              | None => "text/plain"
                              end content)
                  end
              end
          end
      end
  | _ => None
  end.

(** The parts up to the closing delimiter, whose segment starts with [--] *)
Fixpoint decode_segments (segments : list string) : option (list form_part) :=
  match segments with
  | [] => None
  | segment :: rest =>
      if starts_with "--" segment then Some []
      else
        match decode_part segment, decode_segments rest with
        | Some p, Some ps => Some (p :: ps)
        | _, _ => None
        end
  end.

(** The body is cut at every delimiter, a line break followed by
    [--boundary]; the first delimiter may stand at the very start, what
    comes before it is the preamble. *)
Definition parse_multipart (boundary body : string) : option (list form_part) :=
  match split (CRLF ++ "--" ++ boundary) (CRLF ++ body) with
  | _preamble :: segments => decode_segments segments
  | [] => None
  end.

(** What the parts of a body should decode to *)
Definition text_fields (fields : dict pyval) : list form_part :=
  map (fun kv => TextField (fst kv) (py_str (snd kv))) (drop_None fields).

Definition file_field (env : environment) (field : string) (f : file) : form_part :=
  FileField field (basename (file_name f)) (filetype_of env (basename (file_name f)))
            (file_content f).

(** No double quote, carriage return or line feed: what a name may hold to
    be written between quotes on a header line *)
Definition header_safe (s : string) : bool :=
  string_forallb
    (fun c => negb (Ascii.eqb c DQUOTE || Ascii.eqb c "013" || Ascii.eqb c "010")) s.

(** No space, carriage return or line feed: a media type *)
Definition token_safe (s : string) : bool :=
  string_forallb
    (fun c => negb (Ascii.eqb c " " || Ascii.eqb c "013" || Ascii.eqb c "010")) s.

(** [d] starts at no position of [a] in [a ++ t] *)
Fixpoint free_prefix (d a t : string) : bool :=
  match a with
  | EmptyString => true
  | String _ a' => negb (starts_with d (a ++ t)) && free_prefix d a' t
  end.

(** The mapping without the key [k] *)
Definition without (k : string) (data : dict pyval) : dict pyval :=
  filter (fun kv => negb (String.eqb (fst kv) k)) data.

(** ** The number a decimal numeral denotes

    Not part of [server.py]: the reading of a numeral
    [-]digits[.digits][e(+|-)digits] on the receiving side.  The result
    [(sign, m, e)] stands for (-1)^sign * m * 10^e. *)
Definition unsigned_value (t : string) : option (Z * Z) :=
  let (ip, t2) := span_digits t in
  let (fp, t3) :=
    match t2 with
    | String "." r => span_digits r
    | _ => ("", t2)
    end in
  let m := digits_value (ip ++ fp) in
  let shift := Z.of_nat (String.length fp) in
  match ip, t3 with
  | EmptyString, _ => None
  | _, EmptyString => Some (m, (- shift)%Z)
  | _, String "e" r =>
      let (esign, r1) :=
        match r with
        | String "-" u => (true, u)
        | String "+" u => (false, u)
        | _ => (false, r)
        end in
      match span_digits r1 with
      | (String c ed, EmptyString) =>
          let x := digits_value (String c ed) in
          Some (m, ((if esign then - x else x) - shift)%Z)
      | _ => None
      end
  | _, _ => None
  end.

Definition signed (sign : bool) (v : option (Z * Z)) : option (bool * Z * Z) :=
  match v with
  | Some (m, e) => Some (sign, m, e)
  | None => None
  end.

Definition numeral_value (t : string) : option (bool * Z * Z) :=
  match t with
  | String "-" r => signed true (unsigned_value r)
  | _ => signed false (unsigned_value t)
  end.

(** [m1 * 10^e1] and [m2 * 10^e2] are the same number *)
Definition same_decimal (m1 e1 m2 e2 : Z) : Prop :=
  (m1 * 10 ^ (e1 - Z.min e1 e2) = m2 * 10 ^ (e2 - Z.min e1 e2))%Z.

(** The number a finite float stands for: its digits, scaled *)
Definition float_mantissa (ds : string) : Z := digits_value ds.
Definition float_exponent (ds : string) (decpt : Z) : Z :=
  (decpt - Z.of_nat (String.length ds))%Z.

(** The sign as [format_float_short] writes it *)
Definition sign_text (sign : bool) : string := if sign then "-" else "".

(** ** Statements about the four tools at once *)

(** Every tool returns [r]; [sol_create_token] does so whenever its file
    can be opened *)
Definition every_tool_returns (env : environment) (r : result string) : Prop :=
  (forall st, fst (sol_create_wallet env st) = r)
  /\ (forall a b c st, fst (sol_transfer_sol env a b c st) = r)
  /\ (forall a b c d e f g h st, fst (sol_execute_trade env a b c d e f g h st) = r)
  /\ (forall k path n s d b content st,
        file_system env path = Regular content ->
        fst (sol_create_token env k path n s d b st) = r).

(** White space as [json] understands it *)
Definition is_json_space (c : ascii) : bool :=
  string_mem c (String " " (String "009" (String "010" (String "013" "")))).

(** The byte order mark in UTF-8 *)
Definition BOM : string := String "239" (String "187" (String "191" "")).

(** ** Decoding a form body: [urllib.parse.parse_qsl]

    Not part of [server.py]: the receiving side of a form body,
    [parse_qsl(qs, keep_blank_values=True)].  A piece without [=] is a name
    with an empty value, an empty piece is passed over. *)
Definition parse_pair (name_value : string) : list (string * string) :=
  match name_value with
  | EmptyString => []
  | _ =>
      match split_at "=" name_value with
      | Some (name, value) => [(unquote_plus name, unquote_plus value)]
      | None => [(unquote_plus name_value, "")]
      end
  end.

Definition parse_qsl (qs : string) : list (string * string) :=
  flat_map parse_pair (split "&" qs).

(** The characters of a form body: unreserved ones, [+], [%], [&] and [=] *)
Definition form_char (c : ascii) : bool :=
  always_safe c || string_mem c "+%&=".

(** ** Arguments of a call by keyword *)

(** The value a parameter gets: the one supplied, else its default *)
Definition argument (kwargs : dict pyval) (p : string * option pyval) : option pyval :=
  match lookup (fst p) kwargs with
  | Some v => Some v
  | None => snd p
  end.

(** The values of the parameters that got one, in the order of the signature *)
Definition arguments (sg : signature) (kwargs : dict pyval) : list pyval :=
  flat_map (fun p => match argument kwargs p with Some v => [v] | None => [] end) sg.

(** Lower-case hexadecimal digits *)
Definition is_lower_hex (c : ascii) : bool := string_mem c "0123456789abcdef".

(** The value supplied for a parameter with a default *)
Definition supplied (kwargs : dict pyval) (name : string) (default : pyval) : pyval :=
  match lookup name kwargs with
  | Some v => v
  | None => default
  end.

(** ** The characters of the text a tool returns *)

(** Printable ASCII, from the space to the tilde, or a line feed *)
Definition printable (c : ascii) : bool :=
  let b := N_of_ascii c in (((32 <=? b) && (b <=? 126)) || (b =? 10))%N.

(** The digit string of a finite float holds decimal digits only, as
    every result of [_Py_dg_dtoa] does *)
Definition float_digits (f : pyfloat) : bool :=
  match f with
  | FFinite _ digits _ => string_forallb is_digit digits
  | _ => true
  end.

Fixpoint floats_have_digits (v : json) : bool :=
  match v with
  | JFloat f => float_digits f
  | JList l => forallb floats_have_digits l
  | JDict d => forallb (fun kv => floats_have_digits (snd kv)) d
  | _ => true
  end.

(** ** Keys of the objects read *)

(** No string occurs twice in the list *)
Fixpoint distinct (l : list string) : bool :=
  match l with
  | [] => true
  | k :: l' => negb (existsb (String.eqb k) l') && distinct l'
  end.

(** No object of the value, at any depth, has a key twice *)
Fixpoint no_repeated_key (v : json) : bool :=
  match v with
  | JList l => forallb no_repeated_key l
  | JDict d => distinct (map fst d) && forallb (fun kv => no_repeated_key (snd kv)) d
  | _ => true
  end.


(** ** Code points and their bytes *)

(** The code point [escape_ascii] reads off a sequence of two, three and
    four bytes *)
Definition code_point2 (c1 c2 : ascii) : N :=
  N.lor (N.shiftl (N.land (N_of_ascii c1) 31) 6) (N.land (N_of_ascii c2) 63).

Definition code_point3 (c1 c2 c3 : ascii) : N :=
  N.lor (N.shiftl (N.lor (N.shiftl (N.land (N_of_ascii c1) 15) 6)
                         (N.land (N_of_ascii c2) 63)) 6)
        (N.land (N_of_ascii c3) 63).

Definition code_point4 (c1 c2 c3 c4 : ascii) : N :=
  N.lor (N.shiftl (N.lor (N.shiftl (N.lor (N.shiftl (N.land (N_of_ascii c1) 7) 6)
                                          (N.land (N_of_ascii c2) 63)) 6)
                         (N.land (N_of_ascii c3) 63)) 6)
        (N.land (N_of_ascii c4) 63).

(** The two halves of the surrogate pair [escape_code_point] writes for a
    code point beyond the basic plane, and the code point [scanstring]
    makes of a pair *)
Definition high_surrogate (n : N) : N :=
  N.lor 55296 (N.land (N.shiftr (n - 65536) 10) 1023).

Definition low_surrogate (n : N) : N := N.lor 56320 (N.land (n - 65536) 1023).

Definition of_surrogates (hi lo : N) : N :=
  (65536 + N.lor (N.shiftl (hi - 55296) 10) (lo - 56320))%N.

(** ** The stages of [NUMBER_RE] *)

Definition number_sign (s : string) : string * string :=
  match s with
  | String "-" s' => ("-", s')
  | _ => ("", s)
  end.

Definition number_int (s1 : string) : option (string * string) :=
  match s1 with
  | String "0" s2 => Some ("0", s2)
  | String c _ => if is_digit c then Some (span_digits s1) else None
  | EmptyString => None
  end.

Definition number_frac (s2 : string) : string * string :=
  match s2 with
  | String "." t =>
      match span_digits t with
      | (EmptyString, _) => ("", s2)
      | (d, r) => (String "." d, r)
      end
  | _ => ("", s2)
  end.

Definition number_exp (s3 : string) : string * string :=
  match s3 with
  | String e t =>
      if Ascii.eqb e "e" || Ascii.eqb e "E" then
        let (sg, t') :=
          match t with
          | String "-" u => ("-", u)
          | String "+" u => ("+", u)
          | _ => ("", t)
          end in
        match span_digits t' with
        | (EmptyString, _) => ("", s3)
        | (d, r) => (String e (sg ++ d), r)
        end
      else ("", s3)
  | EmptyString => ("", s3)
  end.

(** What [json.dumps] puts after a value: nothing, a comma or a line feed *)
Definition ends_value (rest : string) : bool :=
  match rest with
  | EmptyString => true
  | String c _ => Ascii.eqb c "," || Ascii.eqb c "010"
  end.

(** The digits of a finite float as [_Py_dg_dtoa] gives them: decimal
    digits without a leading zero, or ["0"] with the point after it *)
Definition float_canonical (f : pyfloat) : bool :=
  match f with
  | FFinite _ digits decpt =>
      string_forallb is_digit digits
      && match digits with
         | EmptyString => false
         | String c t =>
             negb (Ascii.eqb c "0")
             || (match t with EmptyString => true | _ => false end && (decpt =? 1)%Z)
         end
  | _ => true
  end.

(** ** Values that [json.loads] reads back from what [json.dumps] writes *)

(** A finite float has the digits of a float, and the conversion of the C
    library gives it back from its [repr]: [float(repr(x)) == x] *)
Definition float_reads_back (parse_float : string -> pyfloat) (f : pyfloat) : Prop :=
  match f with
  | FFinite _ _ _ => float_canonical f = true /\ parse_float (float_repr f) = f
  | _ => True
  end.

(** The strings and the keys are well-formed UTF-8, no object has a key
    twice and the floats read back *)
Fixpoint reads_back (parse_float : string -> pyfloat) (v : json) : Prop :=
  match v with
  | JStr s => utf8_valid s = true
  | JFloat f => float_reads_back parse_float f
  | JList l => fold_right (fun x acc => reads_back parse_float x /\ acc) True l
  | JDict d =>
      distinct (map fst d) = true
      /\ fold_right (fun kv acc =>
                       utf8_valid (fst kv) = true
                       /\ reads_back parse_float (snd kv) /\ acc) True d
  | _ => True
  end.

(** A bound on the fuel [scan_once] needs for the text of a value *)
Fixpoint json_size (v : json) : nat :=
  match v with
  | JList l => S (fold_right (fun x acc => S (json_size x + acc)) 0 l)
  | JDict d => S (fold_right (fun kv acc => S (json_size (snd kv) + acc)) 0 d)
  | _ => 1
  end.

(** [scan_once] reads the value back from its text at every level, whatever
    follows it, given fuel for its size *)
Definition read_back (parse_float : string -> pyfloat) (v : json) : Prop :=
  forall (level : nat) (rest : string) (fuel : nat),
    reads_back parse_float v -> ends_value rest = true -> json_size v <= fuel ->
    scan_once parse_float fuel (dumps_at v level ++ rest) = Scanned v rest.

(** The characters a JSON value can start with *)
Definition value_start (c : ascii) : bool :=
  is_digit c || string_mem c "-ntfNI[{" || Ascii.eqb c DQUOTE.

(* ================================================================== *)
(** * Properties *)
(* ================================================================== *)

(** ** Strings *)

Lemma append_nil_r (s : string) : s ++ "" = s.
Proof. induction s; simpl; congruence. Qed.

Lemma append_assoc (a b c : string) : (a ++ b) ++ c = a ++ b ++ c.
Proof. induction a; simpl; congruence. Qed.

Lemma string_map_app (f : ascii -> ascii) (a b : string) :
  string_map f (a ++ b) = string_map f a ++ string_map f b.
Proof. induction a; simpl; congruence. Qed.

Lemma string_mem_app (c : ascii) (a b : string) :
  string_mem c (a ++ b) = string_mem c a || string_mem c b.
Proof.
  induction a as [|d a IH]; simpl; [reflexivity|].
  rewrite IH. now rewrite orb_assoc.
Qed.

(** A character is in no piece of a concatenation *)
Ltac mem_false :=
  repeat (rewrite string_mem_app || (progress cbn [string_mem append]));
  repeat match goal with
         | H : string_mem _ _ = false |- _ => rewrite H
         end;
  reflexivity.

(** A fact about every byte, checked on the 256 of them *)
Ltac each_byte c := destruct c as [[] [] [] [] [] [] [] []]; vm_compute; try reflexivity.

(** ** Percent-encoding *)

Lemma quote_from_bytes_app (safe a b : string) :
  quote_from_bytes safe (a ++ b) = quote_from_bytes safe a ++ quote_from_bytes safe b.
Proof.
  induction a as [|c a IH]; simpl; [reflexivity|].
  now rewrite IH, append_assoc.
Qed.

Lemma quoter_space_safe (c : ascii) :
  Ascii.eqb " " c = false -> quoter " " c = quoter "" c.
Proof. each_byte c; discriminate. Qed.

Lemma quoter_no_space (c : ascii) :
  string_map space_to_plus (quoter "" c) = quoter "" c.
Proof. each_byte c. Qed.

Lemma quote_no_space_arg (s : string) :
  string_mem " " s = false -> quote_from_bytes " " s = quote_from_bytes "" s.
Proof.
  induction s as [|c s IH]; simpl; [reflexivity|].
  intros H. apply orb_false_iff in H as [Hc Hs].
  now rewrite IH, quoter_space_safe.
Qed.

Lemma quote_no_space_out (s : string) :
  string_map space_to_plus (quote_from_bytes "" s) = quote_from_bytes "" s.
Proof.
  induction s as [|c s IH]; simpl; [reflexivity|].
  now rewrite string_map_app, IH, quoter_no_space.
Qed.

(** [quote_plus] takes the same road whether or not there is a space *)
Lemma quote_plus_uniform (s : string) :
  quote_plus "" s = string_map space_to_plus (quote_from_bytes " " s).
Proof.
  unfold quote_plus, quote. simpl.
  destruct (string_mem " " s) eqn:E; [reflexivity|].
  now rewrite (quote_no_space_arg s E), quote_no_space_out.
Qed.

Lemma quote_plus_app (a b : string) :
  quote_plus "" (a ++ b) = quote_plus "" a ++ quote_plus "" b.
Proof. now rewrite !quote_plus_uniform, quote_from_bytes_app, string_map_app. Qed.

Lemma quote_plus_cons (c : ascii) (s : string) :
  quote_plus "" (String c s) = quote_plus "" (String c "") ++ quote_plus "" s.
Proof. exact (quote_plus_app (String c "") s). Qed.

Lemma quote_plus_byte_clean (c : ascii) :
  string_mem "&" (string_map space_to_plus (quoter " " c)) = false
  /\ string_mem "=" (string_map space_to_plus (quoter " " c)) = false.
Proof. each_byte c; split; reflexivity. Qed.

Lemma quote_plus_no_amp (s : string) : string_mem "&" (quote_plus "" s) = false.
Proof.
  rewrite quote_plus_uniform.
  induction s as [|c s IH]; [reflexivity|].
  cbn [quote_from_bytes]. rewrite string_map_app, string_mem_app, IH.
  now rewrite (proj1 (quote_plus_byte_clean c)).
Qed.

Lemma quote_plus_no_eq (s : string) : string_mem "=" (quote_plus "" s) = false.
Proof.
  rewrite quote_plus_uniform.
  induction s as [|c s IH]; [reflexivity|].
  cbn [quote_from_bytes]. rewrite string_map_app, string_mem_app, IH.
  now rewrite (proj2 (quote_plus_byte_clean c)).
Qed.

(** ** Decoding a form body *)

Lemma unquote_plus_byte (c : ascii) (t : string) :
  unquote_plus (string_map space_to_plus (quoter " " c) ++ t) = String c (unquote_plus t).
Proof. destruct c as [[] [] [] [] [] [] [] []]; reflexivity. Qed.

(** [unquote_plus] recovers what [quote_plus] was given *)
Lemma unquote_plus_quote_plus (s : string) : unquote_plus (quote_plus "" s) = s.
Proof.
  rewrite quote_plus_uniform.
  induction s as [|c s IH]; [reflexivity|].
  cbn [quote_from_bytes]. rewrite string_map_app, unquote_plus_byte. now rewrite IH.
Qed.

Lemma quote_plus_inj (a b : string) : quote_plus "" a = quote_plus "" b -> a = b.
Proof.
  intros H. apply (f_equal unquote_plus) in H.
  now rewrite !unquote_plus_quote_plus in H.
Qed.

(** ** The helpers and the tools, run on a state *)

Lemma read_json_run (env : environment) (body : string) (st : state) :
  read_json env body st =
  (match decode body with Ok text => loads env text | Raise e => Raise e end, st).
Proof.
  unfold read_json, bind, lift. now destruct (decode body).
Qed.

Lemma urlopen_read_json_run (env : environment) (req : request) (st : state) :
  (body <- urlopen env req (TIMEOUT env) ;; read_json env body) st
  = (answer env req, logged st req (TIMEOUT env)).
Proof.
  unfold bind, urlopen, answer, logged.
  destruct (upstream env req) as [status body|reason|]; try reflexivity.
  destruct ((200 <=? status) && (status <? 300))%Z; [|reflexivity].
  apply read_json_run.
Qed.

Lemma get_json_run (env : environment) (path : string) (st : state) :
  _get_json env (SOL_BASE env ++ path) st
  = (answer env (get_request env path), logged st (get_request env path) (TIMEOUT env)).
Proof. unfold _get_json. apply urlopen_read_json_run. Qed.

Lemma post_json_run (env : environment) (path : string) (data : dict pyval) (st : state) :
  _post_json env (SOL_BASE env ++ path) data st
  = (answer env (form_request env path data),
     logged st (form_request env path data) (TIMEOUT env)).
Proof. unfold _post_json. apply urlopen_read_json_run. Qed.

Lemma post_multipart_run (env : environment) (path : string)
    (fields : dict pyval) (files : dict file) (st : state) :
  let req := multipart_request env path (boundary_at env (draws st)) fields files in
  _post_multipart env (SOL_BASE env ++ path) fields files st
  = (answer env req, mkState (calls st ++ [(req, TIMEOUT env)]) (S (draws st))).
Proof.
  unfold _post_multipart, bind at 1. unfold uuid4_hex at 1.
  cbv zeta. rewrite urlopen_read_json_run. reflexivity.
Qed.

Lemma dumps_after (m : M json) (st : state) :
  (obj <- m ;; ret (json_dumps obj)) st = (dumped (fst (m st)), snd (m st)).
Proof. unfold bind, ret. destruct (m st) as [[obj|e] st']; reflexivity. Qed.

Lemma sol_create_wallet_run (env : environment) (st : state) :
  let req := get_request env "/pump/createWallet" in
  sol_create_wallet env st = (dumped (answer env req), logged st req (TIMEOUT env)).
Proof. unfold sol_create_wallet. cbv zeta. now rewrite dumps_after, get_json_run. Qed.

Lemma sol_transfer_sol_run (env : environment) (a b c : pyval) (st : state) :
  let req := form_request env "/pump/transferSOL"
               [("fromPrivateKey", a); ("toPublicKey", b); ("amountSol", c)] in
  sol_transfer_sol env a b c st = (dumped (answer env req), logged st req (TIMEOUT env)).
Proof. unfold sol_transfer_sol. cbv zeta. now rewrite dumps_after, post_json_run. Qed.

Lemma sol_execute_trade_run (env : environment) (a b c d e f g h : pyval) (st : state) :
  let req := form_request env "/pump/executeTrade"
               [("privateKeyBase58", a); ("publicKey", b); ("mint", c); ("action", d);
                ("denominatedInSol", e); ("amount", f); ("slippage", g);
                ("priorityFee", h)] in
  sol_execute_trade env a b c d e f g h st
  = (dumped (answer env req), logged st req (TIMEOUT env)).
Proof. unfold sol_execute_trade. cbv zeta. now rewrite dumps_after, post_json_run. Qed.

Lemma sol_create_token_run (env : environment) (k : pyval) (path : string)
    (n s d b : pyval) (content : string) (st : state) :
  file_system env path = Regular content ->
  let req := multipart_request env "/pump/createToken" (boundary_at env (draws st))
               [("fromPrivateKey", k); ("tokenName", n); ("tokenSymbol", s);
                ("tokenDescription", d); ("devBuy", b)]
               [("file", mkFile path content)] in
  sol_create_token env k path n s d b st
  = (dumped (answer env req), mkState (calls st ++ [(req, TIMEOUT env)]) (S (draws st))).
Proof.
  intros Hf. cbv zeta. unfold sol_create_token, bind at 1, open_rb. rewrite Hf.
  unfold ret at 1. now rewrite dumps_after, post_multipart_run.
Qed.

(** ** Form encoding of the transfer (claim C2) *)

(** C2, as stated, fails: [sol_transfer_sol] called with ["A"], ["B"] and
    [0.02] does not send the body [fromKey=A&toAddress=B&amount=0.02]; the
    keys on the wire are the parameter names of the source. *)
Lemma transfer_body_is_not_the_claimed_string :
  sent (snd (sol_transfer_sol (stub no_files (Response 200 "{}") (fun _ => 0%Z))
               (PStr "A") (PStr "B") (PFloat (float_literal "0" "02")) initial))
  <> [("https://api-solana.nodra.app/pump/transferSOL",
       Some "fromKey=A&toAddress=B&amount=0.02")].
Proof. vm_compute. discriminate. Qed.

(** C2 (amended): [sol_transfer_sol] called with ["A"], ["B"] and [0.02]
    makes one request, to [/pump/transferSOL], whose body is exactly
    [fromPrivateKey=A&toPublicKey=B&amountSol=0.02]; and the form encoder
    percent-encodes every [&] of a value as [%26], so that no encoded key or
    value contains [&] or [=]. *)
Theorem transfer_sol_form_body (env : environment) (st : state) :
  snd (sol_transfer_sol env (PStr "A") (PStr "B") (PFloat (float_literal "0" "02")) st)
  = logged st
      (mkRequest (SOL_BASE env ++ "/pump/transferSOL")
                 (Some "fromPrivateKey=A&toPublicKey=B&amountSol=0.02") [])
      (TIMEOUT env)
  /\ (forall k a b : string,
        form_body [(k, PStr (a ++ "&" ++ b))]
        = quote_plus "" k ++ "=" ++ quote_plus "" a ++ "%26" ++ quote_plus "" b)
  /\ (forall s : string,
        string_mem "&" (quote_plus "" s) = false
        /\ string_mem "=" (quote_plus "" s) = false).
Proof.
  split; [|split].
  - rewrite sol_transfer_sol_run. reflexivity.
  - intros k a b. unfold form_body, urlencode, urlencode_item. simpl.
    now rewrite quote_plus_app, (quote_plus_cons "&" b).
  - intros s. split; [apply quote_plus_no_amp | apply quote_plus_no_eq].
Qed.

(** ** A file that cannot be opened (claim C4) *)

(** [open] comes first: a path that cannot be opened ends the call there *)
Lemma create_token_open_fails (env : environment) (k : pyval) (path : string)
    (n s d b : pyval) (st : state) :
  sol_create_token env k path n s d b st =
  match file_system env path with
  | Absent => (Raise (FileNotFoundError path), st)
  | Denied => (Raise (PermissionError path), st)
  | Directory => (Raise (IsADirectoryError path), st)
  | Regular content =>
      sol_create_token env k path n s d b st
  end.
Proof.
  destruct (file_system env path) eqn:E; [| | |reflexivity];
    unfold sol_create_token, bind, open_rb; now rewrite E.
Qed.




(** ** A status outside 200..299 (claim C5) *)

Lemma answer_http_error (env : environment) (req : request) (status : Z) (body : string) :
  upstream env req = Response status body ->
  (status < 200 \/ 300 <= status)%Z ->
  answer env req = Raise (HTTPError status body).
Proof.
  intros H Hs. unfold answer. rewrite H.
  destruct ((200 <=? status) && (status <? 300))%Z eqn:E; [|reflexivity].
  apply andb_true_iff in E as [E1 E2].
  apply Z.leb_le in E1. apply Z.ltb_lt in E2. lia.
Qed.




(** ** The defaults of the trade (claim C7) *)

(** C7, as stated, fails: the required parameters of [sol_execute_trade] are
    not named [privateKey], [publicKey] and [assetId], and a call that
    supplies exactly these three is rejected before anything is sent. *)
Lemma execute_trade_claimed_names_rejected :
  required sol_execute_trade_signature <> ["privateKey"; "publicKey"; "assetId"]
  /\ call_sol_execute_trade (stub no_files (Response 200 "{}") (fun _ => 0%Z))
       [("privateKey", PStr "k"); ("publicKey", PStr "p"); ("assetId", PStr "m")] initial
     = (Raise (TypeError "got an unexpected keyword argument privateKey"), initial).
Proof. split; [vm_compute; discriminate | reflexivity]. Qed.

(** C7 (amended): [sol_execute_trade] has the required parameters
    [privateKeyBase58], [publicKey] and [mint] and the optional ones
    [action] = ["buy"], [denominatedInSol] = [False], [amount] = [0.001],
    [slippage] = [10] and [priorityFee] = [0.00001]; a call that supplies
    only the required ones makes one request, to [/pump/executeTrade], whose
    form body carries these defaults after the three given values, as the
    texts [buy], [False], [0.001], [10] and [1e-05]. *)
Theorem execute_trade_defaults (env : environment) (k p m : string) (st : state) :
  required sol_execute_trade_signature = ["privateKeyBase58"; "publicKey"; "mint"]
  /\ optional sol_execute_trade_signature
     = [ ("action", PStr "buy"); ("denominatedInSol", PBool false);
         ("amount", PFloat (float_literal "0" "001")); ("slippage", PInt 10);
         ("priorityFee", PFloat (float_literal "0" "00001")) ]
  /\ snd (call_sol_execute_trade env
            [("privateKeyBase58", PStr k); ("publicKey", PStr p); ("mint", PStr m)] st)
     = logged st
         (mkRequest (SOL_BASE env ++ "/pump/executeTrade")
            (Some ("privateKeyBase58=" ++ quote_plus "" k
                   ++ "&publicKey=" ++ quote_plus "" p
                   ++ "&mint=" ++ quote_plus "" m
                   ++ "&action=buy&denominatedInSol=False&amount=0.001"
                   ++ "&slippage=10&priorityFee=1e-05")) [])
         (TIMEOUT env).
Proof.
  split; [reflexivity|]. split; [reflexivity|].
  unfold call_sol_execute_trade, bind, lift. cbn [bind_arguments].
  change (bind_arguments sol_execute_trade_signature
            [("privateKeyBase58", PStr k); ("publicKey", PStr p); ("mint", PStr m)])
    with (@Ok (list pyval)
            [PStr k; PStr p; PStr m; PStr "buy"; PBool false;
             PFloat (float_literal "0" "001"); PInt 10;
             PFloat (float_literal "0" "00001")]).
  cbv beta iota. rewrite sol_execute_trade_run. cbn [snd]. unfold form_request.
  do 2 f_equal.
Qed.

(** ** Booleans and numbers in a form body (claim C8) *)

Lemma quote_plus_safe_byte (c : ascii) :
  always_safe c = true -> string_map space_to_plus (quoter " " c) = String c "".
Proof.
  destruct c as [[] [] [] [] [] [] [] []]; intros H; vm_compute in H |- *;
    solve [reflexivity | discriminate H].
Qed.

(** A text made of letters, digits and [_.-~] is sent as it is *)
Lemma quote_plus_safe (s : string) :
  string_forallb always_safe s = true -> quote_plus "" s = s.
Proof.
  rewrite quote_plus_uniform.
  induction s as [|c s IH]; [reflexivity|].
  cbn [string_forallb quote_from_bytes]. intros H.
  apply andb_true_iff in H as [Hc Hs].
  rewrite string_map_app, (quote_plus_safe_byte c Hc), (IH Hs). reflexivity.
Qed.

Lemma string_of_uint_safe (d : Decimal.uint) :
  string_forallb always_safe (NilEmpty.string_of_uint d) = true.
Proof. induction d; simpl; auto. Qed.

Lemma int_repr_safe (z : Z) : string_forallb always_safe (int_repr z) = true.
Proof.
  unfold int_repr. destruct (Z.to_int z) as [d|d]; simpl.
  - destruct d; try reflexivity; apply (string_of_uint_safe (_ d)).
  - destruct d; try reflexivity; apply (string_of_uint_safe (_ d)).
Qed.

Lemma string_mem_repeat_other (c d : ascii) (n : nat) :
  Ascii.eqb c d = false -> string_mem c (repeat_string (String d "") n) = false.
Proof. intros H. induction n as [|n IH]; simpl; [reflexivity|]. now rewrite H. Qed.

Lemma string_mem_substring (c : ascii) (s : string) (n m : nat) :
  string_mem c s = false -> string_mem c (substring n m s) = false.
Proof.
  revert n m. induction s as [|d s IH]; intros n m H.
  - destruct n, m; reflexivity.
  - cbn [string_mem] in H. apply orb_false_iff in H as [H1 H2].
    destruct n, m; cbn [substring string_mem]; auto.
    now rewrite H1, IH.
Qed.

Lemma string_mem_drop (c : ascii) (s : string) (n : nat) :
  string_mem c s = false -> string_mem c (drop n s) = false.
Proof.
  revert n. induction s as [|d s IH]; intros n H.
  - destruct n; reflexivity.
  - destruct n; [exact H|]. cbn [drop]. apply IH.
    cbn [string_mem] in H. now apply orb_false_iff in H.
Qed.

Lemma string_mem_drop_trailing_dot (c : ascii) (s : string) :
  string_mem c s = false -> string_mem c (drop_trailing_dot s) = false.
Proof.
  induction s as [|d s IH]; [reflexivity|]. intros H.
  cbn [string_mem] in H. apply orb_false_iff in H as [H1 H2].
  cbn [drop_trailing_dot]. destruct s as [|d' s'].
  - destruct (Ascii.eqb d "."); [reflexivity|]. cbn. now rewrite H1.
  - cbn [string_mem]. rewrite H1. now apply IH.
Qed.

Lemma digits_no_letter_e (ds : string) :
  string_forallb is_digit ds = true -> string_mem "e" ds = false.
Proof.
  induction ds as [|c ds IH]; [reflexivity|]. cbn [string_forallb string_mem].
  intros H. apply andb_true_iff in H as [Hc Hs]. rewrite (IH Hs), orb_false_r.
  destruct c as [[] [] [] [] [] [] [] []]; vm_compute in Hc |- *;
    solve [reflexivity | discriminate Hc].
Qed.

(** [float.__repr__] writes an exponent exactly when [decpt <= -4] or
    [decpt > 16] *)
Lemma format_float_short_exponent (sign : bool) (ds : string) (dp : Z) :
  string_forallb is_digit ds = true ->
  string_mem "e" (format_float_short sign ds dp) = ((dp <=? -4) || (16 <? dp))%Z.
Proof.
  intros Hd. pose proof (digits_no_letter_e ds Hd) as He.
  assert (Hz : forall n, string_mem "e" (zeros n) = false)
    by (intros n; now apply string_mem_repeat_other).
  unfold format_float_short.
  destruct ((dp <=? -4) || (16 <? dp))%Z.
  - rewrite string_mem_app. cbn [string_mem append]. cbn. now rewrite orb_true_r.
  - apply string_mem_drop_trailing_dot.
    repeat match goal with
           | |- context [if ?b then _ else _] => destruct b
           end;
      rewrite ?string_mem_app, ?Hz, ?He, ?string_mem_substring, ?string_mem_drop by exact He;
      reflexivity.
Qed.

(** ** The number a [repr] denotes (claim C8) *)

Lemma string_forallb_app (p : ascii -> bool) (a b : string) :
  string_forallb p (a ++ b) = string_forallb p a && string_forallb p b.
Proof. induction a as [|c a IH]; cbn; [reflexivity|]. now rewrite IH, andb_assoc. Qed.

Lemma length_app (a b : string) :
  String.length (a ++ b) = (String.length a + String.length b)%nat.
Proof. induction a as [|c a IH]; cbn; [reflexivity|]. now rewrite IH. Qed.

Lemma length_repeat_char (c : ascii) (n : nat) :
  String.length (repeat_string (String c "") n) = n.
Proof. induction n as [|n IH]; cbn; [reflexivity|]. now rewrite IH. Qed.

Lemma substring_drop (k : nat) (s : string) : substring 0 k s ++ drop k s = s.
Proof.
  revert k. induction s as [|c s IH]; intros [|k]; cbn; try reflexivity.
  now rewrite IH.
Qed.

Lemma length_substring (k : nat) (s : string) :
  (k <= String.length s)%nat -> String.length (substring 0 k s) = k.
Proof.
  revert k. induction s as [|c s IH]; intros [|k] H; cbn in *; try reflexivity; try lia.
  rewrite IH; lia.
Qed.

Lemma forallb_substring (p : ascii -> bool) (k : nat) (s : string) :
  string_forallb p s = true -> string_forallb p (substring 0 k s) = true.
Proof.
  revert k. induction s as [|c s IH]; intros [|k] H; cbn in *; try reflexivity.
  apply andb_true_iff in H as [H1 H2]. now rewrite H1, IH.
Qed.

Lemma forallb_drop (p : ascii -> bool) (k : nat) (s : string) :
  string_forallb p s = true -> string_forallb p (drop k s) = true.
Proof.
  revert k. induction s as [|c s IH]; intros [|k] H; cbn in *; try reflexivity; auto.
  apply andb_true_iff in H as [H1 H2]. now apply IH.
Qed.

Lemma forallb_zeros (n : Z) : string_forallb is_digit (zeros n) = true.
Proof. unfold zeros. induction (Z.to_nat n) as [|k IH]; cbn; auto. Qed.

Lemma digits_value_from_app (acc : Z) (a b : string) :
  digits_value_from acc (a ++ b) = digits_value_from (digits_value_from acc a) b.
Proof. revert acc. induction a as [|c a IH]; intros acc; cbn; [reflexivity|]. apply IH. Qed.

Lemma digits_value_from_scale (acc : Z) (b : string) :
  digits_value_from acc b
  = (acc * 10 ^ Z.of_nat (String.length b) + digits_value b)%Z.
Proof.
  unfold digits_value. revert acc. induction b as [|c b IH]; intros acc.
  - cbn. lia.
  - cbn [digits_value_from String.length]. rewrite IH, (IH (10 * 0 + _)%Z).
    rewrite Nat2Z.inj_succ, Z.pow_succ_r by lia. ring.
Qed.

Lemma digits_value_app (a b : string) :
  digits_value (a ++ b)
  = (digits_value a * 10 ^ Z.of_nat (String.length b) + digits_value b)%Z.
Proof.
  unfold digits_value at 1. rewrite digits_value_from_app.
  apply digits_value_from_scale.
Qed.

Lemma digits_value_zeros (n : Z) : digits_value (zeros n) = 0%Z.
Proof.
  unfold zeros, digits_value. induction (Z.to_nat n) as [|k IH]; [reflexivity|].
  cbn. exact IH.
Qed.

Lemma length_zeros (n : Z) : Z.of_nat (String.length (zeros n)) = Z.max 0 n.
Proof. unfold zeros. rewrite length_repeat_char. lia. Qed.

(** A run of digits followed by something else is what [span_digits] takes *)
Lemma span_digits_app (a rest : string) :
  string_forallb is_digit a = true ->
  span_digits rest = ("", rest) ->
  span_digits (a ++ rest) = (a, rest).
Proof.
  intros Ha Hr. induction a as [|c a IH]; [exact Hr|].
  cbn [string_forallb] in Ha. apply andb_true_iff in Ha as [Hc Ha].
  cbn [append span_digits]. now rewrite Hc, (IH Ha).
Qed.

Lemma span_digits_all (a : string) :
  string_forallb is_digit a = true -> span_digits a = (a, "").
Proof.
  intros H. rewrite <- (append_nil_r a) at 1. now apply span_digits_app.
Qed.

Lemma digits_of_uint_acc (u : Decimal.uint) (acc : positive) :
  digits_value_from (Zpos acc) (NilEmpty.string_of_uint u)
  = Zpos (Pos.of_uint_acc u acc).
Proof.
  revert acc. induction u; intros acc; cbn [NilEmpty.string_of_uint digits_value_from
    Pos.of_uint_acc]; [reflexivity|..];
    rewrite <- IHu; f_equal;
    try match goal with
        | |- context [Z.of_nat ?n] =>
            let v := eval vm_compute in (Z.of_nat n) in change (Z.of_nat n) with v
        end; lia.
Qed.

Lemma digits_of_uint (u : Decimal.uint) :
  digits_value (NilEmpty.string_of_uint u) = Z.of_N (Pos.of_uint u).
Proof.
  unfold digits_value.
  induction u; cbn [NilEmpty.string_of_uint digits_value_from Pos.of_uint];
    [reflexivity | exact IHu | ..]; apply (digits_of_uint_acc u).
Qed.

Lemma uint_all_digits (u : Decimal.uint) :
  string_forallb is_digit (NilEmpty.string_of_uint u) = true.
Proof. induction u; cbn; auto. Qed.

Lemma nilzero_uint (u : Decimal.uint) :
  string_forallb is_digit (NilZero.string_of_uint u) = true
  /\ NilZero.string_of_uint u <> ""
  /\ digits_value (NilZero.string_of_uint u) = Z.of_N (Pos.of_uint u).
Proof.
  destruct u; cbn [NilZero.string_of_uint];
    (split; [first [reflexivity | apply uint_all_digits] |
     split; [discriminate | first [reflexivity | apply digits_of_uint]]]).
Qed.

(** The digits [int.__repr__] writes for a natural number *)
Lemma nonneg_repr (n : Z) :
  (0 <= n)%Z ->
  string_forallb is_digit (int_repr n) = true
  /\ int_repr n <> ""
  /\ digits_value (int_repr n) = n.
Proof.
  intros Hn. unfold int_repr. destruct n as [|p|p]; [now repeat split | | lia].
  cbn [Z.to_int NilZero.string_of_int].
  destruct (nilzero_uint (Pos.to_uint p)) as [H1 [H2 H3]].
  rewrite DecimalPos.Unsigned.of_to in H3. now repeat split.
Qed.

(** The two digits or more of an exponent *)
Lemma exp_repr_shape (x : Z) :
  exists pad : string,
    exp_repr x = (if (x <? 0)%Z then "-" else "+") ++ pad
    /\ string_forallb is_digit pad = true
    /\ pad <> ""
    /\ digits_value pad = Z.abs x.
Proof.
  unfold exp_repr. fold (int_repr (Z.abs x)).
  destruct (nonneg_repr (Z.abs x) (Z.abs_nonneg x)) as [H1 [H2 H3]].
  destruct (Nat.ltb (String.length (int_repr (Z.abs x))) 2).
  - exists ("0" ++ int_repr (Z.abs x)). repeat split.
    + cbn. exact H1.
    + discriminate.
    + exact H3.
  - exists (int_repr (Z.abs x)). now repeat split.
Qed.

Lemma digits_lack (c : ascii) (ds : string) :
  is_digit c = false -> string_forallb is_digit ds = true -> string_mem c ds = false.
Proof.
  intros Hc. induction ds as [|d ds IH]; [reflexivity|].
  cbn [string_forallb string_mem]. intros H. apply andb_true_iff in H as [Hd Hs].
  rewrite (IH Hs), orb_false_r.
  destruct (Ascii.eqb c d) eqn:E; [|reflexivity].
  apply Ascii.eqb_eq in E. subst d. congruence.
Qed.

Lemma drop_trailing_dot_app (x y : string) :
  y <> "" -> drop_trailing_dot (x ++ y) = x ++ drop_trailing_dot y.
Proof.
  intros Hy. induction x as [|c x IH]; [reflexivity|].
  cbn [append drop_trailing_dot]. rewrite IH.
  destruct (x ++ y) eqn:E; [|reflexivity].
  destruct x; [cbn in E; congruence | discriminate E].
Qed.

Lemma drop_trailing_dot_none (y : string) :
  string_mem "." y = false -> drop_trailing_dot y = y.
Proof.
  induction y as [|c y IH]; [reflexivity|]. cbn [string_mem]. intros H.
  apply orb_false_iff in H as [H1 H2]. cbn [drop_trailing_dot].
  destruct y as [|d y].
  - rewrite Ascii.eqb_sym in H1. now rewrite H1.
  - now rewrite (IH H2).
Qed.

Lemma zeros_nonpos (z : Z) : (z <= 0)%Z -> zeros z = "".
Proof. intros H. unfold zeros. now replace (Z.to_nat z) with 0%nat by lia. Qed.

(** Comparisons that the context decides *)
Ltac zbool :=
  repeat match goal with
         | |- context [(?a <=? ?b)%Z] =>
             first [ rewrite (proj2 (Z.leb_le a b)) by lia
                   | rewrite (proj2 (Z.leb_gt a b)) by lia ]
         | |- context [(?a <? ?b)%Z] =>
             first [ rewrite (proj2 (Z.ltb_lt a b)) by lia
                   | rewrite (proj2 (Z.ltb_ge a b)) by lia ]
         end.


(** [repr] with an exponent: one digit, the others after a point if any *)
Lemma repr_with_exponent (sign : bool) (c : ascii) (ds : string) (dp : Z) :
  (dp <= -4 \/ 16 < dp)%Z ->
  string_forallb is_digit ds = true ->
  format_float_short sign (String c ds) dp
  = sign_text sign ++ String c "" ++ match ds with
                                     | EmptyString => ""
                                     | _ => "." ++ ds
                                     end ++ "e" ++ exp_repr (dp - 1).
Proof.
  intros Hdp Hds.
  unfold format_float_short. cbv zeta.
  destruct ds as [|d ds]; cbn [String.length]; rewrite ?Nat2Z.inj_succ.
  - destruct Hdp as [Hdp|Hdp]; zbool; cbn [orb andb negb]; zbool; cbn [orb andb negb];
      rewrite !zeros_nonpos by lia; destruct sign; reflexivity.
  - assert (Hn : (0 <= Z.of_nat (String.length ds))%Z) by lia.
    assert (Hd : drop_trailing_dot
                   ((sign_text sign ++ String c ".") ++ String d ds)
                 = (sign_text sign ++ String c ".") ++ String d ds).
    { rewrite drop_trailing_dot_app by discriminate.
      now rewrite (drop_trailing_dot_none (String d ds)) by (now apply digits_lack). }
    destruct Hdp as [Hdp|Hdp]; zbool; cbn [orb andb negb]; zbool; cbn [orb andb negb];
      rewrite !zeros_nonpos by lia;
      change (Z.to_nat 1) with 1%nat; cbn [substring drop];
      rewrite !append_nil_r;
      (replace ((if sign then "-" else "") ++ String c "" ++ "." ++ String d ds)
         with ((sign_text sign ++ String c ".") ++ String d ds)
         by (destruct sign; reflexivity));
      rewrite Hd; destruct sign; reflexivity.
Qed.

Lemma substring_all (s : string) : substring 0 (String.length s) s = s.
Proof. induction s as [|c s IH]; cbn; [reflexivity|]. now rewrite IH. Qed.

Lemma drop_all (s : string) : drop (String.length s) s = "".
Proof. induction s as [|c s IH]; cbn; [reflexivity|]. exact IH. Qed.

Lemma drop_some (k : nat) (s : string) : (k < String.length s)%nat -> drop k s <> "".
Proof.
  revert k. induction s as [|c s IH]; intros k H; cbn in H; [lia|].
  destruct k; [discriminate|]. cbn. apply IH. lia.
Qed.

Lemma dtd_digits (x y : string) :
  y <> "" -> string_forallb is_digit y = true ->
  drop_trailing_dot (x ++ y) = x ++ y.
Proof.
  intros Hy Hd. rewrite drop_trailing_dot_app by exact Hy.
  now rewrite (drop_trailing_dot_none y) by (now apply digits_lack).
Qed.

(** [repr] of a number below one: zeros after the point, then the digits *)
Lemma repr_small (sign : bool) (ds : string) (dp : Z) :
  (-4 < dp <= 0)%Z ->
  ds <> "" -> string_forallb is_digit ds = true ->
  format_float_short sign ds dp = sign_text sign ++ "0." ++ zeros (- dp) ++ ds.
Proof.
  intros Hdp Hne Hds.
  assert (Hn : (0 < Z.of_nat (String.length ds))%Z) by (destruct ds; cbn; [congruence|lia]).
  unfold format_float_short. cbv zeta.
  zbool; cbn [orb andb negb]; zbool; cbn [orb andb negb].
  replace (dp - (dp - 1))%Z with 1%Z by lia. replace (0 - dp)%Z with (- dp)%Z by lia.
  rewrite (zeros_nonpos (_ - _)) by lia. rewrite append_nil_r.
  rewrite dtd_digits by assumption.
  change (zeros 1) with "0". unfold sign_text. now rewrite !append_assoc.
Qed.

(** [repr] with the point among the digits *)
Lemma repr_middle (sign : bool) (ds : string) (dp : Z) :
  (0 < dp < Z.of_nat (String.length ds))%Z -> (dp <= 16)%Z ->
  string_forallb is_digit ds = true ->
  format_float_short sign ds dp
  = sign_text sign ++ substring 0 (Z.to_nat dp) ds ++ "." ++ drop (Z.to_nat dp) ds.
Proof.
  intros Hdp Hdp' Hds.
  unfold format_float_short. cbv zeta.
  zbool; cbn [orb andb negb]; zbool; cbn [orb andb negb].
  rewrite !zeros_nonpos by lia. rewrite !append_nil_r.
  replace ((if sign then "-" else "") ++ substring 0 (Z.to_nat dp) ds ++ "."
           ++ drop (Z.to_nat dp) ds)
    with ((sign_text sign ++ substring 0 (Z.to_nat dp) ds ++ ".")
          ++ drop (Z.to_nat dp) ds)
    by (unfold sign_text; now rewrite !append_assoc).
  rewrite dtd_digits; [now rewrite !append_assoc | apply drop_some; lia |
                       now apply forallb_drop].
Qed.

(** [repr] of a whole number: the digits, zeros up to the point, and [.0] *)
Lemma repr_whole (sign : bool) (ds : string) (dp : Z) :
  (Z.of_nat (String.length ds) <= dp <= 16)%Z ->
  ds <> "" -> string_forallb is_digit ds = true ->
  format_float_short sign ds dp
  = sign_text sign ++ ds ++ zeros (dp - Z.of_nat (String.length ds)) ++ ".0".
Proof.
  intros Hdp Hne Hds.
  assert (Hn : (0 < Z.of_nat (String.length ds))%Z) by (destruct ds; cbn; [congruence|lia]).
  unfold format_float_short. cbv zeta.
  destruct (Z.eq_dec dp (Z.of_nat (String.length ds))) as [E|E].
  - rewrite E. zbool; cbn [orb andb negb]; zbool; cbn [orb andb negb].
    rewrite Nat2Z.id, substring_all, drop_all.
    rewrite (zeros_nonpos (0 - 0)),
      (zeros_nonpos (Z.of_nat (String.length ds) - Z.of_nat (String.length ds))) by lia.
    replace (Z.of_nat (String.length ds) + 1 - Z.of_nat (String.length ds))%Z
      with 1%Z by lia.
    change (zeros 1) with "0". rewrite !append_nil_r.
    replace (((if sign then "-" else "") ++ ds ++ ".") ++ "0")
      with ((sign_text sign ++ ds ++ ".") ++ "0") by reflexivity.
    rewrite dtd_digits by (discriminate || reflexivity).
    now rewrite !append_assoc.
  - zbool; cbn [orb andb negb]; zbool; cbn [orb andb negb].
    rewrite (zeros_nonpos (0 - 0)) by lia.
    replace (dp + 1 - dp)%Z with 1%Z by lia. change (zeros 1) with "0".
    rewrite !append_nil_r.
    replace (((if sign then "-" else "") ++ ds)
             ++ zeros (dp - Z.of_nat (String.length ds)) ++ "." ++ "0")
      with ((sign_text sign ++ ds ++ zeros (dp - Z.of_nat (String.length ds)) ++ ".")
            ++ "0")
      by (unfold sign_text; now rewrite !append_assoc).
    rewrite dtd_digits by (discriminate || reflexivity).
    now rewrite !append_assoc.
Qed.

Lemma numeral_value_signed (sign : bool) (body : string) :
  starts_with "-" body = false ->
  numeral_value (sign_text sign ++ body) = signed sign (unsigned_value body).
Proof.
  intros H. destruct sign; [reflexivity|]. cbn [sign_text append].
  destruct body as [|c b]; [reflexivity|].
  cbn [starts_with] in H. rewrite andb_true_r in H.
  destruct c as [[] [] [] [] [] [] [] []]; solve [discriminate H | reflexivity].
Qed.

Lemma digits_not_minus (ip rest : string) :
  ip <> "" -> string_forallb is_digit ip = true -> starts_with "-" (ip ++ rest) = false.
Proof.
  intros Hne H. destruct ip as [|c ip]; [congruence|].
  cbn [string_forallb] in H. apply andb_true_iff in H as [Hc _].
  cbn [append starts_with]. rewrite andb_true_r.
  destruct (Ascii.eqb "-" c) eqn:E; [|reflexivity].
  apply Ascii.eqb_eq in E. subst c. discriminate Hc.
Qed.

(** Digits, a point, digits *)
Lemma unsigned_value_point (ip fp : string) :
  ip <> "" -> string_forallb is_digit ip = true -> string_forallb is_digit fp = true ->
  unsigned_value (ip ++ "." ++ fp)
  = Some (digits_value (ip ++ fp), (- Z.of_nat (String.length fp))%Z).
Proof.
  intros Hne Hip Hfp. unfold unsigned_value.
  rewrite (span_digits_app ip ("." ++ fp) Hip eq_refl).
  cbn [append]. rewrite (span_digits_all fp Hfp).
  destruct ip; [congruence|reflexivity].
Qed.

(** What follows the letter [e] is read back as the exponent *)
Lemma exponent_read (x : Z) :
  exists (esign : bool) (c : ascii) (ed : string),
    (let (es, r1) :=
       match exp_repr x with
       | String "-" u => (true, u)
       | String "+" u => (false, u)
       | _ => (false, exp_repr x)
       end in (es, span_digits r1))
    = (esign, (String c ed, ""))
    /\ (if esign then - digits_value (String c ed) else digits_value (String c ed))%Z = x.
Proof.
  destruct (exp_repr_shape x) as [pad [E [Hd [Hne Hv]]]]. rewrite E.
  destruct pad as [|c ed]; [congruence|].
  exists (x <? 0)%Z, c, ed.
  destruct (Z.ltb_spec x 0); cbn [append]; rewrite (span_digits_all _ Hd);
    (split; [reflexivity | rewrite Hv; lia]).
Qed.

Lemma unsigned_value_exponent (ip fp : string) (x : Z) :
  ip <> "" -> string_forallb is_digit ip = true -> string_forallb is_digit fp = true ->
  unsigned_value (ip ++ "." ++ fp ++ "e" ++ exp_repr x)
  = Some (digits_value (ip ++ fp), (x - Z.of_nat (String.length fp))%Z)
  /\ unsigned_value (ip ++ "e" ++ exp_repr x) = Some (digits_value ip, x).
Proof.
  intros Hne Hip Hfp. destruct (exponent_read x) as [es [c [ed [E Hx]]]].
  unfold unsigned_value. split.
  - rewrite (span_digits_app ip ("." ++ fp ++ "e" ++ exp_repr x) Hip eq_refl).
    cbn [append]. rewrite (span_digits_app fp (String "e" (exp_repr x)) Hfp eq_refl).
    destruct ip; [congruence|].
    destruct (match exp_repr x with
              | String "-" u => (true, u)
              | String "+" u => (false, u)
              | _ => (false, exp_repr x)
              end) as [es' r1].
    injection E as -> E. rewrite E. now rewrite Hx.
  - rewrite (span_digits_app ip ("e" ++ exp_repr x) Hip eq_refl).
    cbn [append]. destruct ip; [congruence|].
    destruct (match exp_repr x with
              | String "-" u => (true, u)
              | String "+" u => (false, u)
              | _ => (false, exp_repr x)
              end) as [es' r1].
    injection E as -> E. rewrite E, append_nil_r, Hx.
    cbn [String.length]. now rewrite Z.sub_0_r.
Qed.

Lemma same_decimal_refl (m e : Z) : same_decimal m e m e.
Proof. reflexivity. Qed.

Lemma length_drop (k : nat) (s : string) :
  (k <= String.length s)%nat -> String.length (drop k s) = (String.length s - k)%nat.
Proof.
  intros H. pose proof (f_equal String.length (substring_drop k s)) as E.
  rewrite length_app, length_substring in E by exact H. lia.
Qed.

(** The text [float.__repr__] writes denotes the number of the float: the
    same sign and the same digits at the same scale *)
Lemma repr_denotes_the_float (sign : bool) (ds : string) (dp : Z) :
  ds <> "" -> string_forallb is_digit ds = true ->
  exists m e : Z,
    numeral_value (float_repr (FFinite sign ds dp)) = Some (sign, m, e)
    /\ same_decimal m e (float_mantissa ds) (float_exponent ds dp).
Proof.
  intros Hne Hds. unfold float_mantissa, float_exponent. cbn [float_repr].
  assert (Hn : (0 < Z.of_nat (String.length ds))%Z) by (destruct ds; cbn; [congruence|lia]).
  destruct (Z_le_gt_dec dp (-4)) as [H1|H1]; [|destruct (Z_lt_le_dec 16 dp) as [H2|H2]].
  1, 2: destruct ds as [|c ds']; [congruence|];
        cbn [string_forallb] in Hds; apply andb_true_iff in Hds as [Hc Hds'];
        rewrite repr_with_exponent by (lia || assumption);
        rewrite numeral_value_signed
          by (apply (digits_not_minus (String c "")); [discriminate | cbn; now rewrite Hc]);
        (destruct ds' as [|d ds''];
         [ change (String c "" ++ "" ++ "e" ++ exp_repr (dp - 1))
             with (String c "" ++ "e" ++ exp_repr (dp - 1));
           rewrite (proj2 (unsigned_value_exponent (String c "") "" (dp - 1)
                             ltac:(discriminate) ltac:(cbn; now rewrite Hc) eq_refl));
           eexists _, _; split; [reflexivity|];
           cbn [String.length]; replace (dp - 1)%Z with (dp - Z.of_nat 1)%Z by lia;
           apply same_decimal_refl
         | change (String c "" ++ ("." ++ String d ds'') ++ "e" ++ exp_repr (dp - 1))
             with (String c "" ++ "." ++ String d ds'' ++ "e" ++ exp_repr (dp - 1));
           rewrite (proj1 (unsigned_value_exponent (String c "") (String d ds'') (dp - 1)
                             ltac:(discriminate) ltac:(cbn; now rewrite Hc) Hds'));
           eexists _, _; split; [reflexivity|];
           cbn [append];
           replace (dp - 1 - Z.of_nat (String.length (String d ds'')))%Z
             with (dp - Z.of_nat (String.length (String c (String d ds''))))%Z
             by (cbn [String.length]; lia);
           apply same_decimal_refl ]).
  destruct (Z_le_gt_dec dp 0) as [H3|H3];
    [|destruct (Z_lt_le_dec dp (Z.of_nat (String.length ds))) as [H4|H4]].
  - rewrite repr_small by (lia || assumption).
    rewrite numeral_value_signed by reflexivity.
    change ("0." ++ zeros (- dp) ++ ds) with ("0" ++ "." ++ zeros (- dp) ++ ds).
    rewrite unsigned_value_point
      by (discriminate || reflexivity || (rewrite string_forallb_app, forallb_zeros; exact Hds)).
    eexists _, _; split; [reflexivity|].
    replace (digits_value ("0" ++ zeros (- dp) ++ ds)) with (digits_value ds)
      by (change (digits_value ("0" ++ zeros (- dp) ++ ds))
            with (digits_value (zeros (- dp) ++ ds));
          rewrite digits_value_app, digits_value_zeros; lia).
    replace (- Z.of_nat (String.length (zeros (- dp) ++ ds)))%Z
      with (dp - Z.of_nat (String.length ds))%Z
      by (rewrite length_app, Nat2Z.inj_add, length_zeros; lia).
    apply same_decimal_refl.
  - rewrite repr_middle by (lia || assumption).
    rewrite numeral_value_signed
      by (apply digits_not_minus;
          [ intros E; apply (f_equal String.length) in E;
            rewrite length_substring in E by lia; cbn in E; lia
          | now apply forallb_substring ]).
    rewrite unsigned_value_point
      by (first [ intros E; apply (f_equal String.length) in E;
                  rewrite length_substring in E by lia; cbn in E; lia
                | now apply forallb_substring
                | now apply forallb_drop ]).
    rewrite substring_drop.
    eexists _, _; split; [reflexivity|].
    replace (- Z.of_nat (String.length (drop (Z.to_nat dp) ds)))%Z
      with (dp - Z.of_nat (String.length ds))%Z
      by (rewrite length_drop by lia; lia).
    apply same_decimal_refl.
  - rewrite repr_whole by (lia || assumption).
    set (z := zeros (dp - Z.of_nat (String.length ds))).
    rewrite numeral_value_signed by (now apply digits_not_minus).
    replace (ds ++ z ++ ".0") with ((ds ++ z) ++ "." ++ "0")
      by (now rewrite append_assoc).
    rewrite unsigned_value_point
      by (first [ destruct ds; [congruence|discriminate]
                | unfold z; rewrite string_forallb_app, forallb_zeros; now rewrite Hds
                | reflexivity ]).
    eexists _, _; split; [reflexivity|].
    unfold same_decimal. cbn [String.length].
    rewrite !digits_value_app. unfold z at 2. rewrite digits_value_zeros.
    unfold z. rewrite length_zeros.
    replace (- Z.of_nat 1 - Z.min (- Z.of_nat 1) (dp - Z.of_nat (String.length ds)))%Z
      with 0%Z by lia.
    replace (dp - Z.of_nat (String.length ds)
             - Z.min (- Z.of_nat 1) (dp - Z.of_nat (String.length ds)))%Z
      with (Z.succ (dp - Z.of_nat (String.length ds)))%Z by lia.
    rewrite Z.pow_succ_r by lia.
    replace (Z.max 0 (dp - Z.of_nat (String.length ds)))
      with (dp - Z.of_nat (String.length ds))%Z by lia.
    change (digits_value "0") with 0%Z.
    change (10 ^ Z.of_nat (String.length "0"))%Z with 10%Z.
    change (10 ^ 0)%Z with 1%Z. ring.
Qed.




(** ** The shape of [json.dumps(obj, indent=2)] (claims C6 and C10) *)

Lemma join_empty_app (a b : list string) :
  join "" (a ++ b) = join "" a ++ join "" b.
Proof.
  induction a as [|x a IH]; [reflexivity|].
  destruct a as [|y a].
  - destruct b; simpl; [now rewrite append_nil_r | reflexivity].
  - change (join "" ((x :: y :: a) ++ b)) with (x ++ "" ++ join "" ((y :: a) ++ b)).
    rewrite IH. cbn [join]. cbn [append]. now rewrite append_assoc.
Qed.

Lemma join_empty_cons (x : string) (l : list string) :
  join "" (x :: l) = x ++ join "" l.
Proof. exact (join_empty_app [x] l). Qed.

Lemma iterencode_dict_unfold (level : nat) (kv : string * json)
    (items : list (string * json)) :
  iterencode (JDict (kv :: items)) level
  = (["{"; newline_indent (S level)] ++ dict_loop level (kv :: items) true
     ++ [newline_indent level; "}"])%list.
Proof.
  destruct kv as [k v]. cbn [iterencode].
  match goal with
  | |- context [?F items false] =>
      assert (H : forall its fst, F its fst = dict_loop level its fst)
  end.
  { induction its as [|[k' v'] its IH]; intros fst; [reflexivity|].
    cbn [dict_loop]. now rewrite <- IH. }
  now rewrite H.
Qed.

Lemma iterencode_list_unfold (level : nat) (v : json) (l : list json) :
  iterencode (JList (v :: l)) level
  = (list_loop level (v :: l) true ("[" ++ newline_indent (S level))
     ++ [newline_indent level; "]"])%list.
Proof.
  cbn [iterencode].
  match goal with
  | |- context [?F l false ?b] =>
      assert (H : forall vs fst buf, F vs fst buf = list_loop level vs fst buf)
  end.
  { induction vs as [|v' vs IH]; intros fst buf; [reflexivity|].
    cbn [list_loop]. cbv zeta. now rewrite <- IH. }
  now rewrite H.
Qed.

Lemma scalar_chunks (value : json) (level : nat) :
  join "" match scalar_text value with
          | Some t => [t]
          | None => iterencode value level
          end
  = dumps_at value level.
Proof. destruct value as [|[]| | | | |]; reflexivity. Qed.

Lemma dict_loop_text (level : nat) (items : list (string * json)) (first : bool) :
  items <> [] ->
  join "" (dict_loop level items first)
  = (if first then "" else "," ++ newline_indent (S level))
    ++ join ("," ++ newline_indent (S level)) (map (member_text level) items).
Proof.
  revert first. induction items as [|[k v] items IH]; intros first Hne; [congruence|].
  clear Hne.
  cbn [dict_loop map]. rewrite !join_empty_app, scalar_chunks.
  destruct items as [|kv items].
  - cbn [dict_loop join]. rewrite append_nil_r. unfold member_text. cbn [fst snd].
    destruct first; cbn [join]; rewrite ?append_nil_r, ?append_assoc; reflexivity.
  - rewrite IH by discriminate. unfold member_text at 2. cbn [fst snd].
    change (join ("," ++ newline_indent (S level))
              (member_text level (k, v) :: map (member_text level) (kv :: items)))
      with (member_text level (k, v) ++ ("," ++ newline_indent (S level))
            ++ join ("," ++ newline_indent (S level)) (map (member_text level) (kv :: items))).
    unfold member_text at 1. cbn [fst snd].
    destruct first; cbn [join]; rewrite ?append_nil_r, ?append_assoc; reflexivity.
Qed.

Lemma list_loop_text (level : nat) (l : list json) (first : bool) (buf : string) :
  l <> [] ->
  join "" (list_loop level l first buf)
  = (if first then buf else "," ++ newline_indent (S level))
    ++ join ("," ++ newline_indent (S level)) (map (item_text level) l).
Proof.
  revert first buf. induction l as [|v l IH]; intros first buf Hne; [congruence|].
  clear Hne. cbn [list_loop map]. cbv zeta.
  set (b := if first then buf else ("," ++ newline_indent (S level))).
  assert (Hv : join "" match scalar_text v with
                       | Some t => [b ++ t]
                       | None => b :: iterencode v (S level)
                       end = b ++ item_text level v).
  { unfold item_text. rewrite <- scalar_chunks.
    destruct (scalar_text v); [reflexivity | apply join_empty_cons]. }
  rewrite join_empty_app, Hv.
  destruct l as [|v' l].
  - cbn [list_loop join]. now rewrite append_nil_r.
  - rewrite IH by discriminate.
    change (join ("," ++ newline_indent (S level))
              (item_text level v :: map (item_text level) (v' :: l)))
      with (item_text level v ++ ("," ++ newline_indent (S level))
            ++ join ("," ++ newline_indent (S level)) (map (item_text level) (v' :: l))).
    now rewrite !append_assoc.
Qed.

(** A non-empty object is written as an opening brace, its members in the
    order of the dict, each on a line of its own indented by two spaces per
    level and separated by commas, and the closing brace on a last line. *)
Lemma dumps_dict (level : nat) (kv : string * json) (items : list (string * json)) :
  dumps_at (JDict (kv :: items)) level
  = "{" ++ newline_indent (S level)
    ++ join ("," ++ newline_indent (S level)) (map (member_text level) (kv :: items))
    ++ newline_indent level ++ "}".
Proof.
  unfold dumps_at at 1. rewrite iterencode_dict_unfold, !join_empty_app.
  rewrite dict_loop_text by discriminate.
  cbn [join]. cbn [append]. rewrite ?append_assoc. reflexivity.
Qed.

(** Likewise for a non-empty array *)
Lemma dumps_list (level : nat) (v : json) (l : list json) :
  dumps_at (JList (v :: l)) level
  = "[" ++ newline_indent (S level)
    ++ join ("," ++ newline_indent (S level)) (map (item_text level) (v :: l))
    ++ newline_indent level ++ "]".
Proof.
  unfold dumps_at at 1. rewrite iterencode_list_unfold, !join_empty_app.
  rewrite list_loop_text by discriminate.
  cbn [join]. cbn [append]. rewrite ?append_assoc. reflexivity.
Qed.

(** ** The order of the keys of a parsed object *)

Lemma dict_set_new {V : Type} (d : dict V) (k : string) (v : V) :
  ~ In k (map fst d) -> dict_set d k v = (d ++ [(k, v)])%list.
Proof.
  induction d as [|[k' v'] d IH]; intros H; [reflexivity|].
  cbn [dict_set]. destruct (String.eqb k' k) eqn:E.
  - apply String.eqb_eq in E. subst. exfalso. apply H. now left.
  - cbn. f_equal. apply IH. intros Hin. apply H. now right.
Qed.

Lemma dict_of_pairs_from {V : Type} (ps d : list (string * V)) :
  NoDup (map fst (d ++ ps)) ->
  fold_left (fun d kv => dict_set d (fst kv) (snd kv)) ps d = (d ++ ps)%list.
Proof.
  revert d. induction ps as [|[k v] ps IH]; intros d H.
  - cbn. now rewrite app_nil_r.
  - cbn [fold_left fst snd]. rewrite dict_set_new.
    + rewrite IH; rewrite <- app_assoc; [reflexivity | exact H].
    + rewrite map_app in H. apply NoDup_remove_2 in H.
      intros Hin. apply H. apply in_or_app. now left.
Qed.

(** Distinct keys stay in the order in which they were read *)
Lemma dict_of_pairs_distinct {V : Type} (ps : list (string * V)) :
  NoDup (map fst ps) -> dict_of_pairs ps = ps.
Proof. intros H. exact (dict_of_pairs_from ps [] H). Qed.

(** ** What the tools return on success (claims C6 and C10) *)

Lemma answer_ok (env : environment) (req : request) (status : Z) (body : string)
    (obj : json) :
  upstream env req = Response status body ->
  (200 <= status < 300)%Z ->
  utf8_valid body = true ->
  json_loads (parse_float env) body = Scanned obj "" ->
  answer env req = Ok obj.
Proof.
  intros Hup Hs Hu Hj. unfold answer. rewrite Hup.
  replace ((200 <=? status) && (status <? 300))%Z with true
    by (symmetry; apply andb_true_iff; split; [apply Z.leb_le | apply Z.ltb_lt]; lia).
  unfold decode. rewrite Hu. unfold loads. now rewrite Hj.
Qed.

(** Whatever value the reply parses to, each tool returns its dump *)
Lemma tools_return_the_dump (env : environment) (obj : json) :
  (forall req : request, answer env req = Ok obj) ->
  (forall st, fst (sol_create_wallet env st) = Ok (json_dumps obj))
  /\ (forall a b c st, fst (sol_transfer_sol env a b c st) = Ok (json_dumps obj))
  /\ (forall a b c d e f g h st,
        fst (sol_execute_trade env a b c d e f g h st) = Ok (json_dumps obj))
  /\ (forall k path n s d b content st,
        file_system env path = Regular content ->
        fst (sol_create_token env k path n s d b st) = Ok (json_dumps obj)).
Proof.
  intros H. repeat split; intros.
  - rewrite sol_create_wallet_run. cbn [fst]. now rewrite H.
  - rewrite sol_transfer_sol_run. cbn [fst]. now rewrite H.
  - rewrite sol_execute_trade_run. cbn [fst]. now rewrite H.
  - rewrite (sol_create_token_run env k path n s d b content st H0). cbn [fst].
    now rewrite H.
Qed.

(** C6: against an upstream that answers
    [{"apiKey":"k1","walletPublicKey":"p1","privateKey":"s1"}],
    [sol_create_wallet] returns that object on five lines, indented by two
    spaces, keys in the same order.  In general every tool returns
    [json.dumps(obj, indent=2)] of the parsed reply; a non-empty object is
    written with one member per line, two spaces of indentation per nesting
    level, in the order of the dict, and the dict built from the members
    read keeps distinct keys in the order in which they were read. *)
Theorem create_wallet_pretty_prints (env : environment) :
  (forall (status : Z) (st : state),
      (200 <= status < 300)%Z ->
      upstream env (get_request env "/pump/createWallet")
      = Response status (dq "{'apiKey':'k1','walletPublicKey':'p1','privateKey':'s1'}") ->
      fst (sol_create_wallet env st) = Ok (dq "{
  'apiKey': 'k1',
  'walletPublicKey': 'p1',
  'privateKey': 's1'
}"))
  /\ (forall obj : json,
        (forall req : request, answer env req = Ok obj) ->
        (forall st, fst (sol_create_wallet env st) = Ok (json_dumps obj))
        /\ (forall a b c st, fst (sol_transfer_sol env a b c st) = Ok (json_dumps obj))
        /\ (forall a b c d e f g h st,
              fst (sol_execute_trade env a b c d e f g h st) = Ok (json_dumps obj))
        /\ (forall k path n s d b content st,
              file_system env path = Regular content ->
              fst (sol_create_token env k path n s d b st) = Ok (json_dumps obj)))
  /\ (forall (level : nat) (kv : string * json) (items : list (string * json)),
        dumps_at (JDict (kv :: items)) level
        = "{" ++ LF ++ repeat_string "  " (S level)
          ++ join ("," ++ LF ++ repeat_string "  " (S level))
               (map (fun m => encode_basestring_ascii (fst m) ++ ": "
                              ++ dumps_at (snd m) (S level)) (kv :: items))
          ++ LF ++ repeat_string "  " level ++ "}")
  /\ (forall pairs : list (string * json),
        NoDup (map fst pairs) -> dict_of_pairs pairs = pairs).
Proof.
  split; [|split; [|split]].
  - intros status st Hs Hup. rewrite sol_create_wallet_run. cbn [fst].
    rewrite (answer_ok env _ status _
               (JDict [("apiKey", JStr "k1"); ("walletPublicKey", JStr "p1");
                       ("privateKey", JStr "s1")]) Hup Hs eq_refl eq_refl).
    reflexivity.
  - apply tools_return_the_dump.
  - intros level kv items. rewrite dumps_dict. unfold newline_indent, indent_unit.
    rewrite !append_assoc. reflexivity.
  - intros pairs. apply dict_of_pairs_distinct.
Qed.

Lemma create_wallet_pretty_prints_witness :
  fst (sol_create_wallet
         (stub no_files
            (Response 200 (dq "{'apiKey':'k1','walletPublicKey':'p1','privateKey':'s1'}"))
            (fun _ => 0%Z)) initial)
  = Ok (dq "{
  'apiKey': 'k1',
  'walletPublicKey': 'p1',
  'privateKey': 's1'
}").
Proof.
  apply (proj1 (create_wallet_pretty_prints
                  (stub no_files
                     (Response 200
                        (dq "{'apiKey':'k1','walletPublicKey':'p1','privateKey':'s1'}"))
                     (fun _ => 0%Z))) 200%Z initial).
  - lia.
  - reflexivity.
Defined.



(** The same for a reply that is [null], a string or a number *)
Example scalar_replies_are_returned :
  fst (sol_execute_trade (stub no_files (Response 200 "null") (fun _ => 0%Z))
         (PStr "k") (PStr "p") (PStr "m") (PStr "buy") (PBool false)
         (PFloat (float_literal "0" "001")) (PInt 10)
         (PFloat (float_literal "0" "00001")) initial) = Ok "null"
  /\ fst (sol_transfer_sol (stub no_files (Response 200 (dq "'done'")) (fun _ => 0%Z))
            (PStr "A") (PStr "B") (PFloat (float_literal "0" "02")) initial)
     = Ok (dq "'done'")
  /\ fst (sol_create_token
            (stub (one_file "/tmp/a.png" "PNG") (Response 200 "-42") (fun _ => 0%Z))
            (PStr "k") "/tmp/a.png" (PStr "n") (PStr "s") (PStr "d")
            (PFloat (float_literal "0" "001")) initial) = Ok "-42".
Proof. repeat split. Qed.

(** ** The boundary (claim C9) *)

Lemma uuid4_int_parts (r : Z) :
  Z.land (uuid4_int r) (Z.ones 128) = Z.lor (Z.land r kept_bits) fixed_bits.
Proof.
  unfold uuid4_int, kept_bits, fixed_bits.
  set (nA := Z.lnot (Z.shiftl 49152 48)). set (nB := Z.lnot (Z.shiftl 61440 64)).
  set (V := Z.shiftl 32768 48). set (W := Z.shiftl 4 76).
  rewrite !Z.land_lor_distr_l.
  replace (Z.land W (Z.ones 128)) with W by reflexivity.
  replace (Z.land (Z.land V nB) (Z.ones 128)) with V by reflexivity.
  rewrite <- !Z.land_assoc.
  replace (Z.land nA (Z.land nB (Z.ones 128))) with (Z.land (Z.ones 128) (Z.land nA nB))
    by reflexivity.
  now rewrite Z.lor_assoc.
Qed.

Lemma kept_of_uuid4_int (r : Z) :
  Z.land (Z.land (uuid4_int r) (Z.ones 128)) kept_bits = Z.land r kept_bits.
Proof.
  rewrite uuid4_int_parts, Z.land_lor_distr_l, <- Z.land_assoc.
  replace (Z.land kept_bits kept_bits) with kept_bits by reflexivity.
  replace (Z.land fixed_bits kept_bits) with 0%Z by reflexivity.
  apply Z.lor_0_r.
Qed.

Lemma hex_value_of_digit (a : nat) :
  (a < 16)%nat -> hex_value (hex_digit_lower a) = Some (N.of_nat a).
Proof.
  intros H. do 16 (destruct a as [|a]; [reflexivity|]). lia.
Qed.

Lemma hex_digit_lower_inj (a b : nat) :
  (a < 16)%nat -> (b < 16)%nat -> hex_digit_lower a = hex_digit_lower b -> a = b.
Proof.
  intros Ha Hb H. apply (f_equal hex_value) in H.
  rewrite !hex_value_of_digit in H by assumption.
  injection H as H. now apply Nat2N.inj.
Qed.

(** The digit [hex_digits] writes for the nibble of weight [16^n] *)
Lemma nibble_div_mod (i : Z) (n : nat) :
  Z.land (Z.shiftr i (4 * Z.of_nat n)) 15 = ((i / 16 ^ Z.of_nat n) mod 16)%Z.
Proof.
  change 15%Z with (Z.ones 4). rewrite Z.land_ones by lia.
  rewrite Z.shiftr_div_pow2 by lia.
  now rewrite Z.pow_mul_r by lia.
Qed.

Lemma hex_digits_step (n : nat) (i : Z) :
  hex_digits (S n) i
  = String (hex_digit_lower (Z.to_nat ((i / 16 ^ Z.of_nat n) mod 16))) (hex_digits n i).
Proof. cbn [hex_digits]. now rewrite nibble_div_mod. Qed.

(** [n] hexadecimal digits determine the number modulo [16^n] *)
Lemma hex_digits_eq_iff (n : nat) (i j : Z) :
  hex_digits n i = hex_digits n j <-> (i mod 16 ^ Z.of_nat n = j mod 16 ^ Z.of_nat n)%Z.
Proof.
  induction n as [|n IH].
  - cbn. rewrite !Z.mod_1_r. tauto.
  - rewrite !hex_digits_step, Nat2Z.inj_succ, Z.pow_succ_r by lia.
    set (P := (16 ^ Z.of_nat n)%Z) in *.
    assert (HP : (0 < P)%Z) by (apply Z.pow_pos_nonneg; lia).
    rewrite (Z.mul_comm 16 P), !Z.rem_mul_r by lia.
    pose proof (Z.mod_pos_bound i P HP). pose proof (Z.mod_pos_bound j P HP).
    pose proof (Z.mod_pos_bound (i / P) 16 eq_refl).
    pose proof (Z.mod_pos_bound (j / P) 16 eq_refl).
    split.
    + intros E. injection E as Ed Et. apply IH in Et.
      apply hex_digit_lower_inj in Ed; [|lia|lia].
      apply Z2Nat.inj in Ed; [|lia|lia]. now rewrite Et, Ed.
    + intros E.
      assert (((i / P) mod 16 = (j / P) mod 16 /\ i mod P = j mod P)%Z) as [Ed Et].
      { apply (Z.div_mod_unique P); [left; lia | left; lia | lia]. }
      rewrite Ed. f_equal. now apply IH.
Qed.

(** Two boundaries are equal exactly when the two draws agree on the bits
    that [uuid4] keeps *)
Lemma uuid_hex_eq_iff (r1 r2 : Z) :
  uuid_hex (uuid4_int r1) = uuid_hex (uuid4_int r2)
  <-> Z.land r1 kept_bits = Z.land r2 kept_bits.
Proof.
  unfold uuid_hex. rewrite hex_digits_eq_iff.
  change (16 ^ Z.of_nat 32)%Z with (2 ^ 128)%Z.
  rewrite <- !Z.land_ones by lia. split; intros E.
  - rewrite <- (kept_of_uuid4_int r1), <- (kept_of_uuid4_int r2). now rewrite E.
  - rewrite !uuid4_int_parts. now rewrite E.
Qed.

(** ** Framing of the multipart body (claims C9, C3 and C1) *)

Lemma field_part_framed (boundary key : string) (value : pyval) :
  field_part boundary key value = framed boundary (field_payload key value).
Proof.
  unfold field_part, framed, field_payload. now rewrite !append_assoc.
Qed.

Lemma file_part_framed (env : environment) (boundary field : string) (f : file) :
  file_part env boundary field f = framed boundary (file_payload env field f).
Proof.
  unfold file_part, framed, file_payload. cbv zeta. now rewrite !append_assoc.
Qed.

Lemma append_fields_text (boundary : string) (fields : dict pyval) (data : string) :
  append_fields boundary fields data
  = data ++ join "" (map (framed boundary)
                       (map (fun kv => field_payload (fst kv) (snd kv)) (drop_None fields))).
Proof.
  unfold append_fields. revert data.
  induction fields as [|[k v] fields IH]; intros data.
  - cbn. now rewrite append_nil_r.
  - cbn [fold_left fst snd drop_None filter]. rewrite IH.
    destruct (is_None v); cbn [negb]; [reflexivity|].
    cbn [map fst snd]. rewrite join_empty_cons, field_part_framed.
    now rewrite append_assoc.
Qed.

Lemma append_files_text (env : environment) (boundary : string) (files : dict file)
    (data : string) :
  append_files env boundary files data
  = data ++ join "" (map (framed boundary)
                       (map (fun ff => file_payload env (fst ff) (snd ff)) files)).
Proof.
  unfold append_files. revert data.
  induction files as [|[k f] files IH]; intros data.
  - cbn. now rewrite append_nil_r.
  - cbn [fold_left fst snd map]. rewrite IH, join_empty_cons, file_part_framed.
    now rewrite append_assoc.
Qed.

(** The body is the framed payloads, one after the other, and the closing
    line *)
Lemma multipart_body_framed (env : environment) (boundary : string)
    (fields : dict pyval) (files : dict file) :
  multipart_body env boundary fields files
  = join "" (map (framed boundary) (payloads env fields files))
    ++ "--" ++ boundary ++ "--" ++ CRLF.
Proof.
  unfold multipart_body, payloads. cbv zeta.
  rewrite append_files_text, append_fields_text, map_app, join_empty_app.
  cbn [append]. now rewrite !append_assoc.
Qed.

(** C9, as stated, fails: two successive encodings of the same input use the
    same boundary although the random source returned two different draws,
    when the draws differ only in bits that [uuid4] overwrites. *)
Lemma two_draws_one_boundary :
  let env := stub (one_file "/tmp/a.png" "PNG") (Response 200 "{}")
               (fun n => if Nat.eqb n 0 then 0%Z else (2 ^ 76)%Z) in
  let call := sol_create_token env (PStr "k") "/tmp/a.png" (PStr "n") (PStr "s")
                (PStr "d") (PFloat (float_literal "0" "001")) in
  urandom16 env 0 <> urandom16 env 1
  /\ exists req : request,
       map fst (calls (snd (call (snd (call initial))))) = [req; req].
Proof.
  split; [vm_compute; discriminate|].
  eexists. vm_compute. reflexivity.
Qed.

(** C9 (amended): [_post_multipart] takes one fresh draw of 16 random bytes
    per request and derives the boundary from it; two requests use
    different boundaries exactly when their draws differ in one of the 122
    bits that [uuid4] keeps (six of the 128 are overwritten by the version
    and the variant).  The body is framed: each part is the line
    [--boundary], its payload and a CRLF, and after the last part comes
    [--boundary--] and a CRLF. *)
Theorem boundary_and_framing (env : environment) :
  (forall (path : string) (fields : dict pyval) (files : dict file) (st : state),
      let first := _post_multipart env (SOL_BASE env ++ path) fields files st in
      let second := _post_multipart env (SOL_BASE env ++ path) fields files (snd first) in
      calls (snd second)
      = (calls st
         ++ [ (multipart_request env path (boundary_at env (draws st)) fields files,
               TIMEOUT env);
              (multipart_request env path (boundary_at env (S (draws st))) fields files,
               TIMEOUT env) ])%list)
  /\ (forall n m : nat,
        boundary_at env n = boundary_at env m
        <-> Z.land (urandom16 env n) kept_bits = Z.land (urandom16 env m) kept_bits)
  /\ (forall (boundary : string) (fields : dict pyval) (files : dict file),
        multipart_body env boundary fields files
        = join "" (map (fun payload => "--" ++ boundary ++ CRLF ++ payload ++ CRLF)
                       (payloads env fields files))
          ++ "--" ++ boundary ++ "--" ++ CRLF).
Proof.
  split; [|split].
  - intros path fields files st. cbv zeta.
    rewrite !post_multipart_run. cbn [snd calls draws].
    now rewrite <- app_assoc.
  - intros n m. apply uuid_hex_eq_iff.
  - intros boundary fields files. apply multipart_body_framed.
Qed.

Lemma boundary_and_framing_witness :
  boundary_at (stub no_files (Response 200 "{}") (fun n => Z.of_nat n)) 1
  <> boundary_at (stub no_files (Response 200 "{}") (fun n => Z.of_nat n)) 2.
Proof.
  intros E.
  apply (proj1 (proj1 (proj2 (boundary_and_framing
                                (stub no_files (Response 200 "{}") (fun n => Z.of_nat n))))
                      1%nat 2%nat)) in E.
  vm_compute in E. discriminate E.
Defined.

(** ** Cutting a string at a separator *)

Lemma starts_with_refl_app (d s : string) : starts_with d (d ++ s) = true.
Proof.
  induction d as [|c d IH]; [reflexivity|].
  cbn. now rewrite Ascii.eqb_refl.
Qed.

Lemma split_on_skip (d a s cur : string) :
  split_on d (a ++ s) (String.length a + 0) cur = split_on d s 0 cur.
Proof.
  induction a as [|c a IH]; [reflexivity|]. cbn. exact IH.
Qed.

Lemma split_on_free (d a t cur : string) :
  free_prefix d a t = true ->
  split_on d (a ++ t) 0 cur = split_on d t 0 (cur ++ a).
Proof.
  revert cur. induction a as [|c a IH]; intros cur H.
  - cbn. now rewrite append_nil_r.
  - cbn [free_prefix] in H. apply andb_true_iff in H as [H1 H2].
    apply negb_true_iff in H1.
    change (String c a ++ t) with (String c (a ++ t)) in *.
    cbn [split_on]. rewrite H1, (IH _ H2), append_assoc. reflexivity.
Qed.

Lemma split_on_match (c : ascii) (d s cur : string) :
  split_on (String c d) (String c d ++ s) 0 cur = cur :: split_on (String c d) s 0 "".
Proof.
  change (String c d ++ s) with (String c (d ++ s)).
  cbn [split_on].
  change (String c (d ++ s)) with (String c d ++ s).
  rewrite starts_with_refl_app. f_equal.
  cbn [String.length]. rewrite Nat.sub_1_r. cbn [Nat.pred].
  rewrite <- (Nat.add_0_r (String.length d)). apply split_on_skip.
Qed.

(** A chunk that lacks the first character of the separator holds no start
    of it *)
Lemma free_prefix_first_char (c : ascii) (d a t : string) :
  string_mem c a = false -> free_prefix (String c d) a t = true.
Proof.
  induction a as [|x a IH]; [reflexivity|]. cbn [string_mem free_prefix].
  intros H. apply orb_false_iff in H as [H1 H2].
  rewrite (IH H2), andb_true_r. cbn. now rewrite H1.
Qed.

(** Pieces without the separator character are what [split] finds *)
Lemma split_join_char (c : ascii) (x : string) (items : list string) (cur : string) :
  (forall y, In y (x :: items) -> string_mem c y = false) ->
  split_on (String c "") (join (String c "") (x :: items)) 0 cur
  = (cur ++ x) :: items.
Proof.
  revert x cur. induction items as [|y items IH]; intros x cur H.
  - cbn [join]. rewrite <- (append_nil_r x) at 1.
    rewrite split_on_free by (apply free_prefix_first_char, H; now left).
    reflexivity.
  - change (join (String c "") (x :: y :: items))
      with (x ++ String c "" ++ join (String c "") (y :: items)).
    rewrite split_on_free by (apply free_prefix_first_char, H; now left).
    rewrite split_on_match. f_equal.
    apply (IH y ""). intros z Hz. apply H. now right.
Qed.

(** ** Values that are [None] (claim C3) *)

Lemma app_sep_inj (c : ascii) (a b x y : string) :
  string_mem c a = false -> string_mem c b = false ->
  a ++ String c x = b ++ String c y -> a = b /\ x = y.
Proof.
  revert b. induction a as [|p a IH]; intros [|q b] Ha Hb E; cbn in *.
  - injection E as E. now split.
  - injection E as E1 E2. subst q. now rewrite Ascii.eqb_refl in Hb.
  - injection E as E1 E2. subst p. now rewrite Ascii.eqb_refl in Ha.
  - injection E as E1 E2. subst q.
    apply orb_false_iff in Ha as [_ Ha]. apply orb_false_iff in Hb as [_ Hb].
    destruct (IH b Ha Hb E2) as [-> ->]. now split.
Qed.

Lemma urlencode_item_no_amp (kv : string * pyval) :
  string_mem "&" (urlencode_item kv) = false.
Proof.
  unfold urlencode_item. rewrite !string_mem_app, !quote_plus_no_amp. reflexivity.
Qed.

Lemma drop_None_spec (data : dict pyval) (k : string) (v : pyval) :
  In (k, v) (drop_None data) <-> In (k, v) data /\ v <> PNone.
Proof.
  unfold drop_None. rewrite filter_In. cbn [snd].
  destruct v; cbn; intuition congruence.
Qed.

Lemma drop_None_without (data : dict pyval) (k : string) :
  (forall v, In (k, v) data -> v = PNone) ->
  drop_None (without k data) = drop_None data.
Proof.
  unfold drop_None, without. induction data as [|[k' v'] data IH]; intros H; [reflexivity|].
  cbn [filter fst snd].
  assert (IH' : filter (fun kv => negb (is_None (snd kv)))
                  (filter (fun kv => negb (String.eqb (fst kv) k)) data)
                = filter (fun kv => negb (is_None (snd kv))) data)
    by (apply IH; intros v Hv; apply H; now right).
  destruct (String.eqb k' k) eqn:E; cbn [negb filter snd].
  - apply String.eqb_eq in E. subst k'.
    rewrite (H v' (or_introl eq_refl)). cbn. exact IH'.
  - now rewrite IH'.
Qed.

(** The pieces of a form body between two [&] are the encoded items *)
Lemma form_body_segments (data : dict pyval) (seg : string) :
  In seg (split "&" (form_body data)) ->
  seg = "" \/ exists kv, In kv (drop_None data) /\ seg = urlencode_item kv.
Proof.
  unfold form_body, urlencode, split.
  destruct (drop_None data) as [|kv items] eqn:E.
  - cbn. intros [H|[]]. now left.
  - cbn [map]. rewrite split_join_char.
    + cbn [append]. intros H. right.
      change (urlencode_item kv :: map urlencode_item items)
        with (map urlencode_item (kv :: items)) in H.
      apply in_map_iff in H as [kv' [H1 H2]]. now exists kv'.
    + intros y Hy.
      change (urlencode_item kv :: map urlencode_item items)
        with (map urlencode_item (kv :: items)) in Hy.
      apply in_map_iff in Hy as [kv' [<- _]]. apply urlencode_item_no_amp.
Qed.

(** C3: a key whose value is [None] is left out by both encoders: the form
    body and the multipart body are those of the mapping without the key,
    no part is written for it, and no piece of the form body has the form
    [key=...], be it [key=], [key=None] or [key=null]. *)
Theorem none_values_are_omitted (env : environment) (data : dict pyval) (k : string) :
  (forall v, In (k, v) data -> v = PNone) ->
  form_body data = form_body (without k data)
  /\ (forall (boundary : string) (files : dict file),
        multipart_body env boundary data files
        = multipart_body env boundary (without k data) files)
  /\ ~ In k (map fst (drop_None data))
  /\ (forall (files : dict file),
        payloads env data files
        = (map (fun kv => field_payload (fst kv) (snd kv)) (drop_None data)
           ++ map (fun ff => file_payload env (fst ff) (snd ff)) files)%list)
  /\ (forall seg w : string,
        In seg (split "&" (form_body data)) -> seg <> quote_plus "" k ++ "=" ++ w).
Proof.
  intros H. pose proof (drop_None_without data k H) as Hw.
  assert (Hk : ~ In k (map fst (drop_None data))).
  { intros Hin. apply in_map_iff in Hin as [[k' v] [Hk' Hin]]. cbn in Hk'. subst k'.
    apply drop_None_spec in Hin as [Hin Hv]. now apply Hv, H. }
  split; [|split; [|split; [|split]]].
  - unfold form_body. now rewrite Hw.
  - intros boundary files. rewrite !multipart_body_framed. unfold payloads.
    now rewrite Hw.
  - exact Hk.
  - reflexivity.
  - intros seg w Hseg E. apply form_body_segments in Hseg as [->|[[k' v] [Hin ->]]].
    + destruct (quote_plus "" k); discriminate E.
    + unfold urlencode_item in E. cbn [fst snd py_str] in E.
      apply app_sep_inj in E as [E _]; [|apply quote_plus_no_eq|apply quote_plus_no_eq].
      apply quote_plus_inj in E. subst k'.
      apply Hk. apply in_map_iff. now exists (k, v).
Qed.

Lemma none_values_are_omitted_witness :
  form_body [("a", PStr "x"); ("b", PNone); ("c", PInt 1)]
  = form_body (without "b" [("a", PStr "x"); ("b", PNone); ("c", PInt 1)]).
Proof.
  apply (none_values_are_omitted
           (stub no_files (Response 200 "{}") (fun _ => 0%Z))
           [("a", PStr "x"); ("b", PNone); ("c", PInt 1)] "b").
  intros v [E|[E|[E|[]]]]; try discriminate E; now injection E.
Defined.

(** For instance *)
Example none_is_left_out :
  form_body [("a", PStr "x"); ("b", PNone); ("c", PInt 1)] = "a=x&c=1"
  /\ split "&" (form_body [("a", PStr "x"); ("b", PNone); ("c", PInt 1)]) = ["a=x"; "c=1"].
Proof. split; reflexivity. Qed.

(** ** Cutting a body at its delimiters (claim C1) *)

(** A pattern that lacks [c] cannot straddle the place where [c] follows *)
Lemma starts_with_straddle (c : ascii) (d v t : string) :
  string_mem c d = false ->
  starts_with d (v ++ String c t) = starts_with d v.
Proof.
  revert v. induction d as [|a d IH]; intros v H; [reflexivity|].
  cbn [string_mem] in H. apply orb_false_iff in H as [H1 H2].
  destruct v as [|x v]; cbn [append starts_with].
  - rewrite Ascii.eqb_sym in H1. now rewrite H1.
  - now rewrite (IH v H2).
Qed.

Lemma starts_with_contains (d s : string) :
  starts_with d s = true -> contains d s = true.
Proof. intros H. destruct s; cbn [contains]; now rewrite H. Qed.

Lemma contains_tail (d : string) (x : ascii) (s : string) :
  contains d (String x s) = false ->
  starts_with d (String x s) = false /\ contains d s = false.
Proof. cbn [contains]. intros H. now apply orb_false_iff in H. Qed.

Lemma starts_with_longer_pattern (p b s : string) :
  starts_with (p ++ b) s = true -> contains b s = true.
Proof.
  revert s. induction p as [|c p IH]; intros s H.
  - now apply starts_with_contains.
  - destruct s as [|x s]; [discriminate H|]. cbn [append starts_with] in H.
    apply andb_true_iff in H as [_ H]. cbn [contains]. rewrite (IH s H).
    now rewrite orb_true_r.
Qed.

(** A string free of [b] is free of every pattern that ends with [b] *)
Lemma contains_longer_pattern (p b s : string) :
  contains b s = false -> contains (p ++ b) s = false.
Proof.
  induction s as [|x s IH]; intros H.
  - cbn [contains]. destruct (starts_with (p ++ b) "") eqn:E; [|reflexivity].
    apply starts_with_longer_pattern in E. congruence.
  - destruct (contains_tail _ _ _ H) as [H1 H2]. cbn [contains].
    rewrite (IH H2), orb_false_r.
    destruct (starts_with (p ++ b) (String x s)) eqn:E; [|reflexivity].
    apply starts_with_longer_pattern in E. congruence.
Qed.

Lemma free_prefix_app (d a1 a2 t : string) :
  free_prefix d (a1 ++ a2) t = free_prefix d a1 (a2 ++ t) && free_prefix d a2 t.
Proof.
  induction a1 as [|c a1 IH]; [reflexivity|].
  cbn [append free_prefix]. rewrite IH.
  change (String c (a1 ++ a2) ++ t) with (String c ((a1 ++ a2) ++ t)).
  change (String c a1 ++ a2 ++ t) with (String c (a1 ++ a2 ++ t)).
  now rewrite append_assoc, andb_assoc.
Qed.

(** Content that does not contain the delimiter holds no start of it, not
    even one that would run into the delimiter that follows: the delimiter
    starts with the only [c] it has. *)
Lemma free_prefix_content (c : ascii) (d v t : string) :
  string_mem c d = false ->
  contains (String c d) v = false ->
  free_prefix (String c d) v (String c d ++ t) = true.
Proof.
  intros Hc. induction v as [|x v IH]; intros H; [reflexivity|].
  destruct (contains_tail _ _ _ H) as [H1 H2].
  cbn [free_prefix]. rewrite (IH H2), andb_true_r.
  apply negb_true_iff.
  change (String x v ++ String c d ++ t) with (String x (v ++ String c (d ++ t))).
  cbn [starts_with]. rewrite (starts_with_straddle c d v (d ++ t) Hc).
  exact H1.
Qed.

(** The pieces found when each one is followed by the delimiter and holds
    no start of it *)
Lemma split_on_segments (c : ascii) (d : string) (segs : list string) (last cur : string) :
  (forall s t, In s segs -> free_prefix (String c d) s (String c d ++ t) = true) ->
  free_prefix (String c d) last "" = true ->
  split_on (String c d)
    (join "" (map (fun s => String c d ++ s) segs) ++ String c d ++ last) 0 cur
  = cur :: (segs ++ [last])%list.
Proof.
  intros Hs Hl. revert cur. induction segs as [|s segs IH]; intros cur.
  - cbn [map join app]. change ("" ++ String c d ++ last) with (String c d ++ last).
    rewrite split_on_match. f_equal.
    rewrite <- (append_nil_r last) at 1. rewrite (split_on_free _ last "" "" Hl).
    reflexivity.
  - cbn [map]. rewrite join_empty_cons, !append_assoc, split_on_match. f_equal.
    assert (Ht : exists t, join "" (map (fun s => String c d ++ s) segs)
                           ++ String c d ++ last = String c d ++ t).
    { destruct segs as [|s' segs'].
      - now exists last.
      - cbn [map]. rewrite join_empty_cons, !append_assoc. eauto. }
    destruct Ht as [t Ht].
    rewrite split_on_free by (rewrite Ht; apply Hs; now left).
    cbn [app append]. apply IH. intros s' t' Hin. apply Hs. now right.
Qed.

(** ** Decoding one part *)

Lemma read_headers_other (c : ascii) (s cur : string) :
  Ascii.eqb c "013" = false ->
  read_headers (String c s) cur = read_headers s (cur ++ String c "").
Proof.
  destruct c as [[] [] [] [] [] [] [] []]; intros H;
    solve [discriminate H | reflexivity].
Qed.

(** A stretch without carriage return is added to the line being read *)
Lemma read_headers_chunk (x t cur : string) :
  string_mem "013" x = false ->
  read_headers (x ++ t) cur = read_headers t (cur ++ x).
Proof.
  revert cur. induction x as [|c x IH]; intros cur H.
  - cbn. now rewrite append_nil_r.
  - cbn [string_mem] in H. apply orb_false_iff in H as [H1 H2].
    cbn [append]. rewrite read_headers_other by (now rewrite Ascii.eqb_sym).
    rewrite (IH _ H2), append_assoc. reflexivity.
Qed.

Lemma read_headers_line (x t : string) (c : ascii) :
  string_mem "013" (String c x) = false ->
  read_headers (String c x ++ CRLF ++ t) ""
  = match read_headers t "" with
    | Some (lines, content) => Some (String c x :: lines, content)
    | None => None
    end.
Proof.
  intros H. rewrite read_headers_chunk by exact H. reflexivity.
Qed.

Lemma read_headers_end (t : string) : read_headers (CRLF ++ t) "" = Some ([], t).
Proof. reflexivity. Qed.

Lemma split_at_fresh (c : ascii) (a r : string) :
  string_mem c a = false ->
  split_at (String c "") (a ++ String c r) = Some (a, r).
Proof.
  induction a as [|x a IH]; intros H.
  - cbn. now rewrite Ascii.eqb_refl.
  - cbn [string_mem] in H. apply orb_false_iff in H as [H1 H2].
    cbn [append split_at starts_with]. rewrite H1. cbn [andb].
    now rewrite (IH H2).
Qed.

Lemma header_safe_spec (s : string) :
  header_safe s = true ->
  string_mem DQUOTE s = false /\ string_mem "013" s = false /\ string_mem "010" s = false.
Proof.
  unfold header_safe. induction s as [|c s IH]; [now repeat split|].
  cbn [string_forallb string_mem]. intros H. apply andb_true_iff in H as [Hc Hs].
  destruct (IH Hs) as [I1 [I2 I3]]. rewrite I1, I2, I3.
  apply negb_true_iff in Hc. apply orb_false_iff in Hc as [Hc H3].
  apply orb_false_iff in Hc as [H1 H2].
  rewrite (Ascii.eqb_sym DQUOTE c), (Ascii.eqb_sym "013" c), (Ascii.eqb_sym "010" c).
  now rewrite H1, H2, H3.
Qed.

Lemma token_safe_spec (s : string) :
  token_safe s = true ->
  skip_spaces s = s /\ string_mem "013" s = false /\ string_mem "010" s = false.
Proof.
  unfold token_safe. intros H. split.
  - destruct s as [|c s]; [reflexivity|]. cbn [string_forallb] in H.
    apply andb_true_iff in H as [Hc _].
    destruct c as [[] [] [] [] [] [] [] []]; solve [discriminate Hc | reflexivity].
  - induction s as [|c s IH]; [now split|].
    cbn [string_forallb string_mem] in *. apply andb_true_iff in H as [Hc Hs].
    destruct (IH Hs) as [I2 I3]. rewrite I2, I3.
    apply negb_true_iff in Hc. apply orb_false_iff in Hc as [Hc H3].
    apply orb_false_iff in Hc as [H1 H2].
    rewrite (Ascii.eqb_sym "013" c), (Ascii.eqb_sym "010" c).
    now rewrite H2, H3.
Qed.

Lemma parse_params_step (fuel : nat) (s1 attribute value rest : string) :
  split_at "=" (skip_spaces s1) = Some (attribute, quoted value ++ rest) ->
  string_mem DQUOTE value = false ->
  parse_params (S fuel) (String ";" s1)
  = match parse_params fuel rest with
    | Some params => Some ((attribute, value) :: params)
    | None => None
    end.
Proof.
  intros Hs Hv. cbn [parse_params]. rewrite Hs. unfold quoted.
  rewrite append_assoc. cbn [append].
  now rewrite Ascii.eqb_refl, (split_at_fresh DQUOTE value rest Hv).
Qed.

Lemma parse_params_name (fuel : nat) (key : string) :
  string_mem DQUOTE key = false ->
  parse_params (S (S fuel)) ("; name=" ++ quoted key) = Some [("name", key)].
Proof.
  intros H.
  change ("; name=" ++ quoted key) with (String ";" (" name=" ++ quoted key)).
  rewrite (parse_params_step _ _ "name" key "").
  - reflexivity.
  - now rewrite append_nil_r.
  - exact H.
Qed.

Lemma parse_params_name_filename (fuel : nat) (key filename : string) :
  string_mem DQUOTE key = false ->
  string_mem DQUOTE filename = false ->
  parse_params (S (S (S fuel))) ("; name=" ++ quoted key ++ "; filename=" ++ quoted filename)
  = Some [("name", key); ("filename", filename)].
Proof.
  intros Hk Hf.
  change ("; name=" ++ quoted key ++ "; filename=" ++ quoted filename)
    with (String ";" (" name=" ++ quoted key ++ String ";" (" filename=" ++ quoted filename))).
  rewrite (parse_params_step _ _ "name" key
             (String ";" (" filename=" ++ quoted filename))); [|reflexivity|exact Hk].
  rewrite (parse_params_step _ _ "filename" filename "").
  - reflexivity.
  - now rewrite append_nil_r.
  - exact Hf.
Qed.

Lemma header_disposition_here (x : string) (lines : list string) :
  header "Content-Disposition" (("Content-Disposition: " ++ x) :: lines)
  = Some (skip_spaces x).
Proof. reflexivity. Qed.

Lemma header_type_skip (x : string) (lines : list string) :
  header "Content-Type" (("Content-Disposition: " ++ x) :: lines)
  = header "Content-Type" lines.
Proof. reflexivity. Qed.

Lemma header_type_here (x : string) (lines : list string) :
  header "Content-Type" (("Content-Type: " ++ x) :: lines) = Some (skip_spaces x).
Proof. reflexivity. Qed.

Lemma parse_disposition_form_data (p : string) :
  parse_disposition ("form-data" ++ p) = parse_params (9 + String.length p) p.
Proof. reflexivity. Qed.

(** The segment of a text field decodes to the field *)
Lemma decode_text_part (key : string) (value : pyval) :
  header_safe key = true ->
  decode_part (CRLF ++ field_payload key value) = Some (TextField key (py_str value)).
Proof.
  intros H. destruct (header_safe_spec key H) as [Hq [Hr Hn]].
  unfold field_payload.
  change (CRLF ++ "Content-Disposition: form-data; name=" ++ quoted key
               ++ CRLF ++ CRLF ++ py_str value)
    with (String "013" (String "010"
            (String "C" ("ontent-Disposition: form-data; name=" ++ quoted key
                         ++ CRLF ++ CRLF ++ py_str value)))).
  cbn [decode_part].
  replace (String "C" ("ontent-Disposition: form-data; name=" ++ quoted key
                       ++ CRLF ++ CRLF ++ py_str value))
    with (String "C" ("ontent-Disposition: form-data; name=" ++ quoted key)
          ++ CRLF ++ CRLF ++ py_str value)
    by (cbn [append]; rewrite ?append_assoc; reflexivity).
  rewrite read_headers_line, read_headers_end.
  - change (String "C" ("ontent-Disposition: form-data; name=" ++ quoted key))
      with ("Content-Disposition: " ++ "form-data" ++ "; name=" ++ quoted key).
    rewrite header_disposition_here.
    change (skip_spaces ("form-data" ++ "; name=" ++ quoted key))
      with ("form-data" ++ "; name=" ++ quoted key).
    rewrite parse_disposition_form_data.
    change (9 + String.length ("; name=" ++ quoted key))
      with (S (S (7 + String.length ("; name=" ++ quoted key)))).
    rewrite (parse_params_name _ key Hq). reflexivity.
  - cbn [string_mem append]. unfold quoted.
    rewrite !string_mem_app. cbn [string_mem]. now rewrite Hr.
Qed.

(** The segment of a file decodes to the file field *)
Lemma decode_file_part (env : environment) (field : string) (f : file) :
  header_safe field = true ->
  header_safe (basename (file_name f)) = true ->
  token_safe (filetype_of env (basename (file_name f))) = true ->
  decode_part (CRLF ++ file_payload env field f) = Some (file_field env field f).
Proof.
  intros H1 H2 H3. unfold file_payload, file_field.
  set (fn := basename (file_name f)) in *.
  set (ft := filetype_of env fn) in *.
  set (content := file_content f).
  destruct (header_safe_spec field H1) as [Hq [Hr Hn]].
  destruct (header_safe_spec fn H2) as [Hq' [Hr' Hn']].
  destruct (token_safe_spec ft H3) as [Hs [Hr'' Hn'']].
  set (l1 := "ontent-Disposition: form-data; name=" ++ quoted field
             ++ "; filename=" ++ quoted fn).
  set (l2 := "ontent-Type: " ++ ft).
  replace (CRLF ++ "Content-Disposition: form-data; name=" ++ quoted field
                ++ "; filename=" ++ quoted fn ++ CRLF
                ++ "Content-Type: " ++ ft ++ CRLF ++ CRLF ++ content)
    with (String "013" (String "010"
            (String "C" l1 ++ CRLF ++ String "C" l2 ++ CRLF ++ CRLF ++ content)))
    by (unfold l1, l2; cbn [append]; rewrite ?append_assoc; cbn [append];
        rewrite ?append_assoc; reflexivity).
  cbn [decode_part].
  rewrite read_headers_line, read_headers_line, read_headers_end.
  - change (String "C" l1)
      with ("Content-Disposition: " ++ "form-data"
            ++ "; name=" ++ quoted field ++ "; filename=" ++ quoted fn).
    change (String "C" l2) with ("Content-Type: " ++ ft).
    rewrite header_disposition_here, header_type_skip, header_type_here, Hs.
    change (skip_spaces ("form-data" ++ "; name=" ++ quoted field
                         ++ "; filename=" ++ quoted fn))
      with ("form-data" ++ "; name=" ++ quoted field ++ "; filename=" ++ quoted fn).
    rewrite parse_disposition_form_data.
    change (9 + String.length ("; name=" ++ quoted field ++ "; filename=" ++ quoted fn))
      with (S (S (S (6 + String.length ("; name=" ++ quoted field
                                        ++ "; filename=" ++ quoted fn))))).
    rewrite (parse_params_name_filename _ field fn Hq Hq'). reflexivity.
  - unfold l2. cbn [string_mem]. rewrite string_mem_app. cbn [string_mem].
    now rewrite Hr''.
  - unfold l1, quoted. cbn [string_mem]. rewrite !string_mem_app. cbn [string_mem].
    now rewrite Hr, Hr'.
Qed.

(** ** No delimiter inside a segment *)

Section Delimiter.

Variable b : string.
Hypothesis b_no_CR : string_mem "013" b = false.

Let delimiter : string := CRLF ++ "--" ++ b.

Lemma free_prefix_crlf (x : string) :
  starts_with ("--" ++ b) x = false -> free_prefix delimiter CRLF x = true.
Proof.
  intros H.
  assert (E1 : starts_with delimiter (CRLF ++ x) = starts_with ("--" ++ b) x)
    by reflexivity.
  assert (E2 : starts_with delimiter (String "010" x) = false) by reflexivity.
  change (free_prefix delimiter CRLF x)
    with (negb (starts_with delimiter (CRLF ++ x))
          && (negb (starts_with delimiter (String "010" x)) && true)).
  now rewrite E1, E2, H.
Qed.

(** Content free of the boundary does not start with [--boundary], whatever
    follows it after a line break *)
Lemma content_start_is_no_delimiter (content t : string) :
  contains b content = false ->
  starts_with ("--" ++ b) (content ++ delimiter ++ t) = false.
Proof.
  intros H. unfold delimiter.
  change ((CRLF ++ "--" ++ b) ++ t) with (String "013" (String "010" (("--" ++ b) ++ t))).
  rewrite starts_with_straddle by (cbn [append string_mem]; now rewrite b_no_CR).
  destruct (starts_with ("--" ++ b) content) eqn:E; [|reflexivity].
  apply starts_with_longer_pattern in E. congruence.
Qed.

Lemma free_prefix_boundary_free (content t : string) :
  contains b content = false ->
  free_prefix delimiter content (delimiter ++ t) = true.
Proof.
  intros H. unfold delimiter.
  change (CRLF ++ "--" ++ b) with (String "013" (String "010" ("--" ++ b))).
  apply free_prefix_content.
  - cbn [append string_mem]. now rewrite b_no_CR.
  - exact (contains_longer_pattern (CRLF ++ "--") b content H).
Qed.

Lemma free_prefix_line (x t : string) :
  string_mem "013" x = false -> free_prefix delimiter x t = true.
Proof. intros H. now apply free_prefix_first_char. Qed.

(** The segment of a text field holds no start of the delimiter *)
Lemma field_segment_sealed (key : string) (value : pyval) (t : string) :
  header_safe key = true ->
  contains b (py_str value) = false ->
  free_prefix delimiter (CRLF ++ field_payload key value) (delimiter ++ t) = true.
Proof.
  intros Hk Hv. destruct (header_safe_spec key Hk) as [_ [Hr _]].
  unfold field_payload.
  set (l1 := "Content-Disposition: form-data; name=" ++ quoted key).
  replace (CRLF ++ "Content-Disposition: form-data; name=" ++ quoted key
                ++ CRLF ++ CRLF ++ py_str value)
    with (CRLF ++ l1 ++ CRLF ++ CRLF ++ py_str value)
    by (unfold l1; rewrite ?append_assoc; reflexivity).
  rewrite !free_prefix_app.
  rewrite (free_prefix_crlf ((l1 ++ CRLF ++ CRLF ++ py_str value) ++ delimiter ++ t))
    by reflexivity.
  rewrite (free_prefix_line l1)
    by (unfold l1, quoted; mem_false).
  rewrite (free_prefix_crlf ((CRLF ++ py_str value) ++ delimiter ++ t)) by reflexivity.
  rewrite (free_prefix_crlf (py_str value ++ delimiter ++ t))
    by (now apply content_start_is_no_delimiter).
  now rewrite free_prefix_boundary_free.
Qed.

(** The segment of a file holds no start of the delimiter *)
Lemma file_segment_sealed (env : environment) (field : string) (f : file) (t : string) :
  header_safe field = true ->
  header_safe (basename (file_name f)) = true ->
  token_safe (filetype_of env (basename (file_name f))) = true ->
  contains b (file_content f) = false ->
  free_prefix delimiter (CRLF ++ file_payload env field f) (delimiter ++ t) = true.
Proof.
  intros H1 H2 H3 Hc. unfold file_payload.
  set (fn := basename (file_name f)) in *.
  set (ft := filetype_of env fn) in *.
  set (content := file_content f) in *.
  clearbody fn ft content.
  destruct (header_safe_spec field H1) as [_ [Hr _]].
  destruct (header_safe_spec fn H2) as [_ [Hr' _]].
  destruct (token_safe_spec ft H3) as [_ [Hr'' _]].
  set (l1 := "Content-Disposition: form-data; name=" ++ quoted field
             ++ "; filename=" ++ quoted fn).
  set (l2 := "Content-Type: " ++ ft).
  replace (CRLF ++ "Content-Disposition: form-data; name=" ++ quoted field
                ++ "; filename=" ++ quoted fn ++ CRLF
                ++ "Content-Type: " ++ ft ++ CRLF ++ CRLF ++ content)
    with (CRLF ++ l1 ++ CRLF ++ l2 ++ CRLF ++ CRLF ++ content)
    by (unfold l1, l2; rewrite ?append_assoc; reflexivity).
  rewrite !free_prefix_app.
  rewrite (free_prefix_crlf ((l1 ++ CRLF ++ l2 ++ CRLF ++ CRLF ++ content) ++ delimiter ++ t))
    by reflexivity.
  rewrite (free_prefix_line l1)
    by (unfold l1, quoted; mem_false).
  rewrite (free_prefix_crlf ((l2 ++ CRLF ++ CRLF ++ content) ++ delimiter ++ t))
    by reflexivity.
  rewrite (free_prefix_line l2)
    by (unfold l2; mem_false).
  rewrite (free_prefix_crlf ((CRLF ++ content) ++ delimiter ++ t)) by reflexivity.
  rewrite (free_prefix_crlf (content ++ delimiter ++ t))
    by (now apply content_start_is_no_delimiter).
  now rewrite free_prefix_boundary_free.
Qed.

End Delimiter.

(** ** The round trip of a multipart body (claim C1) *)

Lemma hex_digit_lower_not_CR (m : nat) : Ascii.eqb "013" (hex_digit_lower m) = false.
Proof. do 16 (destruct m as [|m]; [reflexivity|]). reflexivity. Qed.

Lemma hex_digits_no_CR (n : nat) (i : Z) : string_mem "013" (hex_digits n i) = false.
Proof.
  induction n as [|n IH]; [reflexivity|].
  cbn [hex_digits string_mem]. now rewrite hex_digit_lower_not_CR, IH.
Qed.

Lemma boundary_no_CR (env : environment) (n : nat) :
  string_mem "013" (boundary_at env n) = false.
Proof. apply hex_digits_no_CR. Qed.

(** A body read from the line break before it: every payload comes after a
    delimiter and a line break, and a last delimiter comes before [--] *)
Lemma framed_as_segments (b : string) (ps : list string) (tail : string) :
  CRLF ++ join "" (map (framed b) ps) ++ "--" ++ b ++ tail
  = join "" (map (fun s => (CRLF ++ "--" ++ b) ++ s) (map (append CRLF) ps))
    ++ (CRLF ++ "--" ++ b) ++ tail.
Proof.
  induction ps as [|p ps IH].
  - cbn [map join]. now rewrite !append_assoc.
  - cbn [map]. rewrite !join_empty_cons. unfold framed at 1.
    rewrite !append_assoc. rewrite !append_assoc in IH.
    do 5 f_equal. exact IH.
Qed.

Lemma decode_segments_all (ps : list string) (ds : list form_part) :
  Forall2 (fun p d => decode_part (CRLF ++ p) = Some d) ps ds ->
  decode_segments (map (append CRLF) ps ++ ["--" ++ CRLF]) = Some ds.
Proof.
  induction 1 as [|p d ps ds Hp _ IH]; [reflexivity|].
  cbn [map app decode_segments].
  change (starts_with "--" (CRLF ++ p)) with false. cbv iota.
  now rewrite Hp, IH.
Qed.

(** The parser finds the segments of a body whose payloads hold no start
    of the delimiter *)
Lemma parse_multipart_segments (b : string) (ps : list string) :
  (forall p t, In p ps ->
     free_prefix (CRLF ++ "--" ++ b) (CRLF ++ p) ((CRLF ++ "--" ++ b) ++ t) = true) ->
  parse_multipart b (join "" (map (framed b) ps) ++ "--" ++ b ++ "--" ++ CRLF)
  = decode_segments (map (append CRLF) ps ++ ["--" ++ CRLF]).
Proof.
  intros H. unfold parse_multipart, split.
  rewrite framed_as_segments.
  change (CRLF ++ "--" ++ b) with (String "013" (String "010" ("--" ++ b))) in *.
  rewrite split_on_segments; [reflexivity| |reflexivity].
  intros s t Hin. apply in_map_iff in Hin as [p [<- Hp]]. now apply H.
Qed.




(* ================================================================== *)
(** * Further properties *)
(* ================================================================== *)

(** ** One request for each call *)

Lemma every_tool_follows (env : environment) (a : result json) :
  (forall req : request, answer env req = a) -> every_tool_returns env (dumped a).
Proof.
  intros H. unfold every_tool_returns. repeat split; intros.
  - rewrite sol_create_wallet_run. cbn [fst]. now rewrite H.
  - rewrite sol_transfer_sol_run. cbn [fst]. now rewrite H.
  - rewrite sol_execute_trade_run. cbn [fst]. now rewrite H.
  - rewrite (sol_create_token_run env k path n s d b content st H0). cbn [fst].
    now rewrite H.
Qed.



(** With a file to send the body starts with the boundary line *)
Lemma body_starts_with_boundary (env : environment) (boundary : string)
    (fields : dict pyval) (ff : string * file) (files : dict file) :
  exists tail : string,
    multipart_body env boundary fields (ff :: files)
    = ("--" ++ boundary ++ CRLF) ++ tail.
Proof.
  rewrite multipart_body_framed. unfold payloads.
  destruct (map (fun kv => field_payload (fst kv) (snd kv)) (drop_None fields))
    as [|p ps]; cbn [app map]; rewrite join_empty_cons; unfold framed at 1;
    eexists; rewrite !append_assoc; reflexivity.
Qed.

(** X2: the method, the address and the headers of the request of each
    tool: [sol_create_wallet] sends a GET without body, the three others a
    POST; the address is the base followed by the path of the endpoint; only
    [sol_create_token] sets a header, [Content-type], which names the
    boundary that frames its body. *)
Theorem requests_of_the_tools (env : environment) (st : state) :
  (exists req,
      calls (snd (sol_create_wallet env st)) = (calls st ++ [(req, TIMEOUT env)])%list
      /\ get_method req = "GET" /\ req_data req = None
      /\ req_url req = SOL_BASE env ++ "/pump/createWallet" /\ req_headers req = [])
  /\ (forall a b c, exists req,
        calls (snd (sol_transfer_sol env a b c st)) = (calls st ++ [(req, TIMEOUT env)])%list
        /\ get_method req = "POST"
        /\ req_url req = SOL_BASE env ++ "/pump/transferSOL" /\ req_headers req = [])
  /\ (forall a b c d e f g h, exists req,
        calls (snd (sol_execute_trade env a b c d e f g h st))
        = (calls st ++ [(req, TIMEOUT env)])%list
        /\ get_method req = "POST"
        /\ req_url req = SOL_BASE env ++ "/pump/executeTrade" /\ req_headers req = [])
  /\ (forall k path n s d b content,
        file_system env path = Regular content ->
        exists req boundary body,
          calls (snd (sol_create_token env k path n s d b st))
          = (calls st ++ [(req, TIMEOUT env)])%list
          /\ get_method req = "POST"
          /\ req_url req = SOL_BASE env ++ "/pump/createToken"
          /\ req_headers req = [("Content-type", "multipart/form-data; boundary=" ++ boundary)]
          /\ req_data req = Some body
          /\ starts_with ("--" ++ boundary ++ CRLF) body = true).
Proof.
  split; [|split; [|split]]; intros.
  - rewrite sol_create_wallet_run. eexists. repeat split.
  - rewrite sol_transfer_sol_run. eexists. repeat split.
  - rewrite sol_execute_trade_run. eexists. repeat split.
  - rewrite (sol_create_token_run env k path n s d b content st H).
    eexists _, (boundary_at env (draws st)), _. cbn [snd calls].
    repeat split.
    cbn [multipart_request req_data].
    destruct (body_starts_with_boundary env (boundary_at env (draws st))
                [("fromPrivateKey", k); ("tokenName", n); ("tokenSymbol", s);
                 ("tokenDescription", d); ("devBuy", b)]
                ("file", mkFile path content) []) as [tail ->].
    apply starts_with_refl_app.
Qed.

Lemma requests_of_the_tools_witness :
  exists req boundary body,
    calls (snd (sol_create_token
                  (stub (one_file "/tmp/a.png" "PNG") (Response 200 "{}") (fun _ => 7%Z))
                  (PStr "k") "/tmp/a.png" (PStr "n") (PStr "s") (PStr "d") (PInt 1) initial))
    = ([] ++ [(req, 60%Z)])%list
    /\ get_method req = "POST"
    /\ req_url req = "https://api-solana.nodra.app" ++ "/pump/createToken"
    /\ req_headers req = [("Content-type", "multipart/form-data; boundary=" ++ boundary)]
    /\ req_data req = Some body
    /\ starts_with ("--" ++ boundary ++ CRLF) body = true.
Proof.
  apply (proj2 (proj2 (proj2
           (requests_of_the_tools
              (stub (one_file "/tmp/a.png" "PNG") (Response 200 "{}") (fun _ => 7%Z))
              initial)))
           (PStr "k") "/tmp/a.png" (PStr "n") (PStr "s") (PStr "d") (PInt 1) "PNG").
  reflexivity.
Defined.

(** ** Failures of the transport and of the reply *)



Lemma answer_of_success (env : environment) (req : request) (status : Z) (body : string) :
  upstream env req = Response status body ->
  (200 <= status < 300)%Z ->
  answer env req
  = if utf8_valid body
    then match json_loads (parse_float env) body with
         | Scanned obj _ => Ok obj
         | ScanError msg => Raise (JSONDecodeError msg)
         end
    else Raise UnicodeDecodeError.
Proof.
  intros Hup Hs. unfold answer. rewrite Hup.
  replace ((200 <=? status) && (status <? 300))%Z with true
    by (symmetry; apply andb_true_iff; split; [apply Z.leb_le | apply Z.ltb_lt]; lia).
  unfold decode. destruct (utf8_valid body); reflexivity.
Qed.

(** X4: a successful status does not make a successful call.  When the
    body of the reply is not UTF-8 every tool fails with
    [UnicodeDecodeError]; when it is UTF-8 but no JSON text, with the
    [JSONDecodeError] of the parser.  In both cases the exception is a
    [ValueError] and no text is returned. *)
Theorem malformed_reply_raises (env : environment) (status : Z) (body : string) :
  (forall req : request, upstream env req = Response status body) ->
  (200 <= status < 300)%Z ->
  (utf8_valid body = false -> every_tool_returns env (Raise UnicodeDecodeError))
  /\ (forall msg : string,
        utf8_valid body = true ->
        json_loads (parse_float env) body = ScanError msg ->
        every_tool_returns env (Raise (JSONDecodeError msg)))
  /\ isinstance UnicodeDecodeError "ValueError" = true
  /\ (forall msg, isinstance (JSONDecodeError msg) "ValueError" = true).
Proof.
  intros Hup Hs. split; [|split; [|split]].
  - intros Hu. apply (every_tool_follows env (Raise UnicodeDecodeError)).
    intros req. rewrite (answer_of_success env req status body (Hup req) Hs).
    now rewrite Hu.
  - intros msg Hu Hj. apply (every_tool_follows env (Raise (JSONDecodeError msg))).
    intros req. rewrite (answer_of_success env req status body (Hup req) Hs).
    now rewrite Hu, Hj.
  - reflexivity.
  - reflexivity.
Qed.

Lemma malformed_reply_raises_witness :
  every_tool_returns
    (stub (one_file "/tmp/a.png" "PNG") (Response 200 "<html>oops</html>") (fun _ => 0%Z))
    (Raise (JSONDecodeError "Expecting value"))
  /\ every_tool_returns
       (stub (one_file "/tmp/a.png" "PNG") (Response 200 (String "255" "")) (fun _ => 0%Z))
       (Raise UnicodeDecodeError).
Proof.
  split.
  - apply (proj1 (proj2 (malformed_reply_raises
             (stub (one_file "/tmp/a.png" "PNG") (Response 200 "<html>oops</html>")
                   (fun _ => 0%Z)) 200 "<html>oops</html>"
             (fun _ => eq_refl) (conj (Z.le_refl 200) eq_refl)))
             "Expecting value" eq_refl eq_refl).
  - apply (proj1 (malformed_reply_raises
             (stub (one_file "/tmp/a.png" "PNG") (Response 200 (String "255" ""))
                   (fun _ => 0%Z)) 200 (String "255" "")
             (fun _ => eq_refl) (conj (Z.le_refl 200) eq_refl)) eq_refl).
Defined.

Lemma ascii_is_utf8 (s : string) :
  string_forallb (fun c => (N_of_ascii c <? 128)%N) s = true -> utf8_valid s = true.
Proof.
  unfold utf8_valid. induction s as [|c s IH]; [reflexivity|].
  cbn [string_forallb utf8_valid_from]. intros H. apply andb_true_iff in H as [Hc Hs].
  rewrite Hc. now apply IH.
Qed.

Lemma json_space_is_ascii (s : string) :
  string_forallb is_json_space s = true ->
  string_forallb (fun c => (N_of_ascii c <? 128)%N) s = true.
Proof.
  induction s as [|c s IH]; [reflexivity|]. cbn [string_forallb]. intros H.
  apply andb_true_iff in H as [Hc Hs]. rewrite (IH Hs), andb_true_r.
  destruct c as [[] [] [] [] [] [] [] []]; solve [discriminate Hc | reflexivity].
Qed.

Lemma skip_ws_spaces (s : string) :
  string_forallb is_json_space s = true -> skip_ws s = "".
Proof.
  induction s as [|c s IH]; [reflexivity|]. cbn [string_forallb skip_ws]. intros H.
  apply andb_true_iff in H as [Hc Hs]. unfold is_json_space in Hc. rewrite Hc.
  now apply IH.
Qed.

Lemma spaces_have_no_BOM (s : string) :
  string_forallb is_json_space s = true -> starts_with BOM s = false.
Proof.
  destruct s as [|c s]; [reflexivity|]. cbn [string_forallb]. intros H.
  apply andb_true_iff in H as [Hc _].
  destruct c as [[] [] [] [] [] [] [] []]; solve [discriminate Hc | reflexivity].
Qed.

(** X5: a reply with a successful status whose body is empty or holds only
    white space is no JSON text: every tool fails with [JSONDecodeError]
    ([Expecting value]) and returns nothing. *)
Theorem blank_reply_raises (env : environment) (status : Z) (body : string) :
  (forall req : request, upstream env req = Response status body) ->
  (200 <= status < 300)%Z ->
  string_forallb is_json_space body = true ->
  every_tool_returns env (Raise (JSONDecodeError "Expecting value")).
Proof.
  intros Hup Hs Hb.
  apply (every_tool_follows env (Raise (JSONDecodeError "Expecting value"))).
  intros req. rewrite (answer_of_success env req status body (Hup req) Hs).
  rewrite (ascii_is_utf8 body (json_space_is_ascii body Hb)).
  unfold json_loads. fold BOM. rewrite (spaces_have_no_BOM body Hb), (skip_ws_spaces body Hb).
  rewrite Nat.add_comm. reflexivity.
Qed.

Lemma blank_reply_raises_witness :
  every_tool_returns
    (stub (one_file "/tmp/a.png" "PNG") (Response 204 "") (fun _ => 0%Z))
    (Raise (JSONDecodeError "Expecting value")).
Proof.
  apply (blank_reply_raises
           (stub (one_file "/tmp/a.png" "PNG") (Response 204 "") (fun _ => 0%Z)) 204 "").
  - intros req. reflexivity.
  - lia.
  - reflexivity.
Defined.

(** X6: a reply whose body starts with a byte order mark is never accepted,
    whatever follows the mark: the text is decoded with the mark in it and
    [json.loads] refuses it. *)
Theorem reply_with_BOM_raises (env : environment) (status : Z) (rest : string) :
  (forall req : request, upstream env req = Response status (BOM ++ rest)) ->
  (200 <= status < 300)%Z ->
  every_tool_returns env
    (Raise (if utf8_valid rest
            then JSONDecodeError "Unexpected UTF-8 BOM (decode using utf-8-sig)"
            else UnicodeDecodeError)).
Proof.
  intros Hup Hs.
  apply (every_tool_follows env
           (Raise (if utf8_valid rest
                   then JSONDecodeError "Unexpected UTF-8 BOM (decode using utf-8-sig)"
                   else UnicodeDecodeError))).
  intros req. rewrite (answer_of_success env req status _ (Hup req) Hs).
  change (utf8_valid (BOM ++ rest)) with (utf8_valid rest).
  now destruct (utf8_valid rest).
Qed.

Lemma reply_with_BOM_raises_witness :
  every_tool_returns
    (stub (one_file "/tmp/a.png" "PNG") (Response 200 (BOM ++ "{}")) (fun _ => 0%Z))
    (Raise (JSONDecodeError "Unexpected UTF-8 BOM (decode using utf-8-sig)")).
Proof.
  apply (reply_with_BOM_raises
           (stub (one_file "/tmp/a.png" "PNG") (Response 200 (BOM ++ "{}")) (fun _ => 0%Z))
           200 "{}").
  - intros req. reflexivity.
  - lia.
Defined.

(** ** The configuration *)

Lemma digits_start (s : string) (c : ascii) :
  string_forallb is_digit (String c s) = true -> Ascii.eqb c "-" = false.
Proof.
  cbn [string_forallb]. intros H. apply andb_true_iff in H as [Hc _].
  destruct (Ascii.eqb c "-") eqn:E; [|reflexivity].
  apply Ascii.eqb_eq in E. subst c. discriminate Hc.
Qed.

Lemma int_of_string_digits (s : string) :
  string_forallb is_digit s = true -> int_of_string s = digits_value s.
Proof.
  intros H. destruct s as [|c s]; [reflexivity|].
  pose proof (digits_start s c H) as Hc. unfold int_of_string.
  destruct c as [[] [] [] [] [] [] [] []]; solve [discriminate Hc | reflexivity].
Qed.

(** [int] reads back what [str] writes for an integer *)
Lemma int_of_string_int_repr (z : Z) : int_of_string (int_repr z) = z.
Proof.
  destruct z as [|p|p].
  - reflexivity.
  - destruct (nonneg_repr (Zpos p) ltac:(lia)) as [H1 [_ H3]].
    now rewrite int_of_string_digits.
  - unfold int_repr. cbn [Z.to_int NilZero.string_of_int int_of_string].
    destruct (nilzero_uint (Pos.to_uint p)) as [_ [_ H3]].
    rewrite H3, DecimalPos.Unsigned.of_to. reflexivity.
Qed.



(** ** The form body, decoded *)

Lemma parse_pair_item (kv : string * pyval) :
  parse_pair (urlencode_item kv) = [(fst kv, py_str (snd kv))].
Proof.
  unfold urlencode_item, parse_pair. cbn [py_str].
  assert (E : split_at "=" (quote_plus "" (fst kv) ++ "=" ++ quote_plus "" (py_str (snd kv)))
              = Some (quote_plus "" (fst kv), quote_plus "" (py_str (snd kv))))
    by (apply split_at_fresh, quote_plus_no_eq).
  rewrite E, !unquote_plus_quote_plus.
  destruct (quote_plus "" (fst kv)); reflexivity.
Qed.

Lemma parse_pair_items (l : list (string * pyval)) :
  flat_map parse_pair (map urlencode_item l)
  = map (fun kv => (fst kv, py_str (snd kv))) l.
Proof.
  induction l as [|x l IH]; [reflexivity|].
  cbn [map flat_map]. now rewrite parse_pair_item, IH.
Qed.


Lemma form_char_byte (c : ascii) :
  string_forallb form_char (string_map space_to_plus (quoter " " c)) = true.
Proof. each_byte c. Qed.

Lemma quote_plus_alphabet (s : string) : string_forallb form_char (quote_plus "" s) = true.
Proof.
  rewrite quote_plus_uniform. induction s as [|c s IH]; [reflexivity|].
  cbn [quote_from_bytes]. now rewrite string_map_app, string_forallb_app, form_char_byte.
Qed.

(** X9: whatever the keys and the values, the form body holds only letters,
    digits and the characters [_.-~+%&=]: it is plain ASCII, without space,
    line break or quote. *)
Theorem form_body_alphabet (data : dict pyval) :
  string_forallb form_char (form_body data) = true.
Proof.
  unfold form_body, urlencode.
  induction (drop_None data) as [|kv l IH]; [reflexivity|].
  assert (Hi : string_forallb form_char (urlencode_item kv) = true).
  { unfold urlencode_item. rewrite !string_forallb_app, !quote_plus_alphabet. reflexivity. }
  cbn [map]. destruct l as [|kv' l]; [exact Hi|].
  change (join "&" (urlencode_item kv :: map urlencode_item (kv' :: l)))
    with (urlencode_item kv ++ "&" ++ join "&" (map urlencode_item (kv' :: l))).
  rewrite !string_forallb_app, Hi, IH. reflexivity.
Qed.

(** ** Calls by keyword *)

Lemma bind_parameters_spec (sg : signature) (kwargs : dict pyval) :
  (forall p, In p sg -> argument kwargs p <> None) ->
  bind_parameters sg kwargs = Ok (arguments sg kwargs).
Proof.
  induction sg as [|[name default] sg IH]; intros H; [reflexivity|].
  cbn [bind_parameters arguments flat_map].
  pose proof (H (name, default) (or_introl eq_refl)) as Hp.
  unfold argument in Hp |- *. cbn [fst snd] in *.
  destruct (match lookup name kwargs with Some v => Some v | None => default end)
    as [v|]; [|congruence].
  fold (arguments sg kwargs). rewrite IH; [reflexivity|].
  intros p Hin. apply H. now right.
Qed.

Lemma bind_parameters_missing (sg : signature) (kwargs : dict pyval) (p : string * option pyval) :
  In p sg -> argument kwargs p = None ->
  exists msg, bind_parameters sg kwargs = Raise (TypeError msg).
Proof.
  induction sg as [|[name default] sg IH]; intros Hin Hp; [destruct Hin|].
  cbn [bind_parameters].
  destruct (match lookup name kwargs with Some v => Some v | None => default end)
    as [v|] eqn:E; [|eauto].
  destruct Hin as [<-|Hin].
  - unfold argument in Hp. cbn [fst snd] in Hp. congruence.
  - destruct (IH Hin Hp) as [msg ->]. eauto.
Qed.

Lemma unknown_keyword_found (sg : signature) (kwargs : dict pyval) (k : string) (v : pyval) :
  In (k, v) kwargs -> lookup k sg = None ->
  exists k' v' rest,
    filter (fun kv => match lookup (fst kv) sg with None => true | Some _ => false end) kwargs
    = (k', v') :: rest.
Proof.
  intros Hin Hk.
  assert (H : In (k, v) (filter (fun kv => match lookup (fst kv) sg with
                                           | None => true
                                           | Some _ => false
                                           end) kwargs))
    by (apply filter_In; split; [exact Hin | cbn; now rewrite Hk]).
  destruct (filter _ kwargs) as [|[k' v'] rest]; [destruct H | eauto].
Qed.

(* Binding of keywords to parameters: an unknown keyword and a missing
   parameter without default give [TypeError]; otherwise every parameter gets
   the value supplied for it or else its default, in signature order. *)
Lemma binding_of_keywords (sg : signature) (kwargs : dict pyval) :
  (forall k v, In (k, v) kwargs -> lookup k sg = None ->
     exists msg, bind_arguments sg kwargs = Raise (TypeError msg))
  /\ (forall p, In p sg -> argument kwargs p = None ->
        exists msg, bind_arguments sg kwargs = Raise (TypeError msg))
  /\ ((forall k v, In (k, v) kwargs -> lookup k sg <> None) ->
      (forall p, In p sg -> argument kwargs p <> None) ->
      bind_arguments sg kwargs = Ok (arguments sg kwargs)).
Proof.
  split; [|split].
  - intros k v Hin Hk. unfold bind_arguments.
    destruct (unknown_keyword_found sg kwargs k v Hin Hk) as [k' [v' [rest ->]]]. eauto.
  - intros p Hin Hp. unfold bind_arguments.
    destruct (filter _ kwargs) as [|[k' v'] rest]; [|eauto].
    exact (bind_parameters_missing sg kwargs p Hin Hp).
  - intros Hk Hp. unfold bind_arguments.
    destruct (filter _ kwargs) as [|[k' v'] rest] eqn:E.
    + now apply bind_parameters_spec.
    + assert (Hin : In (k', v') (filter (fun kv => match lookup (fst kv) sg with
                                                   | None => true
                                                   | Some _ => false
                                                   end) kwargs))
        by (rewrite E; now left).
      apply filter_In in Hin as [Hin Hf]. cbn [fst] in Hf.
      destruct (lookup k' sg) eqn:El; [discriminate Hf|].
      now destruct (Hk k' v' Hin).
Qed.

Lemma call_raises_TypeError {A : Type} (r : result (list pyval))
    (k : list pyval -> M A) (st : state) :
  (exists msg, r = Raise (TypeError msg)) ->
  exists msg, (args <- lift r ;; k args) st = (Raise (TypeError msg), st).
Proof. intros [msg ->]. exists msg. reflexivity. Qed.

(** X10: [sol_execute_trade] called by keyword.  A keyword that names no
    parameter, and a call without [privateKeyBase58], [publicKey] or [mint],
    end in [TypeError] with no request sent.  Every other call, whatever the
    order of its keywords, is the call of the tool with the three required
    values and, for each optional parameter, the value supplied or else the
    default. *)
Theorem execute_trade_by_keyword (env : environment) (kwargs : dict pyval) (st : state) :
  (forall k v, In (k, v) kwargs -> lookup k sol_execute_trade_signature = None ->
     exists msg, call_sol_execute_trade env kwargs st = (Raise (TypeError msg), st))
  /\ (forall name, In name (required sol_execute_trade_signature) ->
        lookup name kwargs = None ->
        exists msg, call_sol_execute_trade env kwargs st = (Raise (TypeError msg), st))
  /\ (forall a b c,
        (forall k v, In (k, v) kwargs -> lookup k sol_execute_trade_signature <> None) ->
        lookup "privateKeyBase58" kwargs = Some a ->
        lookup "publicKey" kwargs = Some b ->
        lookup "mint" kwargs = Some c ->
        call_sol_execute_trade env kwargs st
        = sol_execute_trade env a b c
            (supplied kwargs "action" (PStr "buy"))
            (supplied kwargs "denominatedInSol" (PBool false))
            (supplied kwargs "amount" (PFloat (float_literal "0" "001")))
            (supplied kwargs "slippage" (PInt 10))
            (supplied kwargs "priorityFee" (PFloat (float_literal "0" "00001"))) st).
Proof.
  destruct (binding_of_keywords sol_execute_trade_signature kwargs) as [Hu [Hm Hok]].
  split; [|split].
  - intros k v Hin Hk. apply call_raises_TypeError. exact (Hu k v Hin Hk).
  - intros name Hin Hn. apply call_raises_TypeError.
    apply (Hm (name, None)).
    + cbn in Hin. cbn. intuition (subst; auto).
    + unfold argument. cbn [fst snd]. now rewrite Hn.
  - intros a b c Hk Ha Hb Hc.
    unfold call_sol_execute_trade, bind, lift.
    rewrite Hok; [|exact Hk|].
    + unfold arguments, argument, supplied. cbn [flat_map sol_execute_trade_signature fst snd].
      rewrite Ha, Hb, Hc.
      destruct (lookup "action" kwargs), (lookup "denominatedInSol" kwargs),
        (lookup "amount" kwargs), (lookup "slippage" kwargs),
        (lookup "priorityFee" kwargs); reflexivity.
    + intros p Hin. unfold argument.
      cbn in Hin.
      destruct Hin as [<-|[<-|[<-|[<-|[<-|[<-|[<-|[<-|[]]]]]]]]]; cbn [fst snd];
        rewrite ?Ha, ?Hb, ?Hc; try discriminate;
        match goal with |- context [lookup ?n kwargs] => destruct (lookup n kwargs) end;
        discriminate.
Qed.

Lemma execute_trade_by_keyword_witness :
  (exists msg,
      call_sol_execute_trade (stub no_files (Response 200 "{}") (fun _ => 0%Z))
        [("privateKeyBase58", PStr "k"); ("publicKey", PStr "p")] initial
      = (Raise (TypeError msg), initial))
  /\ (exists msg,
      call_sol_execute_trade (stub no_files (Response 200 "{}") (fun _ => 0%Z))
        [("privateKeyBase58", PStr "k"); ("publicKey", PStr "p"); ("mint", PStr "m");
         ("fee", PInt 1)] initial
      = (Raise (TypeError msg), initial))
  /\ call_sol_execute_trade (stub no_files (Response 200 "{}") (fun _ => 0%Z))
       [("slippage", PInt 3); ("mint", PStr "m"); ("publicKey", PStr "p");
        ("privateKeyBase58", PStr "k")] initial
     = sol_execute_trade (stub no_files (Response 200 "{}") (fun _ => 0%Z))
         (PStr "k") (PStr "p") (PStr "m") (PStr "buy") (PBool false)
         (PFloat (float_literal "0" "001")) (PInt 3)
         (PFloat (float_literal "0" "00001")) initial.
Proof.
  split; [|split].
  - apply (proj1 (proj2 (execute_trade_by_keyword (stub no_files (Response 200 "{}") (fun _ => 0%Z))
                           [("privateKeyBase58", PStr "k"); ("publicKey", PStr "p")]
                           initial)) "mint").
    + cbn. tauto.
    + reflexivity.
  - apply (proj1 (execute_trade_by_keyword (stub no_files (Response 200 "{}") (fun _ => 0%Z))
                    [("privateKeyBase58", PStr "k"); ("publicKey", PStr "p");
                     ("mint", PStr "m"); ("fee", PInt 1)] initial) "fee" (PInt 1)).
    + cbn. tauto.
    + reflexivity.
  - apply (proj2 (proj2 (execute_trade_by_keyword (stub no_files (Response 200 "{}") (fun _ => 0%Z))
                           [("slippage", PInt 3); ("mint", PStr "m"); ("publicKey", PStr "p");
                            ("privateKeyBase58", PStr "k")] initial))
             (PStr "k") (PStr "p") (PStr "m")).
    + intros k v [E|[E|[E|[E|[]]]]]; injection E as <- <-; discriminate.
    + reflexivity.
    + reflexivity.
    + reflexivity.
Defined.

(** ** What the server can read back from a multipart request *)

(* The body built for a boundary without carriage return decodes to its
   parts, for any number of fields and files. *)
Lemma body_round_trip (env : environment) (b : string)
    (fields : dict pyval) (files : dict file) :
  string_mem "013" b = false ->
  (forall k v, In (k, v) fields -> v <> PNone ->
     header_safe k = true /\ contains b (py_str v) = false) ->
  (forall field f, In (field, f) files ->
     header_safe field = true
     /\ header_safe (basename (file_name f)) = true
     /\ token_safe (filetype_of env (basename (file_name f))) = true
     /\ contains b (file_content f) = false) ->
  parse_multipart b (multipart_body env b fields files)
  = Some (text_fields fields ++ map (fun ff => file_field env (fst ff) (snd ff)) files)%list.
Proof.
  intros Hb Hfields Hfiles.
  rewrite multipart_body_framed, parse_multipart_segments.
  - apply decode_segments_all. unfold payloads, text_fields.
    apply Forall2_app.
    + assert (Hd : forall kv, In kv (drop_None fields) -> header_safe (fst kv) = true).
      { intros [k v] Hin. apply drop_None_spec in Hin as [Hin Hv].
        exact (proj1 (Hfields k v Hin Hv)). }
      induction (drop_None fields) as [|kv l IH]; [constructor|].
      cbn [map]. constructor.
      * apply decode_text_part, Hd. now left.
      * apply IH. intros kv' Hin. apply Hd. now right.
    + clear Hfields. induction files as [|[field f] files IH]; [constructor|].
      cbn [map fst snd]. constructor.
      * destruct (Hfiles field f (or_introl eq_refl)) as [H1 [H2 [H3 _]]].
        now apply decode_file_part.
      * apply IH. intros field' f' Hin. apply Hfiles. now right.
  - intros p t Hin. unfold payloads in Hin. apply in_app_or in Hin as [Hin|Hin].
    + apply in_map_iff in Hin as [[k v] [<- Hin]]. cbn [fst snd].
      apply drop_None_spec in Hin as [Hin Hv]. destruct (Hfields k v Hin Hv) as [Hk Hc].
      now apply field_segment_sealed.
    + apply in_map_iff in Hin as [[field f] [<- Hin]]. cbn [fst snd].
      destruct (Hfiles field f Hin) as [H1 [H2 [H3 H4]]].
      now apply file_segment_sealed.
Qed.





(** ** The file name sent with an image *)

Lemma basename_free (p : string) : string_mem "/" p = false -> basename p = p.
Proof. destruct p as [|c p]; [reflexivity|]. intros H. cbn [basename]. now rewrite H. Qed.

Lemma basename_after_slash (dir name : string) :
  basename (dir ++ "/" ++ name) = basename name.
Proof.
  induction dir as [|c dir IH].
  - cbn [append basename string_mem]. reflexivity.
  - change (String c dir ++ "/" ++ name) with (String c (dir ++ "/" ++ name)).
    cbn [basename].
    replace (string_mem "/" (String c (dir ++ "/" ++ name))) with true; [exact IH|].
    cbn [string_mem]. rewrite string_mem_app. cbn [append string_mem].
    cbn. now rewrite !orb_true_r.
Qed.

(** X13: the file name [_post_multipart] puts in a file part,
    [os.path.basename(f.name)].  It never holds a slash; a path that ends in
    a slash gives the empty name; a path without slash is its own name, and
    [dir/name] gives [name] whatever the directory. *)
Theorem basename_is_the_last_component (p dir name : string) :
  string_mem "/" (basename p) = false
  /\ basename (p ++ "/") = ""
  /\ (string_mem "/" name = false ->
      basename name = name /\ basename (dir ++ "/" ++ name) = name).
Proof.
  split; [|split].
  - induction p as [|c p IH]; [reflexivity|].
    cbn [basename]. destruct (string_mem "/" (String c p)) eqn:E; [exact IH | exact E].
  - change (p ++ "/") with (p ++ "/" ++ ""). now rewrite basename_after_slash.
  - intros H. split; [now apply basename_free|].
    rewrite basename_after_slash. now apply basename_free.
Qed.

Lemma basename_is_the_last_component_witness :
  basename "a.png" = "a.png" /\ basename ("/home/me/pictures" ++ "/" ++ "a.png") = "a.png".
Proof.
  apply (proj2 (proj2 (basename_is_the_last_component "" "/home/me/pictures" "a.png"))).
  reflexivity.
Defined.

(** ** The shape of a boundary *)

Lemma length_hex_digits (n : nat) (i : Z) : String.length (hex_digits n i) = n.
Proof. induction n as [|n IH]; [reflexivity|]. cbn [hex_digits String.length]. now rewrite IH. Qed.

Lemma hex_digit_lower_hex (m : nat) : is_lower_hex (hex_digit_lower m) = true.
Proof. do 16 (destruct m as [|m]; [reflexivity|]). reflexivity. Qed.

Lemma hex_digits_hex (n : nat) (i : Z) : string_forallb is_lower_hex (hex_digits n i) = true.
Proof.
  induction n as [|n IH]; [reflexivity|].
  cbn [hex_digits string_forallb]. now rewrite hex_digit_lower_hex, IH.
Qed.

Lemma get_hex_digits (n k : nat) (i : Z) :
  k < n ->
  get k (hex_digits n i)
  = Some (hex_digit_lower (Z.to_nat (Z.land (Z.shiftr i (4 * Z.of_nat (n - 1 - k))) 15))).
Proof.
  revert k. induction n as [|n IH]; intros k Hk; [lia|].
  cbn [hex_digits]. destruct k as [|k].
  - cbn [get]. now replace (S n - 1 - 0) with n by lia.
  - cbn [get]. rewrite IH by lia. now replace (S n - 1 - S k) with (n - 1 - k) by lia.
Qed.

Lemma version_nibble (r : Z) : Z.land (Z.shiftr (uuid4_int r) 76) 15 = 4%Z.
Proof.
  unfold uuid4_int.
  rewrite !Z.shiftr_lor, !Z.shiftr_land, !Z.shiftr_lor, !Z.shiftr_land.
  change (Z.shiftr (Z.shiftl 4 76) 76) with 4%Z.
  change (Z.shiftr (Z.shiftl 32768 48) 76) with 0%Z.
  change (Z.shiftr (Z.lnot (Z.shiftl 61440 64)) 76) with (-16)%Z.
  rewrite Z.land_lor_distr_l, <- Z.land_assoc.
  change (Z.land (-16) 15) with 0%Z. now rewrite Z.land_0_r.
Qed.

Lemma variant_nibble (r : Z) :
  Z.land (Z.shiftr (uuid4_int r) 60) 15 = Z.lor (Z.land (Z.shiftr r 60) 3) 8.
Proof.
  unfold uuid4_int.
  rewrite !Z.shiftr_lor, !Z.shiftr_land, !Z.shiftr_lor, !Z.shiftr_land.
  change (Z.shiftr (Z.shiftl 4 76) 60) with 262144%Z.
  change (Z.shiftr (Z.shiftl 32768 48) 60) with 8%Z.
  change (Z.shiftr (Z.lnot (Z.shiftl 61440 64)) 60) with (-983041)%Z.
  change (Z.shiftr (Z.lnot (Z.shiftl 49152 48)) 60) with (-13)%Z.
  rewrite Z.land_lor_distr_l. change (Z.land 262144 15) with 0%Z. rewrite Z.lor_0_r.
  rewrite <- Z.land_assoc. change (Z.land (-983041) 15) with 15%Z.
  rewrite Z.land_lor_distr_l, <- Z.land_assoc. reflexivity.
Qed.

(** X14: the boundary [uuid.uuid4().hex] gives, whatever the random bytes:
    32 characters, all of them lower-case hexadecimal digits (so it holds no
    character that needs quoting in the header), the thirteenth the version
    digit [4] and the seventeenth one of [8], [9], [a], [b]. *)
Theorem boundary_shape (env : environment) (n : nat) :
  String.length (boundary_at env n) = 32
  /\ string_forallb is_lower_hex (boundary_at env n) = true
  /\ get 12 (boundary_at env n) = Some "4"%char
  /\ exists c, get 16 (boundary_at env n) = Some c /\ string_mem c "89ab" = true.
Proof.
  unfold boundary_at, uuid_hex. set (r := urandom16 env n).
  split; [apply length_hex_digits|]. split; [apply hex_digits_hex|]. split.
  - rewrite get_hex_digits by lia.
    change (4 * Z.of_nat (32 - 1 - 12))%Z with 76%Z. now rewrite version_nibble.
  - rewrite get_hex_digits by lia.
    change (4 * Z.of_nat (32 - 1 - 16))%Z with 60%Z. rewrite variant_nibble.
    eexists. split; [reflexivity|].
    change 3%Z with (Z.ones 2). rewrite Z.land_ones by lia.
    pose proof (Z.mod_pos_bound (Z.shiftr r 60) (2 ^ 2) eq_refl) as Hm.
    set (y := (Z.shiftr r 60 mod 2 ^ 2)%Z) in *.
    assert (Hy : y = 0%Z \/ y = 1%Z \/ y = 2%Z \/ y = 3%Z) by (change (2 ^ 2)%Z with 4%Z in Hm; lia).
    destruct Hy as [->|[->|[->| ->]]]; reflexivity.
Qed.

(** ** The characters of the text a tool returns *)

Lemma json_induction (P : json -> Prop) :
  P JNull -> (forall b, P (JBool b)) -> (forall z, P (JInt z)) ->
  (forall f, P (JFloat f)) -> (forall s, P (JStr s)) ->
  (forall l, Forall P l -> P (JList l)) ->
  (forall d, Forall (fun kv => P (snd kv)) d -> P (JDict d)) ->
  forall v, P v.
Proof.
  intros Hn Hb Hz Hf Hs Hl Hd. fix IH 1. intros [|b|z|f|s|l|d];
    [exact Hn | apply Hb | apply Hz | apply Hf | apply Hs | |].
  - apply Hl. induction l as [|v l IHl]; constructor; [apply IH | exact IHl].
  - apply Hd. induction d as [|[k v] d IHd]; constructor; [apply IH | exact IHd].
Qed.

Lemma printable_app (a b : string) :
  string_forallb printable a = true -> string_forallb printable b = true -> string_forallb printable (a ++ b) = true.
Proof. intros Ha Hb. now rewrite string_forallb_app, Ha, Hb. Qed.

Lemma printable_if (c : bool) (a b : string) :
  string_forallb printable a = true -> string_forallb printable b = true -> string_forallb printable (if c then a else b) = true.
Proof. now destruct c. Qed.

Lemma printable_repeat (s : string) (n : nat) :
  string_forallb printable s = true -> string_forallb printable (repeat_string s n) = true.
Proof.
  intros H. induction n as [|n IH]; [reflexivity|].
  cbn [repeat_string]. now apply printable_app.
Qed.

Lemma printable_join (sep : string) (l : list string) :
  string_forallb printable sep = true -> Forall (fun s => string_forallb printable s = true) l -> string_forallb printable (join sep l) = true.
Proof.
  intros Hsep H. induction H as [|x l Hx Hl IH]; [reflexivity|].
  destruct l as [|y l]; [exact Hx|].
  change (join sep (x :: y :: l)) with (x ++ sep ++ join sep (y :: l)).
  now repeat apply printable_app.
Qed.

Lemma printable_newline_indent (level : nat) : string_forallb printable (newline_indent level) = true.
Proof. unfold newline_indent. apply printable_app; [reflexivity|]. now apply printable_repeat. Qed.

Lemma printable_hex_digit (m : nat) : printable (hex_digit_lower m) = true.
Proof. do 16 (destruct m as [|m]; [reflexivity|]). reflexivity. Qed.

Lemma printable_u_escape (n : N) : string_forallb printable (u_escape n) = true.
Proof.
  unfold u_escape, hex4. cbn [string_forallb].
  now rewrite !printable_hex_digit.
Qed.

Lemma printable_escape_code_point (n : N) : string_forallb printable (escape_code_point n) = true.
Proof.
  unfold escape_code_point.
  repeat (apply printable_if; [reflexivity|]).
  apply printable_if; [apply printable_u_escape|].
  apply printable_app; apply printable_u_escape.
Qed.

Lemma printable_literal (c : ascii) :
  let b := N_of_ascii c in
  ((32 <=? b) && (b <=? 126) && negb (b =? 34) && negb (b =? 92))%N = true ->
  string_forallb printable (String c "") = true.
Proof.
  cbv zeta. intros H. cbn [string_forallb]. unfold printable.
  destruct (32 <=? N_of_ascii c)%N, (N_of_ascii c <=? 126)%N; cbn in H |- *; congruence.
Qed.

Lemma printable_escape_ascii (s : string) :
  forall (need : nat) (acc : N), string_forallb printable (escape_ascii s need acc) = true.
Proof.
  induction s as [|c s IH]; intros need acc; [reflexivity|].
  cbn [escape_ascii]. cbv zeta. destruct need as [|[|need]].
  - destruct (N_of_ascii c <? 128)%N.
    + apply printable_app; [|apply IH].
      destruct ((32 <=? N_of_ascii c) && (N_of_ascii c <=? 126)
                && negb (N_of_ascii c =? 34) && negb (N_of_ascii c =? 92))%N eqn:E.
      * now apply printable_literal.
      * apply printable_escape_code_point.
    + repeat (apply printable_if; try apply IH).
  - apply printable_app; [apply printable_escape_code_point | apply IH].
  - apply IH.
Qed.

Lemma printable_string_text (s : string) : string_forallb printable (encode_basestring_ascii s) = true.
Proof.
  unfold encode_basestring_ascii.
  change (String DQUOTE (escape_ascii s 0 0) ++ String DQUOTE "")
    with (String DQUOTE (escape_ascii s 0 0 ++ String DQUOTE "")).
  cbn [string_forallb]. rewrite string_forallb_app, printable_escape_ascii. reflexivity.
Qed.

Lemma digit_is_printable (c : ascii) : is_digit c = true -> printable c = true.
Proof. each_byte c; discriminate. Qed.

Lemma digits_are_printable (s : string) :
  string_forallb is_digit s = true -> string_forallb printable s = true.
Proof.
  induction s as [|c s IH]; [reflexivity|]. cbn [string_forallb]. intros H.
  apply andb_true_iff in H as [Hc Hs]. now rewrite (digit_is_printable c Hc), IH.
Qed.

Lemma printable_int_repr (z : Z) : string_forallb printable (int_repr z) = true.
Proof.
  unfold int_repr. destruct (Z.to_int z) as [d|d]; cbn [NilZero.string_of_int].
  - apply digits_are_printable, nilzero_uint.
  - apply (printable_app "-"); [reflexivity|]. apply digits_are_printable, nilzero_uint.
Qed.

Lemma printable_zeros (n : Z) : string_forallb printable (zeros n) = true.
Proof. apply digits_are_printable, forallb_zeros. Qed.

Lemma printable_exp_repr (e : Z) : string_forallb printable (exp_repr e) = true.
Proof.
  destruct (exp_repr_shape e) as [pad [-> [Hd _]]].
  apply printable_app; [now destruct (e <? 0)%Z | now apply digits_are_printable].
Qed.

Lemma printable_drop_trailing_dot (s : string) :
  string_forallb printable s = true -> string_forallb printable (drop_trailing_dot s) = true.
Proof.
  induction s as [|c s IH]; [reflexivity|]. intros H.
  cbn [string_forallb] in H. apply andb_true_iff in H as [Hc Hs].
  cbn [drop_trailing_dot]. destruct s as [|d s'].
  - destruct (Ascii.eqb c "."); [reflexivity|]. cbn. now rewrite Hc.
  - cbn [string_forallb]. rewrite Hc. now apply IH.
Qed.

Ltac printable_parts :=
  repeat first
    [ reflexivity
    | assumption
    | apply printable_zeros
    | apply printable_exp_repr
    | apply printable_drop_trailing_dot
    | apply forallb_substring
    | apply forallb_drop
    | apply printable_if
    | apply printable_app ].

Lemma printable_float_repr (f : pyfloat) :
  float_digits f = true -> string_forallb printable (float_repr f) = true.
Proof.
  destruct f as [sign digits decpt|[]|]; try reflexivity.
  cbn [float_digits float_repr]. intros H. apply digits_are_printable in H.
  unfold format_float_short. cbv zeta.
  assert (Hs : string_forallb printable (if sign then "-" else "") = true)
    by now destruct sign.
  printable_parts.
Qed.

Lemma printable_floatstr (f : pyfloat) :
  float_digits f = true -> string_forallb printable (floatstr f) = true.
Proof.
  destruct f as [sign digits decpt|[]|]; try reflexivity.
  apply printable_float_repr.
Qed.

Lemma printable_dumps_at (v : json) :
  forall level : nat,
    floats_have_digits v = true -> string_forallb printable (dumps_at v level) = true.
Proof.
  induction v as [|b|z|f|s|l IH|d IH] using json_induction; intros level Hwf.
  - reflexivity.
  - now destruct b.
  - apply printable_int_repr.
  - now apply printable_floatstr.
  - apply printable_string_text.
  - destruct l as [|v l]; [reflexivity|]. rewrite dumps_list.
    change (floats_have_digits (JList (v :: l))) with (forallb floats_have_digits (v :: l)) in Hwf.
    rewrite forallb_forall in Hwf. rewrite Forall_forall in IH.
    repeat apply printable_app; try reflexivity; try apply printable_newline_indent.
    apply printable_join.
    + apply printable_app; [reflexivity | apply printable_newline_indent].
    + apply Forall_map, Forall_forall. intros x Hx. unfold item_text.
      apply IH; [exact Hx | now apply Hwf].
  - destruct d as [|kv d]; [reflexivity|]. rewrite dumps_dict.
    change (floats_have_digits (JDict (kv :: d)))
      with (forallb (fun kv => floats_have_digits (snd kv)) (kv :: d)) in Hwf.
    rewrite forallb_forall in Hwf. rewrite Forall_forall in IH.
    repeat apply printable_app; try reflexivity; try apply printable_newline_indent.
    apply printable_join.
    + apply printable_app; [reflexivity | apply printable_newline_indent].
    + apply Forall_map, Forall_forall. intros x Hx. unfold member_text.
      apply printable_app; [apply printable_string_text|].
      apply printable_app; [reflexivity|].
      apply IH; [exact Hx | now apply Hwf].
Qed.

(** X15: the text a tool returns holds printable ASCII characters and line
    feeds only, whatever the upstream wrote: [json.dumps] escapes every
    control character, every quote and backslash and every character beyond
    ASCII in the strings and the keys, and the layout adds only spaces and
    line feeds.  The floats of the value are floats, with decimal digits. *)
Theorem returned_text_is_printable_ascii (env : environment) (obj : json) :
  (forall req : request, answer env req = Ok obj) ->
  floats_have_digits obj = true ->
  every_tool_returns env (Ok (json_dumps obj))
  /\ string_forallb printable (json_dumps obj) = true.
Proof.
  intros H Hwf. split.
  - exact (every_tool_follows env (Ok obj) H).
  - exact (printable_dumps_at obj 0 Hwf).
Qed.

Lemma returned_text_is_printable_ascii_witness :
  let env := stub no_files
               (Response 200 (dq "{'name': 'caf" ++ String "195" (String "169" "")
                              ++ dq "\t', 'price': [1.5e-7, -2]}"))
               (fun _ => 0%Z) in
  exists text,
    every_tool_returns env (Ok text) /\ string_forallb printable text = true.
Proof.
  cbv zeta. eexists.
  apply (returned_text_is_printable_ascii
           (stub no_files
              (Response 200 (dq "{'name': 'caf" ++ String "195" (String "169" "")
                             ++ dq "\t', 'price': [1.5e-7, -2]}"))
              (fun _ => 0%Z))
           (JDict [("name", JStr ("caf" ++ String "195" (String "169" (String "009" ""))));
                   ("price", JList [JFloat FNan; JInt (-2)])])).
  - intros req. reflexivity.
  - reflexivity.
Defined.

(** ** Repeated keys in a reply *)

Lemma keys_of_dict_set {V : Type} (d : dict V) (k : string) (v : V) :
  forall k', existsb (String.eqb k') (map fst (dict_set d k v))
             = existsb (String.eqb k') (map fst d) || String.eqb k' k.
Proof.
  intros k'. induction d as [|[k0 v0] d IH]; cbn [dict_set map fst existsb].
  - now rewrite orb_false_r.
  - destruct (String.eqb k0 k) eqn:E; cbn [map fst existsb].
    + apply String.eqb_eq in E. subst k0.
      destruct (String.eqb k' k); cbn; [reflexivity|]. now rewrite orb_false_r.
    + rewrite IH. now rewrite orb_assoc.
Qed.

Lemma distinct_dict_set {V : Type} (d : dict V) (k : string) (v : V) :
  distinct (map fst d) = true -> distinct (map fst (dict_set d k v)) = true.
Proof.
  induction d as [|[k0 v0] d IH]; intros H; [reflexivity|].
  cbn [map fst distinct] in H. apply andb_true_iff in H as [H1 H2].
  cbn [dict_set]. destruct (String.eqb k0 k) eqn:E.
  - apply String.eqb_eq in E. subst k0. cbn [map fst distinct]. now rewrite H1, H2.
  - cbn [map fst distinct]. rewrite keys_of_dict_set, (IH H2), E.
    apply negb_true_iff in H1. now rewrite H1.
Qed.

Lemma forallb_dict_set {V : Type} (p : V -> bool) (d : dict V) (k : string) (v : V) :
  forallb (fun kv => p (snd kv)) d = true -> p v = true ->
  forallb (fun kv => p (snd kv)) (dict_set d k v) = true.
Proof.
  intros Hd Hv. induction d as [|[k0 v0] d IH]; cbn [dict_set forallb snd].
  - now rewrite Hv.
  - cbn [forallb snd] in Hd. apply andb_true_iff in Hd as [H1 H2].
    destruct (String.eqb k0 k); cbn [forallb snd]; [now rewrite Hv, H2|].
    now rewrite H1, IH.
Qed.

Lemma dict_of_pairs_kept {V : Type} (p : V -> bool) (pairs : list (string * V)) :
  forallb (fun kv => p (snd kv)) pairs = true ->
  distinct (map fst (dict_of_pairs pairs)) = true
  /\ forallb (fun kv => p (snd kv)) (dict_of_pairs pairs) = true.
Proof.
  unfold dict_of_pairs.
  assert (H : forall d : dict V,
             distinct (map fst d) = true ->
             forallb (fun kv => p (snd kv)) d = true ->
             forallb (fun kv => p (snd kv)) pairs = true ->
             distinct (map fst (fold_left (fun d kv => dict_set d (fst kv) (snd kv)) pairs d))
             = true
             /\ forallb (fun kv => p (snd kv))
                  (fold_left (fun d kv => dict_set d (fst kv) (snd kv)) pairs d) = true).
  { induction pairs as [|[k v] pairs IH]; intros d Hd Hp Hps; [now split|].
    cbn [forallb snd] in Hps. apply andb_true_iff in Hps as [Hv Hps].
    cbn [fold_left fst snd]. apply IH; [now apply distinct_dict_set | | exact Hps].
    now apply forallb_dict_set. }
  intros Hps. now apply H.
Qed.

(** The last value given for a key is the one kept *)
Lemma lookup_dict_set {V : Type} (d : dict V) (k k' : string) (v : V) :
  lookup k' (dict_set d k v) = if String.eqb k k' then Some v else lookup k' d.
Proof.
  induction d as [|[k0 v0] d IH]; cbn [dict_set lookup].
  - reflexivity.
  - destruct (String.eqb k0 k) eqn:E; cbn [lookup].
    + apply String.eqb_eq in E. subst k0. now destruct (String.eqb k k').
    + rewrite IH. destruct (String.eqb k0 k') eqn:E'; [|reflexivity].
      apply String.eqb_eq in E'. subst k0.
      rewrite String.eqb_sym in E. now rewrite E.
Qed.

Lemma lookup_dict_of_pairs {V : Type} (pairs : list (string * V)) (k : string) :
  lookup k (dict_of_pairs pairs) = lookup k (rev pairs).
Proof.
  unfold dict_of_pairs.
  assert (H : forall d : dict V,
             lookup k (fold_left (fun d kv => dict_set d (fst kv) (snd kv)) pairs d)
             = match lookup k (rev pairs) with Some v => Some v | None => lookup k d end).
  { induction pairs as [|[k0 v0] pairs IH]; intros d; [reflexivity|].
    cbn [fold_left fst snd rev]. rewrite IH, lookup_dict_set.
    assert (Happ : forall a b : dict V,
               lookup k (a ++ b)%list = match lookup k a with Some v => Some v | None => lookup k b end).
    { induction a as [|[ka va] a IHa]; intros b0; [reflexivity|].
      cbn [app lookup]. destruct (String.eqb ka k); [reflexivity | apply IHa]. }
    rewrite Happ. destruct (lookup k (rev pairs)); [reflexivity|].
    cbn [lookup]. now destruct (String.eqb k0 k). }
  rewrite H. now destruct (lookup k (rev pairs)).
Qed.

Ltac scan_cases H :=
  repeat first
    [ discriminate H
    | match type of H with
      | context [match ?x with _ => _ end] =>
          first [is_var x; destruct x | destruct x eqn:?]
      end ].

Lemma scan_keeps_keys_distinct (pf : string -> pyfloat) (fuel : nat) :
  (forall s v rest, scan_once pf fuel s = Scanned v rest -> no_repeated_key v = true)
  /\ (forall s pairs v rest,
        forallb (fun kv => no_repeated_key (snd kv)) pairs = true ->
        object_members pf fuel s pairs = Scanned v rest -> no_repeated_key v = true)
  /\ (forall s values v rest,
        forallb no_repeated_key values = true ->
        array_items pf fuel s values = Scanned v rest -> no_repeated_key v = true).
Proof.
  induction fuel as [|fuel [IH1 [IH2 IH3]]]; [repeat split; intros; discriminate|].
  split; [|split].
  - intros s v rest H. cbn [scan_once] in H.
    scan_cases H;
      try first [ injection H as <- _; reflexivity
            | eapply IH2; [|exact H]; reflexivity
            | eapply IH3; [|exact H]; reflexivity ].
  - intros s pairs v rest Hp H. cbn [object_members] in H.
    scan_cases H;
      match goal with
      | Hv : scan_once pf fuel _ = Scanned ?value _ |- _ =>
          assert (Hps : forallb (fun kv => no_repeated_key (snd kv))
                          (pairs ++ [(a, value)]) = true)
            by (rewrite forallb_app, Hp; cbn [forallb snd];
                now rewrite (IH1 _ _ _ Hv))
      end.
    + injection H as <- _. cbn [no_repeated_key].
      destruct (dict_of_pairs_kept no_repeated_key _ Hps) as [H1 H2].
      now rewrite H1, H2.
    + exact (IH2 _ _ _ _ Hps H).
  - intros s values v rest Hp H. cbn [array_items] in H.
    scan_cases H;
      match goal with
      | Hv : scan_once pf fuel _ = Scanned ?value _ |- _ =>
          assert (Hps : forallb no_repeated_key (values ++ [value]) = true)
            by (rewrite forallb_app, Hp; cbn [forallb];
                now rewrite (IH1 _ _ _ Hv))
      end.
    + injection H as <- _. exact Hps.
    + exact (IH3 _ _ _ _ Hps H).
Qed.

(** X16: a reply may give a key of an object more than once; what the tools
    print never does.  In every value [json.loads] returns, no object at any
    depth has a key twice: the members read are put into a dict one after
    the other by assignment, so that a key has the value of its last
    occurrence. *)
Theorem repeated_keys_are_merged (env : environment) (body : string) (obj : json)
    (rest : string) :
  json_loads (parse_float env) body = Scanned obj rest ->
  no_repeated_key obj = true
  /\ (forall (pairs : list (string * json)) (k : string),
        lookup k (dict_of_pairs pairs) = lookup k (rev pairs))
  /\ (forall (pairs : list (string * json)) (k : string) (v : json),
        dict_of_pairs (pairs ++ [(k, v)]) = dict_set (dict_of_pairs pairs) k v).
Proof.
  intros H. split; [|split].
  - unfold json_loads in H.
    destruct (starts_with _ body); [discriminate|].
    destruct (scan_once _ _ _) as [v r|m] eqn:E; [|discriminate].
    destruct (skip_ws r); [|discriminate]. injection H as <- _.
    exact (proj1 (scan_keeps_keys_distinct _ _) _ _ _ E).
  - intros pairs k. apply lookup_dict_of_pairs.
  - intros pairs k v. unfold dict_of_pairs. now rewrite fold_left_app.
Qed.

Lemma repeated_keys_are_merged_witness :
  let env := stub no_files (Response 200 "") (fun _ => 0%Z) in
  let body := dq "{'a': 1, 'b': {'c': 2, 'c': 3}, 'a': 4}" in
  json_loads (parse_float env) body
  = Scanned (JDict [("a", JInt 4); ("b", JDict [("c", JInt 3)])]) ""
  /\ no_repeated_key (JDict [("a", JInt 4); ("b", JDict [("c", JInt 3)])]) = true.
Proof.
  cbv zeta. split; [reflexivity|].
  apply (repeated_keys_are_merged (stub no_files (Response 200 "") (fun _ => 0%Z))
           (dq "{'a': 1, 'b': {'c': 2, 'c': 3}, 'a': 4}")
           (JDict [("a", JInt 4); ("b", JDict [("c", JInt 3)])]) "").
  reflexivity.
Defined.

(** ** Reading back what [json.dumps] wrote: strings *)

Ltac divmod_intro x c :=
  let q := fresh "q" in
  let r := fresh "r" in
  pose proof (N.div_mod x c ltac:(discriminate));
  pose proof (N.mod_lt x c ltac:(discriminate));
  set (q := N.div x c) in *; set (r := N.modulo x c) in *; clearbody q r.

(** Quotients and remainders by constants, for [lia] *)
Ltac n_divmod :=
  repeat match goal with
         | |- context [N.div ?x ?c] => divmod_intro x c
         | |- context [N.modulo ?x ?c] => divmod_intro x c
         | H : context [N.div ?x ?c] |- _ => divmod_intro x c
         | H : context [N.modulo ?x ?c] |- _ => divmod_intro x c
         end.

Lemma lor_add (a b k : N) : (a mod 2 ^ k = 0 -> b < 2 ^ k -> N.lor a b = a + b)%N.
Proof.
  intros Ha Hb.
  assert (H : N.land a b = 0%N).
  { replace b with (N.land (N.ones k) b)
      by (rewrite N.land_comm, N.land_ones; now apply N.mod_small).
    now rewrite N.land_assoc, N.land_ones, Ha. }
  now rewrite <- N.lxor_lor, <- N.add_nocarry_lxor.
Qed.

Lemma lor_shifted (a b k : N) : (b < 2 ^ k -> N.lor (N.shiftl a k) b = a * 2 ^ k + b)%N.
Proof.
  intros Hb. rewrite N.shiftl_mul_pow2. apply lor_add with (k := k); [|exact Hb].
  apply N.Div0.mod_mul.
Qed.

Lemma land_63 (x : N) : N.land x 63 = (x mod 64)%N.
Proof. exact (N.land_ones x 6). Qed.

Lemma land_31 (x : N) : N.land x 31 = (x mod 32)%N.
Proof. exact (N.land_ones x 5). Qed.

Lemma land_15 (x : N) : N.land x 15 = (x mod 16)%N.
Proof. exact (N.land_ones x 4). Qed.

Lemma land_7 (x : N) : N.land x 7 = (x mod 8)%N.
Proof. exact (N.land_ones x 3). Qed.

Lemma land_1023 (x : N) : N.land x 1023 = (x mod 1024)%N.
Proof. exact (N.land_ones x 10). Qed.

Lemma lor_64 (a b : N) : N.lor (N.shiftl a 6) (b mod 64) = (a * 64 + b mod 64)%N.
Proof. apply (lor_shifted a (b mod 64) 6). apply N.mod_lt. discriminate. Qed.

Lemma code_point2_value (c1 c2 : ascii) :
  code_point2 c1 c2 = ((N_of_ascii c1 mod 32) * 64 + N_of_ascii c2 mod 64)%N.
Proof. unfold code_point2. now rewrite land_63, land_31, lor_64. Qed.

Lemma code_point3_value (c1 c2 c3 : ascii) :
  code_point3 c1 c2 c3
  = (((N_of_ascii c1 mod 16) * 64 + N_of_ascii c2 mod 64) * 64 + N_of_ascii c3 mod 64)%N.
Proof. unfold code_point3. now rewrite !land_63, land_15, !lor_64. Qed.

Lemma code_point4_value (c1 c2 c3 c4 : ascii) :
  code_point4 c1 c2 c3 c4
  = ((((N_of_ascii c1 mod 8) * 64 + N_of_ascii c2 mod 64) * 64 + N_of_ascii c3 mod 64) * 64
     + N_of_ascii c4 mod 64)%N.
Proof. unfold code_point4. now rewrite !land_63, land_7, !lor_64. Qed.

(** A continuation byte of a code point *)
Lemma continuation_byte (n k : N) (c : ascii) :
  (128 <= N_of_ascii c <= 191)%N ->
  ((n / 2 ^ k) mod 64 = N_of_ascii c mod 64)%N ->
  ascii_of_N (N.lor 128 (N.land (N.shiftr n k) 63)) = c.
Proof.
  intros Hc H. rewrite <- (ascii_N_embedding c). f_equal.
  rewrite land_63, N.shiftr_div_pow2, H.
  rewrite (lor_add 128 _ 6); [|reflexivity|apply N.mod_lt; discriminate].
  n_divmod. lia.
Qed.

Lemma leading_byte (mark x k : N) (c : ascii) :
  (mark mod 2 ^ k = 0)%N -> (x < 2 ^ k)%N -> (mark + x = N_of_ascii c)%N ->
  ascii_of_N (N.lor mark x) = c.
Proof.
  intros Hm Hx H. rewrite <- (ascii_N_embedding c). f_equal.
  now rewrite (lor_add mark x k).
Qed.

Ltac nbool :=
  repeat match goal with
         | |- context [(?a <? ?b)%N] =>
             first [ rewrite (proj2 (N.ltb_lt a b)) by lia
                   | rewrite (proj2 (N.ltb_ge a b)) by lia ]
         | |- context [(?a <=? ?b)%N] =>
             first [ rewrite (proj2 (N.leb_le a b)) by lia
                   | rewrite (proj2 (N.leb_gt a b)) by lia ]
         | |- context [(?a =? ?b)%N] =>
             first [ rewrite (proj2 (N.eqb_eq a b)) by lia
                   | rewrite (proj2 (N.eqb_neq a b)) by lia ]
         end.

Lemma two_bytes (c1 c2 : ascii) :
  (194 <= N_of_ascii c1 <= 223)%N -> (128 <= N_of_ascii c2 <= 191)%N ->
  (128 <= code_point2 c1 c2 < 2048)%N
  /\ utf8_of_code_point (code_point2 c1 c2) = String c1 (String c2 "").
Proof.
  intros H1 H2. rewrite code_point2_value.
  set (n := ((N_of_ascii c1 mod 32) * 64 + N_of_ascii c2 mod 64)%N).
  assert (Hn : (128 <= n < 2048)%N) by (unfold n; n_divmod; lia).
  split; [exact Hn|].
  unfold utf8_of_code_point. nbool. f_equal; [|f_equal].
  - rewrite N.shiftr_div_pow2. apply leading_byte with (k := 6%N); [reflexivity| |];
      change (2 ^ 6)%N with 64%N; unfold n; n_divmod; lia.
  - apply continuation_byte; [exact H2|].
    change (2 ^ 0)%N with 1%N. unfold n. n_divmod. lia.
Qed.

Lemma three_bytes (c1 c2 c3 : ascii) :
  (224 <= N_of_ascii c1 <= 239)%N -> (128 <= N_of_ascii c2 <= 191)%N ->
  (N_of_ascii c1 = 224 -> 160 <= N_of_ascii c2)%N ->
  (N_of_ascii c1 = 237 -> N_of_ascii c2 <= 159)%N ->
  (128 <= N_of_ascii c3 <= 191)%N ->
  (2048 <= code_point3 c1 c2 c3 < 65536)%N
  /\ ~ (55296 <= code_point3 c1 c2 c3 <= 57343)%N
  /\ utf8_of_code_point (code_point3 c1 c2 c3) = String c1 (String c2 (String c3 "")).
Proof.
  intros H1 H2 Hlo Hhi H3. rewrite code_point3_value.
  set (n := (((N_of_ascii c1 mod 16) * 64 + N_of_ascii c2 mod 64) * 64
             + N_of_ascii c3 mod 64)%N).
  assert (Hn : (2048 <= n < 65536)%N /\ ~ (55296 <= n <= 57343)%N)
    by (unfold n; n_divmod; lia).
  destruct Hn as [Hn Hs]. split; [exact Hn|]. split; [exact Hs|].
  unfold utf8_of_code_point. nbool. f_equal; [|f_equal; [|f_equal]].
  - rewrite N.shiftr_div_pow2. apply leading_byte with (k := 4%N); [reflexivity| |];
      change (2 ^ 4)%N with 16%N; change (2 ^ 12)%N with 4096%N; unfold n; n_divmod; lia.
  - apply continuation_byte; [exact H2|].
    change (2 ^ 6)%N with 64%N. unfold n. n_divmod. lia.
  - apply continuation_byte; [exact H3|].
    change (2 ^ 0)%N with 1%N. unfold n. n_divmod. lia.
Qed.

Lemma four_bytes (c1 c2 c3 c4 : ascii) :
  (240 <= N_of_ascii c1 <= 244)%N -> (128 <= N_of_ascii c2 <= 191)%N ->
  (N_of_ascii c1 = 240 -> 144 <= N_of_ascii c2)%N ->
  (N_of_ascii c1 = 244 -> N_of_ascii c2 <= 143)%N ->
  (128 <= N_of_ascii c3 <= 191)%N -> (128 <= N_of_ascii c4 <= 191)%N ->
  (65536 <= code_point4 c1 c2 c3 c4 < 1114112)%N
  /\ utf8_of_code_point (code_point4 c1 c2 c3 c4)
     = String c1 (String c2 (String c3 (String c4 ""))).
Proof.
  intros H1 H2 Hlo Hhi H3 H4. rewrite code_point4_value.
  set (n := ((((N_of_ascii c1 mod 8) * 64 + N_of_ascii c2 mod 64) * 64
              + N_of_ascii c3 mod 64) * 64 + N_of_ascii c4 mod 64)%N).
  assert (Hn : (65536 <= n < 1114112)%N) by (unfold n; n_divmod; lia).
  split; [exact Hn|].
  unfold utf8_of_code_point. nbool. f_equal; [|f_equal; [|f_equal; [|f_equal]]].
  - rewrite N.shiftr_div_pow2. apply leading_byte with (k := 4%N); [reflexivity| |];
      change (2 ^ 4)%N with 16%N; change (2 ^ 18)%N with 262144%N; unfold n; n_divmod; lia.
  - apply continuation_byte; [exact H2|].
    change (2 ^ 12)%N with 4096%N. unfold n. n_divmod. lia.
  - apply continuation_byte; [exact H3|].
    change (2 ^ 6)%N with 64%N. unfold n. n_divmod. lia.
  - apply continuation_byte; [exact H4|].
    change (2 ^ 0)%N with 1%N. unfold n. n_divmod. lia.
Qed.

(** The pair written for a code point beyond the basic plane *)
Lemma surrogates (n : N) :
  (65536 <= n < 1114112)%N ->
  (55296 <= high_surrogate n <= 56319)%N
  /\ (56320 <= low_surrogate n <= 57343)%N
  /\ of_surrogates (high_surrogate n) (low_surrogate n) = n.
Proof.
  intros Hn.
  assert (Hhi : high_surrogate n = (55296 + (n - 65536) / 1024)%N).
  { unfold high_surrogate. rewrite land_1023, N.shiftr_div_pow2.
    change (2 ^ 10)%N with 1024%N.
    rewrite (lor_add 55296 _ 10); [|reflexivity|apply N.mod_lt; discriminate].
    n_divmod. lia. }
  assert (Hlo : low_surrogate n = (56320 + (n - 65536) mod 1024)%N).
  { unfold low_surrogate. rewrite land_1023.
    now rewrite (lor_add 56320 _ 10); [|reflexivity|apply N.mod_lt; discriminate]. }
  unfold of_surrogates. rewrite Hhi, Hlo. clear Hhi Hlo. n_divmod.
  replace (55296 + q - 55296)%N with q by lia.
  replace (56320 + r - 56320)%N with r by lia.
  rewrite (lor_shifted _ _ 10) by (change (2 ^ 10)%N with 1024%N; lia).
  change (2 ^ 10)%N with 1024%N. lia.
Qed.

Lemma hex_value_digit (x : N) :
  (x < 16)%N -> hex_value (hex_digit_lower (N.to_nat x)) = Some x.
Proof.
  intros H.
  assert (E : (x = 0 \/ x = 1 \/ x = 2 \/ x = 3 \/ x = 4 \/ x = 5 \/ x = 6 \/ x = 7
              \/ x = 8 \/ x = 9 \/ x = 10 \/ x = 11 \/ x = 12 \/ x = 13 \/ x = 14
              \/ x = 15)%N) by lia.
  repeat destruct E as [->|E]; try reflexivity. now subst x.
Qed.

Lemma decode_hex4 (n : N) (rest : string) :
  (n < 65536)%N -> decode_uXXXX (hex4 n ++ rest) = Some (n, rest).
Proof.
  intros Hn. unfold hex4. cbn [append decode_uXXXX].
  rewrite !land_15, !N.shiftr_div_pow2.
  change (2 ^ 12)%N with 4096%N. change (2 ^ 8)%N with 256%N.
  change (2 ^ 4)%N with 16%N. change (2 ^ 0)%N with 1%N.
  rewrite !hex_value_digit by (apply N.mod_lt; discriminate).
  do 2 f_equal. n_divmod. lia.
Qed.

Lemma backslash_is_not_quote : Ascii.eqb backslash DQUOTE = false.
Proof. reflexivity. Qed.

(** One escape of a code point of the basic plane is read in one step *)
Lemma scan_u_escape (n : N) (rest acc : string) (fuel : nat) :
  (n < 65536)%N -> ~ (55296 <= n <= 56319)%N ->
  scanstring (S fuel) (u_escape n ++ rest) acc
  = scanstring fuel rest (acc ++ utf8_of_code_point n).
Proof.
  intros Hn Hs. unfold u_escape.
  change (String backslash (String "u" (hex4 n)) ++ rest)
    with (String backslash (String "u" (hex4 n ++ rest))).
  cbn [scanstring]. rewrite backslash_is_not_quote, Ascii.eqb_refl.
  cbn [Ascii.eqb Bool.eqb]. rewrite decode_hex4 by exact Hn.
  replace ((55296 <=? n) && (n <=? 56319))%N with false; [reflexivity|].
  symmetry. apply andb_false_iff.
  destruct (N.leb_spec 55296 n); [right|left; reflexivity].
  apply N.leb_gt. lia.
Qed.

(** The pair of escapes of a code point beyond it is read in one step *)
Lemma scan_surrogates (hi lo : N) (rest acc : string) (fuel : nat) :
  (55296 <= hi <= 56319)%N -> (56320 <= lo <= 57343)%N ->
  scanstring (S fuel) ((u_escape hi ++ u_escape lo) ++ rest) acc
  = scanstring fuel rest (acc ++ utf8_of_code_point (of_surrogates hi lo)).
Proof.
  intros Hhi Hlo. unfold u_escape.
  change ((String backslash (String "u" (hex4 hi))
           ++ String backslash (String "u" (hex4 lo))) ++ rest)
    with (String backslash
            (String "u" ((hex4 hi ++ String backslash (String "u" (hex4 lo))) ++ rest))).
  rewrite append_assoc.
  change (String backslash (String "u" (hex4 lo)) ++ rest)
    with (String backslash (String "u" (hex4 lo ++ rest))).
  cbn [scanstring]. rewrite backslash_is_not_quote, Ascii.eqb_refl.
  cbn [Ascii.eqb Bool.eqb]. rewrite decode_hex4 by lia.
  cbn [starts_with]. rewrite !Ascii.eqb_refl. cbn [andb drop].
  rewrite decode_hex4 by lia. unfold of_surrogates.
  now nbool.
Qed.

(** What is written for an ASCII character is read in one step *)
Lemma scan_ascii (c : ascii) (rest acc : string) (fuel : nat) :
  (N_of_ascii c <? 128)%N = true ->
  scanstring (S fuel)
    ((if ((32 <=? N_of_ascii c) && (N_of_ascii c <=? 126)
          && negb (N_of_ascii c =? 34) && negb (N_of_ascii c =? 92))%N
      then String c "" else escape_code_point (N_of_ascii c)) ++ rest) acc
  = scanstring fuel rest (acc ++ String c "").
Proof.
  destruct c as [[] [] [] [] [] [] [] []]; intros H;
    try (vm_compute in H; discriminate H); reflexivity.
Qed.

Lemma escape_plane0 (n : N) : (128 <= n < 65536)%N -> escape_code_point n = u_escape n.
Proof. intros H. unfold escape_code_point. now nbool. Qed.

Lemma escape_plane1 (n : N) :
  (65536 <= n)%N ->
  escape_code_point n = u_escape (high_surrogate n) ++ u_escape (low_surrogate n).
Proof. intros H. unfold escape_code_point. now nbool. Qed.

Lemma escape_code_point_not_empty (n : N) : 1 <= String.length (escape_code_point n).
Proof.
  unfold escape_code_point.
  repeat match goal with
         | |- context [if ?b then _ else _] => destruct b
         end; cbn; lia.
Qed.

Lemma escape_two (c1 c2 : ascii) (s : string) :
  (128 <= N_of_ascii c1 < 224)%N ->
  escape_ascii (String c1 (String c2 s)) 0 0
  = escape_code_point (code_point2 c1 c2) ++ escape_ascii s 0 0.
Proof. intros H. cbn [escape_ascii]. cbv zeta. now nbool. Qed.

Lemma escape_three (c1 c2 c3 : ascii) (s : string) :
  (224 <= N_of_ascii c1 < 240)%N ->
  escape_ascii (String c1 (String c2 (String c3 s))) 0 0
  = escape_code_point (code_point3 c1 c2 c3) ++ escape_ascii s 0 0.
Proof. intros H. cbn [escape_ascii]. cbv zeta. now nbool. Qed.

Lemma escape_four (c1 c2 c3 c4 : ascii) (s : string) :
  (240 <= N_of_ascii c1)%N ->
  escape_ascii (String c1 (String c2 (String c3 (String c4 s)))) 0 0
  = escape_code_point (code_point4 c1 c2 c3 c4) ++ escape_ascii s 0 0.
Proof. intros H. cbn [escape_ascii]. cbv zeta. now nbool. Qed.

Lemma scan_two (c1 c2 : ascii) (rest acc : string) (fuel : nat) :
  (194 <= N_of_ascii c1 <= 223)%N -> (128 <= N_of_ascii c2 <= 191)%N ->
  scanstring (S fuel) (escape_code_point (code_point2 c1 c2) ++ rest) acc
  = scanstring fuel rest (acc ++ String c1 (String c2 "")).
Proof.
  intros H1 H2. destruct (two_bytes c1 c2 H1 H2) as [Hn Hb].
  rewrite escape_plane0, scan_u_escape, Hb by lia. reflexivity.
Qed.

Lemma scan_three (c1 c2 c3 : ascii) (rest acc : string) (fuel : nat) :
  (224 <= N_of_ascii c1 <= 239)%N -> (128 <= N_of_ascii c2 <= 191)%N ->
  (N_of_ascii c1 = 224 -> 160 <= N_of_ascii c2)%N ->
  (N_of_ascii c1 = 237 -> N_of_ascii c2 <= 159)%N ->
  (128 <= N_of_ascii c3 <= 191)%N ->
  scanstring (S fuel) (escape_code_point (code_point3 c1 c2 c3) ++ rest) acc
  = scanstring fuel rest (acc ++ String c1 (String c2 (String c3 ""))).
Proof.
  intros H1 H2 Hlo Hhi H3.
  destruct (three_bytes c1 c2 c3 H1 H2 Hlo Hhi H3) as [Hn [Hs Hb]].
  rewrite escape_plane0, scan_u_escape, Hb by lia. reflexivity.
Qed.

Lemma scan_four (c1 c2 c3 c4 : ascii) (rest acc : string) (fuel : nat) :
  (240 <= N_of_ascii c1 <= 244)%N -> (128 <= N_of_ascii c2 <= 191)%N ->
  (N_of_ascii c1 = 240 -> 144 <= N_of_ascii c2)%N ->
  (N_of_ascii c1 = 244 -> N_of_ascii c2 <= 143)%N ->
  (128 <= N_of_ascii c3 <= 191)%N -> (128 <= N_of_ascii c4 <= 191)%N ->
  scanstring (S fuel) (escape_code_point (code_point4 c1 c2 c3 c4) ++ rest) acc
  = scanstring fuel rest (acc ++ String c1 (String c2 (String c3 (String c4 "")))).
Proof.
  intros H1 H2 Hlo Hhi H3 H4.
  destruct (four_bytes c1 c2 c3 c4 H1 H2 Hlo Hhi H3 H4) as [Hn Hb].
  destruct (surrogates _ Hn) as [Hh [Hl Hv]].
  rewrite escape_plane1, scan_surrogates, Hv, Hb by lia. reflexivity.
Qed.

Ltac nfacts :=
  repeat match goal with
         | H : (_ <? _)%N = true |- _ => apply N.ltb_lt in H
         | H : (_ <? _)%N = false |- _ => apply N.ltb_ge in H
         | H : (_ <=? _)%N = true |- _ => apply N.leb_le in H
         | H : (_ <=? _)%N = false |- _ => apply N.leb_gt in H
         | H : (_ =? _)%N = true |- _ => apply N.eqb_eq in H
         | H : (_ =? _)%N = false |- _ => apply N.eqb_neq in H
         | H : (_ && _)%bool = true |- _ => apply andb_true_iff in H; destruct H
         end.

Ltac head_case H :=
  match type of H with
  | (if (?x && ?y)%bool then _ else _) = _ => destruct x eqn:?; cbn [andb] in H
  | (if ?x then _ else _) = _ => destruct x eqn:?
  end.

(** The next byte of a sequence that is not finished *)
Ltac next_byte H s c s' :=
  destruct s as [|c s']; [discriminate H|];
  cbn [utf8_valid_from] in H; cbv zeta in H;
  apply andb_true_iff in H; destruct H as [? H].

Lemma ascii_piece_not_empty (c : ascii) :
  1 <= String.length
         (if ((32 <=? N_of_ascii c) && (N_of_ascii c <=? 126)
              && negb (N_of_ascii c =? 34) && negb (N_of_ascii c =? 92))%N
          then String c "" else escape_code_point (N_of_ascii c)).
Proof.
  destruct (_ && _)%bool; [cbn; lia | apply escape_code_point_not_empty].
Qed.

(** [scanstring] reads back the content of a string written by
    [encode_basestring_ascii] *)
Lemma scanstring_escaped (n : nat) :
  forall s : string,
    String.length s <= n -> utf8_valid s = true ->
    forall (fuel : nat) (acc rest : string),
      String.length (escape_ascii s 0 0) < fuel ->
      scanstring fuel (escape_ascii s 0 0 ++ String DQUOTE rest) acc
      = Scanned (acc ++ s) rest.
Proof.
  induction n as [|n IH]; intros s Hlen Hv fuel acc rest Hfuel.
  - destruct s; [|cbn in Hlen; lia].
    destruct fuel; [cbn in Hfuel; lia|]. cbn. now rewrite append_nil_r.
  - destruct s as [|c1 s1].
    { destruct fuel; [cbn in Hfuel; lia|]. cbn. now rewrite append_nil_r. }
    destruct fuel as [|fuel]; [lia|].
    unfold utf8_valid in Hv. cbn [utf8_valid_from] in Hv. cbv zeta in Hv.
    cbn [String.length] in Hlen.
    repeat head_case Hv; try discriminate Hv;
      match type of Hv with
      | utf8_valid_from _ 0 _ _ = true =>
          assert (E : escape_ascii (String c1 s1) 0 0
                      = (if ((32 <=? N_of_ascii c1) && (N_of_ascii c1 <=? 126)
                             && negb (N_of_ascii c1 =? 34)
                             && negb (N_of_ascii c1 =? 92))%N
                         then String c1 "" else escape_code_point (N_of_ascii c1))
                        ++ escape_ascii s1 0 0)
            by (cbn [escape_ascii]; cbv zeta;
                match goal with Hb : (_ <? 128)%N = true |- _ => now rewrite Hb end);
          pose proof (ascii_piece_not_empty c1);
          rewrite E in Hfuel |- *; rewrite length_app in Hfuel;
          rewrite append_assoc, scan_ascii by assumption;
          rewrite IH; [now rewrite append_assoc | lia | exact Hv | lia]
      | utf8_valid_from _ 1 _ _ = true =>
          next_byte Hv s1 c2 s2; nfacts;
          pose proof (escape_code_point_not_empty (code_point2 c1 c2));
          rewrite escape_two in Hfuel |- * by lia; rewrite length_app in Hfuel;
          rewrite append_assoc, scan_two by lia;
          cbn [String.length] in Hlen;
          rewrite IH; [now rewrite append_assoc | lia | exact Hv | lia]
      | utf8_valid_from _ 2 _ _ = true =>
          next_byte Hv s1 c2 s2; next_byte Hv s2 c3 s3; nfacts;
          pose proof (escape_code_point_not_empty (code_point3 c1 c2 c3));
          rewrite escape_three in Hfuel |- * by lia; rewrite length_app in Hfuel;
          rewrite append_assoc, scan_three by lia;
          cbn [String.length] in Hlen;
          rewrite IH; [now rewrite append_assoc | lia | exact Hv | lia]
      | utf8_valid_from _ 3 _ _ = true =>
          next_byte Hv s1 c2 s2; next_byte Hv s2 c3 s3; next_byte Hv s3 c4 s4; nfacts;
          pose proof (escape_code_point_not_empty (code_point4 c1 c2 c3 c4));
          rewrite escape_four in Hfuel |- * by lia; rewrite length_app in Hfuel;
          rewrite append_assoc, scan_four by lia;
          cbn [String.length] in Hlen;
          rewrite IH; [now rewrite append_assoc | lia | exact Hv | lia]
      end.
Qed.

(** A string written by [encode_basestring_ascii], read from its opening
    quote on *)
Lemma scanstring_encoded (s rest : string) :
  utf8_valid s = true ->
  exists text,
    encode_basestring_ascii s ++ rest = String DQUOTE text
    /\ scanstring (String.length text) text "" = Scanned s rest.
Proof.
  intros Hv. exists (escape_ascii s 0 0 ++ String DQUOTE rest). split.
  - unfold encode_basestring_ascii.
    change (String DQUOTE (escape_ascii s 0 0) ++ String DQUOTE "")
      with (String DQUOTE (escape_ascii s 0 0 ++ String DQUOTE "")).
    cbn [append]. now rewrite append_assoc.
  - apply (scanstring_escaped (String.length s) s (le_n _) Hv).
    rewrite length_app. cbn [String.length]. lia.
Qed.

(** ** Reading back what [json.dumps] wrote: numbers *)

Lemma match_number_stages (s : string) :
  match_number s
  = let (sign, s1) := number_sign s in
    match number_int s1 with
    | None => None
    | Some (i, s2) =>
        let (frac, s3) := number_frac s2 in
        let (exp, s4) := number_exp s3 in
        Some (sign ++ i, frac, exp, s4)
    end.
Proof. reflexivity. Qed.

Lemma ends_value_stops (rest : string) :
  ends_value rest = true ->
  span_digits rest = ("", rest)
  /\ number_frac rest = ("", rest)
  /\ number_exp rest = ("", rest).
Proof.
  destruct rest as [|c rest]; [now repeat split|].
  cbn [ends_value]. intros H. apply orb_true_iff in H as [H|H];
    apply Ascii.eqb_eq in H; subst c; now repeat split.
Qed.

Lemma number_sign_digit (c : ascii) (s : string) :
  is_digit c = true -> number_sign (String c s) = ("", String c s).
Proof. destruct c as [[] [] [] [] [] [] [] []]; intros H; solve [discriminate H | reflexivity]. Qed.

Lemma number_int_digits (c : ascii) (t tail : string) :
  is_digit c = true -> Ascii.eqb c "0" = false ->
  string_forallb is_digit t = true ->
  span_digits tail = ("", tail) ->
  number_int (String c (t ++ tail)) = Some (String c t, tail).
Proof.
  intros Hc H0 Ht Htail.
  assert (E : number_int (String c (t ++ tail)) = Some (span_digits (String c (t ++ tail))))
    by (destruct c as [[] [] [] [] [] [] [] []];
        solve [discriminate Hc | discriminate H0 | reflexivity]).
  rewrite E. change (String c (t ++ tail)) with (String c t ++ tail).
  rewrite span_digits_app; [reflexivity | | exact Htail].
  cbn [string_forallb]. now rewrite Hc, Ht.
Qed.

Lemma number_frac_digits (d tail : string) :
  d <> "" -> string_forallb is_digit d = true ->
  span_digits tail = ("", tail) ->
  number_frac (String "." (d ++ tail)) = (String "." d, tail).
Proof.
  intros Hd Hds Htail. cbn [number_frac]. rewrite span_digits_app by assumption.
  destruct d; [congruence | reflexivity].
Qed.

Lemma number_frac_exponent (tail : string) :
  number_frac (String "e" tail) = ("", String "e" tail).
Proof. reflexivity. Qed.

Lemma number_exp_digits (sign : bool) (d tail : string) :
  d <> "" -> string_forallb is_digit d = true ->
  span_digits tail = ("", tail) ->
  number_exp (String "e" ((if sign then "-" else "+") ++ d ++ tail))
  = (String "e" ((if sign then "-" else "+") ++ d), tail).
Proof.
  intros Hd Hds Htail. destruct sign; cbn [number_exp append Ascii.eqb Bool.eqb orb];
    rewrite span_digits_app by assumption; (destruct d; [congruence | reflexivity]).
Qed.

Lemma span_digits_letter_e (tail : string) :
  span_digits (String "e" tail) = ("", String "e" tail).
Proof. reflexivity. Qed.

Lemma span_digits_point (tail : string) :
  span_digits (String "." tail) = ("", String "." tail).
Proof. reflexivity. Qed.

(** The digits of a positive number start with a digit that is not zero *)
Lemma pos_uint_leading (p : positive) (d : Decimal.uint) : Pos.to_uint p <> Decimal.D0 d.
Proof.
  intros E.
  assert (Hn : Decimal.unorm (Pos.to_uint p) = Pos.to_uint p).
  { rewrite <- (DecimalPos.Unsigned.to_of (Pos.to_uint p)).
    now rewrite DecimalPos.Unsigned.of_to. }
  unfold Decimal.unorm in Hn.
  destruct (Decimal.nzhead (Pos.to_uint p)) eqn:Hz;
    try (rewrite <- Hn in E; rewrite <- Hz in E; now apply DecimalFacts.nzhead_nonzero in E);
    try (rewrite E in Hn; discriminate Hn).
  symmetry in Hn. now apply DecimalPos.Unsigned.to_uint_nonzero in Hn.
Qed.

Lemma pos_repr_shape (p : positive) :
  exists (c : ascii) (t : string),
    int_repr (Zpos p) = String c t
    /\ is_digit c = true /\ Ascii.eqb c "0" = false
    /\ string_forallb is_digit t = true.
Proof.
  unfold int_repr. cbn [Z.to_int NilZero.string_of_int].
  pose proof (pos_uint_leading p) as Hl.
  pose proof (DecimalPos.Unsigned.to_uint_nonnil p) as Hnil.
  destruct (Pos.to_uint p) as [|d|d|d|d|d|d|d|d|d|d] eqn:E;
    [congruence | now destruct (Hl d) | ..];
    cbn [NilZero.string_of_uint NilEmpty.string_of_uint];
    eexists; eexists; (split; [reflexivity|]); repeat split; apply uint_all_digits.
Qed.

(** [NUMBER_RE] takes the text of an integer as a whole *)
Lemma match_number_int (z : Z) (rest : string) :
  ends_value rest = true ->
  match_number (int_repr z ++ rest) = Some (int_repr z, "", "", rest).
Proof.
  intros Hr. destruct (ends_value_stops rest Hr) as [Hs [Hf He]].
  rewrite match_number_stages.
  assert (Hpos : forall p, 
             number_int (int_repr (Zpos p) ++ rest) = Some (int_repr (Zpos p), rest)
             /\ number_sign (int_repr (Zpos p) ++ rest) = ("", int_repr (Zpos p) ++ rest)).
  { intros p. destruct (pos_repr_shape p) as [c [t [-> [Hc [H0 Ht]]]]].
    change (String c t ++ rest) with (String c (t ++ rest)).
    now rewrite number_int_digits, number_sign_digit. }
  destruct z as [|p|p].
  - cbn. rewrite Hf, He. reflexivity.
  - destruct (Hpos p) as [Hi Hsg]. rewrite Hsg, Hi, Hf, He. reflexivity.
  - assert (E : int_repr (Zneg p) = String "-" (int_repr (Zpos p))) by reflexivity.
    rewrite E. change (String "-" (int_repr (Z.pos p)) ++ rest)
      with (String "-" (int_repr (Z.pos p) ++ rest)).
    cbn [number_sign]. destruct (Hpos p) as [Hi _]. rewrite Hi, Hf, He. reflexivity.
Qed.

Lemma match_number_parts (sign : bool) (c : ascii) (t F E rest : string) :
  is_digit c = true -> string_forallb is_digit t = true ->
  (Ascii.eqb c "0" = false \/ (c = "0"%char /\ t = "")) ->
  span_digits (F ++ E ++ rest) = ("", F ++ E ++ rest) ->
  number_frac (F ++ E ++ rest) = (F, E ++ rest) ->
  number_exp (E ++ rest) = (E, rest) ->
  match_number (sign_text sign ++ String c t ++ F ++ E ++ rest)
  = Some (sign_text sign ++ String c t, F, E, rest).
Proof.
  intros Hc Ht H0 Hs Hf He. rewrite match_number_stages.
  assert (Hi : number_int (String c t ++ F ++ E ++ rest)
               = Some (String c t, F ++ E ++ rest)).
  { destruct H0 as [H0|[-> ->]]; [|reflexivity].
    change (String c t ++ F ++ E ++ rest) with (String c (t ++ F ++ E ++ rest)).
    now apply number_int_digits. }
  assert (Hsg : number_sign (sign_text sign ++ String c t ++ F ++ E ++ rest)
                = (sign_text sign, String c t ++ F ++ E ++ rest)).
  { destruct sign; [reflexivity|]. cbn [sign_text append]. now apply number_sign_digit. }
  now rewrite Hsg, Hi, Hf, He.
Qed.

Lemma canonical_digits (sign : bool) (ds : string) (dp : Z) :
  float_canonical (FFinite sign ds dp) = true ->
  exists (c : ascii) (t : string),
    ds = String c t /\ is_digit c = true /\ string_forallb is_digit t = true
    /\ (Ascii.eqb c "0" = false \/ (c = "0"%char /\ t = "" /\ dp = 1%Z)).
Proof.
  cbn [float_canonical]. intros H. apply andb_true_iff in H as [Hd H].
  destruct ds as [|c t]; [discriminate H|]. exists c, t.
  cbn [string_forallb] in Hd. apply andb_true_iff in Hd as [Hc Ht].
  repeat split; trivial.
  destruct (Ascii.eqb c "0") eqn:E; [right|now left].
  apply Ascii.eqb_eq in E. cbn [negb orb] in H.
  destruct t; [|discriminate H]. cbn [andb] in H. apply Z.eqb_eq in H. now repeat split.
Qed.

Lemma zeros_all_digits (n : Z) : string_forallb is_digit (zeros n) = true.
Proof. apply forallb_zeros. Qed.

(** [NUMBER_RE] takes the text of a finite float as a whole, and finds a
    fraction or an exponent in it *)
Lemma match_number_float (sign : bool) (ds : string) (dp : Z) (rest : string) :
  float_canonical (FFinite sign ds dp) = true ->
  ends_value rest = true ->
  exists i F E : string,
    match_number (format_float_short sign ds dp ++ rest) = Some (i, F, E, rest)
    /\ i ++ F ++ E = format_float_short sign ds dp
    /\ (F = "" -> E = "" -> False).
Proof.
  intros Hcan Hr. destruct (ends_value_stops rest Hr) as [Hs [Hf He]].
  destruct (canonical_digits sign ds dp Hcan) as [c [t [-> [Hc [Ht H0]]]]].
  assert (Hds : string_forallb is_digit (String c t) = true)
    by (cbn [string_forallb]; now rewrite Hc, Ht).
  destruct (Z_le_gt_dec dp (-4)) as [Hlow|Hlow];
    [|destruct (Z_lt_le_dec 16 dp) as [Hhigh|Hhigh]].
  1, 2: rewrite repr_with_exponent by (trivial; lia);
    destruct (exp_repr_shape (dp - 1)) as [pad [-> [Hpad [Hne _]]]];
    set (F := match t with EmptyString => "" | _ => "." ++ t end);
    set (E := "e" ++ (if (dp - 1 <? 0)%Z then "-" else "+") ++ pad);
    exists (sign_text sign ++ String c ""), F, E;
    (split; [|split; [now rewrite !append_assoc | intros _ HE; discriminate HE]]);
    rewrite !append_assoc;
    (apply match_number_parts; trivial;
     [ destruct H0 as [H0|[_ [_ H0]]]; [now left | lia]
     | unfold F, E; now destruct t
     | unfold F, E; destruct t; [reflexivity|];
       change ("." ++ String a t ++ ?x) with (String "." (String a t ++ x));
       apply number_frac_digits; [discriminate | exact Ht | reflexivity]
     | unfold E; rewrite !append_assoc; apply number_exp_digits; assumption ]).
  destruct (Z_le_gt_dec dp 0) as [Hsmall|Hpos];
    [|destruct (Z_lt_le_dec dp (Z.of_nat (String.length (String c t)))) as [Hmid|Hwhole]].
  - (* 0.000ddd *)
    rewrite repr_small by (trivial; try discriminate; lia).
    set (F := String "." (zeros (- dp) ++ String c t)).
    exists (sign_text sign ++ "0"), F, "".
    split; [|split; [unfold F; now rewrite !append_assoc, append_nil_r
                    | intros HF; discriminate HF]].
    replace ((sign_text sign ++ "0." ++ zeros (- dp) ++ String c t) ++ rest)
      with (sign_text sign ++ String "0" "" ++ F ++ "" ++ rest)
      by (unfold F; rewrite ?append_assoc; cbn [append]; now rewrite ?append_assoc).
    apply match_number_parts; trivial; [now right | ].
    unfold F. change (String "." (zeros (- dp) ++ String c t) ++ "" ++ rest)
      with (String "." ((zeros (- dp) ++ String c t) ++ rest)).
    apply number_frac_digits; [now destruct (zeros (- dp)) | | exact Hs].
    now rewrite string_forallb_app, zeros_all_digits.
  - (* ddd.ddd *)
    rewrite repr_middle by (trivial; lia).
    assert (Hk : exists k, Z.to_nat dp = S k /\ k < String.length t).
    { exists (Nat.pred (Z.to_nat dp)). cbn [String.length] in Hmid. lia. }
    destruct Hk as [k [-> Hk]]. cbn [substring drop].
    set (F := String "." (drop k t)).
    exists (sign_text sign ++ String c (substring 0 k t)), F, "".
    split; [|split; [unfold F; now rewrite !append_assoc, append_nil_r
                    | intros HF; discriminate HF]].
    replace ((sign_text sign ++ String c (substring 0 k t) ++ "." ++ drop k t) ++ rest)
      with (sign_text sign ++ String c (substring 0 k t) ++ F ++ "" ++ rest)
      by (unfold F; rewrite ?append_assoc; cbn [append]; now rewrite ?append_assoc).
    apply match_number_parts; trivial.
    + now apply forallb_substring.
    + left. destruct H0 as [H0|[_ [-> _]]]; [exact H0 | cbn in Hk; lia].
    + unfold F. change (String "." (drop k t) ++ "" ++ rest)
        with (String "." (drop k t ++ rest)).
      apply number_frac_digits; [now apply drop_some | now apply forallb_drop | exact Hs].
  - (* ddd000.0 *)
    rewrite repr_whole by (trivial; try discriminate; lia).
    set (zs := zeros (dp - Z.of_nat (String.length (String c t)))).
    exists (sign_text sign ++ String c (t ++ zs)), ".0", "".
    split; [|split; [rewrite append_assoc; f_equal; cbn [append]; f_equal;
                     now rewrite append_assoc
                    | intros HF; discriminate HF]].
    replace ((sign_text sign ++ String c t ++ zs ++ ".0") ++ rest)
      with (sign_text sign ++ String c (t ++ zs) ++ ".0" ++ "" ++ rest)
      by (rewrite ?append_assoc; cbn [append]; now rewrite ?append_assoc).
    apply match_number_parts; trivial.
    + rewrite string_forallb_app, Ht. exact (zeros_all_digits _).
    + destruct H0 as [H0|[-> [-> ->]]]; [now left | now right].
    + cbn [append number_frac span_digits is_digit]. cbn. now rewrite Hs.
Qed.

(** ** Reading back what [json.dumps] wrote: values *)

Section ReadingBack.

Variable pf : string -> pyfloat.

Lemma scan_once_number (fuel : nat) (c : ascii) (s : string)
    (integer frac exp rest : string) :
  is_digit c || Ascii.eqb c "-" = true ->
  match_number (String c s) = Some (integer, frac, exp, rest) ->
  scan_once pf (S fuel) (String c s)
  = match frac, exp with
    | EmptyString, EmptyString => Scanned (JInt (int_of_string integer)) rest
    | _, _ => Scanned (JFloat (pf (integer ++ frac ++ exp))) rest
    end.
Proof.
  intros Hc Hm.
  destruct c as [[] [] [] [] [] [] [] []]; try discriminate Hc;
    cbn [scan_once]; cbn [Ascii.eqb Bool.eqb starts_with andb]; now rewrite Hm.
Qed.

Lemma match_number_first (s : string) (r : string * string * string * string) :
  match_number s = Some r ->
  exists (c : ascii) (s' : string),
    s = String c s' /\ is_digit c || Ascii.eqb c "-" = true.
Proof.
  intros H. destruct s as [|c s']; [discriminate H|]. exists c, s'.
  split; [reflexivity|].
  destruct c as [[] [] [] [] [] [] [] []];
    first [reflexivity | exfalso; vm_compute in H; discriminate H].
Qed.

Lemma scan_string (s rest : string) (fuel : nat) :
  utf8_valid s = true ->
  scan_once pf (S fuel) (encode_basestring_ascii s ++ rest) = Scanned (JStr s) rest.
Proof.
  intros Hv. destruct (scanstring_encoded s rest Hv) as [text [-> Hs]].
  cbn [scan_once]. now rewrite Ascii.eqb_refl, Hs.
Qed.

(** A value that is no array and no object is read back from its text *)
Lemma scan_scalar (v : json) (t rest : string) (fuel : nat) :
  scalar_text v = Some t -> reads_back pf v -> ends_value rest = true ->
  scan_once pf (S fuel) (t ++ rest) = Scanned v rest.
Proof.
  intros Ht Hv Hr. destruct v as [|[]|z|f|s|l|d]; cbn [scalar_text] in Ht;
    try discriminate Ht; injection Ht as <-; try reflexivity.
  - pose proof (match_number_int z rest Hr) as Hm.
    destruct (match_number_first _ _ Hm) as [c [s' [E Hc]]].
    rewrite E in Hm |- *. rewrite (scan_once_number fuel c s' _ _ _ _ Hc Hm).
    now rewrite int_of_string_int_repr.
  - destruct f as [sign ds dp|[]|]; try reflexivity.
    cbn [reads_back float_reads_back] in Hv. destruct Hv as [Hcan Hpf].
    cbn [floatstr float_repr] in Hpf |- *.
    destruct (match_number_float sign ds dp rest Hcan Hr) as [i [F [E [Hm [Ht Hne]]]]].
    destruct (match_number_first _ _ Hm) as [c [s' [E' Hc]]].
    rewrite E' in Hm |- *. rewrite (scan_once_number fuel c s' _ _ _ _ Hc Hm).
    rewrite Ht, Hpf. destruct F; [destruct E; [now destruct Hne|]|]; reflexivity.
  - now apply scan_string.
Qed.

Lemma skip_ws_newline_indent (level : nat) (s : string) :
  skip_ws (newline_indent level ++ s) = skip_ws s.
Proof.
  unfold newline_indent, LF, indent_unit. cbn [append skip_ws string_mem Ascii.eqb Bool.eqb orb].
  induction level as [|level IH]; [reflexivity|].
  cbn [repeat_string append skip_ws string_mem]. exact IH.
Qed.

Lemma skip_ws_value (c : ascii) (t : string) :
  value_start c = true -> skip_ws (String c t) = String c t.
Proof.
  destruct c as [[] [] [] [] [] [] [] []]; intros H;
    solve [discriminate H | reflexivity].
Qed.

Lemma ends_value_newline (level : nat) (s : string) :
  ends_value (newline_indent level ++ s) = true.
Proof. reflexivity. Qed.

(** The text of a value starts with a character that starts a value *)
Lemma dumps_at_start (v : json) (level : nat) :
  reads_back pf v ->
  exists (c : ascii) (t : string),
    dumps_at v level = String c t /\ value_start c = true.
Proof.
  intros Hv. destruct v as [|[]|z|f|s|l|d].
  - eexists; eexists; split; reflexivity.
  - eexists; eexists; split; reflexivity.
  - eexists; eexists; split; reflexivity.
  - pose proof (match_number_int z "" eq_refl) as Hm.
    destruct (match_number_first _ _ Hm) as [c [s' [E Hc]]].
    rewrite append_nil_r in E. exists c, s'. split; [exact E|].
    unfold value_start. apply orb_true_iff in Hc as [Hc|Hc]; [now rewrite Hc|].
    apply Ascii.eqb_eq in Hc. subst c. reflexivity.
  - destruct f as [sign ds dp|[]|]; try (eexists; eexists; split; reflexivity).
    cbn [reads_back float_reads_back] in Hv. destruct Hv as [Hcan _].
    destruct (match_number_float sign ds dp "" Hcan eq_refl) as [i [F [E [Hm _]]]].
    destruct (match_number_first _ _ Hm) as [c [s' [E' Hc]]].
    rewrite append_nil_r in E'. exists c, s'. split; [exact E'|].
    unfold value_start. apply orb_true_iff in Hc as [Hc|Hc]; [now rewrite Hc|].
    apply Ascii.eqb_eq in Hc. subst c. reflexivity.
  - eexists; eexists; split; [reflexivity|]. unfold value_start.
    now rewrite Ascii.eqb_refl, orb_true_r.
  - destruct l as [|x l]; [eexists; eexists; split; reflexivity|].
    rewrite dumps_list. eexists; eexists; split; reflexivity.
  - destruct d as [|kv d]; [eexists; eexists; split; reflexivity|].
    rewrite dumps_dict. eexists; eexists; split; reflexivity.
Qed.

Lemma skip_ws_dumps (v : json) (level : nat) (s : string) :
  reads_back pf v -> skip_ws (dumps_at v level ++ s) = dumps_at v level ++ s.
Proof.
  intros Hv. destruct (dumps_at_start v level Hv) as [c [t [-> Hc]]].
  now apply skip_ws_value.
Qed.

(** The items of an array, from the first one that is left *)
Lemma array_items_read (level : nat) (rest : string) (l : list json) :
  Forall (read_back pf) l ->
  forall (values : list json) (fuel : nat),
    l <> [] ->
    fold_right (fun x acc => reads_back pf x /\ acc) True l ->
    fold_right (fun x acc => S (json_size x + acc)) 0 l <= fuel ->
    ends_value rest = true ->
    array_items pf fuel
      (join ("," ++ newline_indent (S level)) (map (item_text level) l)
       ++ newline_indent level ++ "]" ++ rest) values
    = Scanned (JList (values ++ l)) rest.
Proof.
  induction 1 as [|x l Hx Hl IH]; intros values fuel Hne Hwf Hfuel Hr; [congruence|].
  cbn [fold_right] in Hwf, Hfuel. destruct Hwf as [Hvx Hwf].
  destruct fuel as [|fuel]; [lia|]. cbn [array_items]. unfold read_back in Hx.
  destruct l as [|y l].
  - cbn [map join]. unfold item_text.
    rewrite Hx; [|exact Hvx|reflexivity|cbn in Hfuel; lia].
    rewrite skip_ws_newline_indent. reflexivity.
  - change (join ("," ++ newline_indent (S level)) (map (item_text level) (x :: y :: l)))
      with (item_text level x ++ ("," ++ newline_indent (S level))
            ++ join ("," ++ newline_indent (S level)) (map (item_text level) (y :: l))).
    unfold item_text at 1. rewrite !append_assoc.
    rewrite Hx; [|exact Hvx|reflexivity|lia].
    cbn [append skip_ws string_mem Ascii.eqb Bool.eqb orb].
    rewrite skip_ws_newline_indent.
    assert (Hs : forall s, skip_ws (join ("," ++ newline_indent (S level))
                                         (map (item_text level) (y :: l)) ++ s)
                           = join ("," ++ newline_indent (S level))
                               (map (item_text level) (y :: l)) ++ s).
    { intros s. destruct Hwf as [Hvy _].
      destruct l as [|z l]; cbn [map join]; unfold item_text at 1;
        rewrite ?append_assoc; now apply skip_ws_dumps. }
    rewrite Hs. change (String "]" rest) with ("]" ++ rest).
    rewrite (IH (values ++ [x])%list fuel); trivial; [|discriminate|lia].
    now rewrite <- app_assoc.
Qed.

Lemma member_text_start (level : nat) (kv : string * json) :
  member_text level kv
  = String DQUOTE (escape_ascii (fst kv) 0 0
                   ++ String DQUOTE (": " ++ dumps_at (snd kv) (S level))).
Proof.
  unfold member_text, encode_basestring_ascii.
  change (String DQUOTE (escape_ascii (fst kv) 0 0) ++ String DQUOTE "")
    with (String DQUOTE (escape_ascii (fst kv) 0 0 ++ String DQUOTE "")).
  cbn [append]. now rewrite !append_assoc.
Qed.

Lemma string_cons_app (c : ascii) (a b : string) : String c a ++ b = String c (a ++ b).
Proof. reflexivity. Qed.

Lemma string_nil_app (s : string) : "" ++ s = s.
Proof. reflexivity. Qed.

Lemma members_start (level : nat) (kv : string * json) (d : list (string * json))
    (s : string) :
  exists X,
    join ("," ++ newline_indent (S level)) (map (member_text level) (kv :: d)) ++ s
    = String DQUOTE X.
Proof.
  destruct d as [|kv' d]; cbn [map join]; rewrite member_text_start;
    cbn [append]; eexists; reflexivity.
Qed.

Lemma skip_ws_space (s : string) : skip_ws (String " " s) = skip_ws s.
Proof. reflexivity. Qed.

Lemma skip_ws_colon (s : string) : skip_ws (String ":" s) = String ":" s.
Proof. reflexivity. Qed.

Lemma skip_ws_comma (s : string) : skip_ws (String "," s) = String "," s.
Proof. reflexivity. Qed.

Lemma skip_ws_brace (s : string) : skip_ws (String "}" s) = String "}" s.
Proof. reflexivity. Qed.

Lemma skip_ws_quote (s : string) : skip_ws (String DQUOTE s) = String DQUOTE s.
Proof. reflexivity. Qed.

(** The members of an object, from the first one that is left, read after
    its opening quote *)
Lemma object_members_read (level : nat) (rest : string) (d : list (string * json)) :
  Forall (fun kv => read_back pf (snd kv)) d ->
  forall (pairs : list (string * json)) (fuel : nat) (X : string),
    d <> [] ->
    fold_right (fun kv acc => utf8_valid (fst kv) = true
                              /\ reads_back pf (snd kv) /\ acc) True d ->
    fold_right (fun kv acc => S (json_size (snd kv) + acc)) 0 d <= fuel ->
    ends_value rest = true ->
    join ("," ++ newline_indent (S level)) (map (member_text level) d)
    ++ newline_indent level ++ "}" ++ rest = String DQUOTE X ->
    object_members pf fuel X pairs = Scanned (JDict (dict_of_pairs (pairs ++ d))) rest.
Proof.
  induction 1 as [|[k v] d Hx Hd IH]; intros pairs fuel X Hne Hwf Hfuel Hr HX; [congruence|].
  cbn [fold_right fst snd] in Hwf, Hfuel, Hx. destruct Hwf as [Hk [Hv Hwf]].
  destruct fuel as [|fuel]; [lia|]. unfold read_back in Hx.
  cbn [object_members].
  destruct d as [|kv' d].
  - cbn [map join] in HX. rewrite member_text_start in HX. cbn [fst snd] in HX.
    rewrite !(string_cons_app DQUOTE) in HX.
    match type of HX with
    | String _ ?A = _ => assert (EX : X = A) by congruence
    end.
    clear HX. subst X.
    rewrite !append_assoc, (string_cons_app DQUOTE), ?append_assoc.
    rewrite (scanstring_escaped (String.length k) k (le_n _) Hk)
      by (rewrite length_app; cbn [String.length]; lia).
    rewrite (string_cons_app ":"), skip_ws_colon. cbv beta iota.
    rewrite (string_cons_app " "), skip_ws_space, string_nil_app, skip_ws_dumps by exact Hv.
    rewrite Hx; [|exact Hv|reflexivity|cbn in Hfuel; lia].
    rewrite skip_ws_newline_indent, (string_cons_app "}"), skip_ws_brace. reflexivity.
  - change (join ("," ++ newline_indent (S level)) (map (member_text level) ((k, v) :: kv' :: d)))
      with (member_text level (k, v) ++ ("," ++ newline_indent (S level))
            ++ join ("," ++ newline_indent (S level)) (map (member_text level) (kv' :: d)))
      in HX.
    rewrite member_text_start in HX. cbn [fst snd] in HX.
    rewrite !(string_cons_app DQUOTE) in HX.
    match type of HX with
    | String _ ?A = _ => assert (EX : X = A) by congruence
    end.
    clear HX. subst X.
    rewrite !append_assoc, (string_cons_app DQUOTE), ?append_assoc.
    rewrite (scanstring_escaped (String.length k) k (le_n _) Hk)
      by (rewrite length_app; cbn [String.length]; lia).
    rewrite (string_cons_app ":"), skip_ws_colon. cbv beta iota.
    rewrite (string_cons_app " "), skip_ws_space, string_nil_app, skip_ws_dumps by exact Hv.
    rewrite Hx; [|exact Hv|reflexivity|lia].
    rewrite (string_cons_app ","), skip_ws_comma. cbv beta iota.
    rewrite string_nil_app, skip_ws_newline_indent.
    destruct (members_start level kv' d (newline_indent level ++ "}" ++ rest)) as [X' HX'].
    rewrite HX', skip_ws_quote.
    match goal with
    | |- _ = ?R => change (object_members pf fuel X' (pairs ++ [(k, v)])%list = R)
    end.
    rewrite (IH (pairs ++ [(k, v)])%list fuel X'); trivial; [|discriminate|lia].
    now rewrite <- app_assoc.
Qed.

Lemma distinct_NoDup (l : list string) : distinct l = true -> NoDup l.
Proof.
  induction l as [|k l IH]; intros H; [constructor|].
  cbn [distinct] in H. apply andb_true_iff in H as [H1 H2]. constructor; [|now apply IH].
  intros Hin. apply negb_true_iff in H1.
  assert (E : existsb (String.eqb k) l = true)
    by (apply existsb_exists; exists k; split; [exact Hin | apply String.eqb_refl]).
  congruence.
Qed.

Lemma skip_ws_bracket (s : string) : skip_ws (String "]" s) = String "]" s.
Proof. reflexivity. Qed.

(** Every value is read back from its text, at every level *)
Lemma scan_once_dumps (v : json) : read_back pf v.
Proof.
  induction v as [|b|z|f|s|l IH|d IH] using json_induction;
    intros level rest fuel Hv Hr Hfuel.
  1-5: (destruct fuel as [|fuel]; [cbn in Hfuel; lia|]).
  - exact (scan_scalar JNull "null" rest fuel eq_refl Hv Hr).
  - destruct b.
    + exact (scan_scalar (JBool true) "true" rest fuel eq_refl Hv Hr).
    + exact (scan_scalar (JBool false) "false" rest fuel eq_refl Hv Hr).
  - exact (scan_scalar (JInt z) (int_repr z) rest fuel eq_refl Hv Hr).
  - exact (scan_scalar (JFloat f) (floatstr f) rest fuel eq_refl Hv Hr).
  - exact (scan_scalar (JStr s) (encode_basestring_ascii s) rest fuel eq_refl Hv Hr).
  - destruct fuel as [|fuel]; [cbn in Hfuel; lia|].
    destruct l as [|x l]; [reflexivity|].
    rewrite dumps_list, !append_assoc. cbn [reads_back] in Hv.
    cbn [json_size] in Hfuel.
    assert (Hstart : exists c t,
               join ("," ++ newline_indent (S level)) (map (item_text level) (x :: l))
               ++ newline_indent level ++ "]" ++ rest = String c t
               /\ value_start c = true).
    { destruct Hv as [Hvx _].
      destruct (dumps_at_start x (S level) Hvx) as [c [t [E Hc]]].
      destruct l as [|y l]; cbn [map join]; unfold item_text at 1; rewrite E;
        exists c; eexists; (split; [reflexivity | exact Hc]). }
    destruct Hstart as [c [t [E Hc]]].
    rewrite (string_cons_app "["). cbn [scan_once].
    change (Ascii.eqb "[" DQUOTE) with false. change (Ascii.eqb "[" "{") with false.
    change (Ascii.eqb "[" "[") with true. cbv beta iota.
    rewrite string_nil_app, skip_ws_newline_indent, E, (skip_ws_value c t Hc).
    transitivity (array_items pf fuel (String c t) []).
    { destruct c as [[] [] [] [] [] [] [] []];
        solve [discriminate Hc | reflexivity]. }
    rewrite <- E. apply (array_items_read level rest (x :: l) IH [] fuel);
      trivial; [discriminate | lia].
  - destruct fuel as [|fuel]; [cbn in Hfuel; lia|].
    destruct d as [|kv d]; [reflexivity|].
    rewrite dumps_dict, !append_assoc. cbn [reads_back] in Hv. destruct Hv as [Hk Hv].
    cbn [json_size] in Hfuel.
    destruct (members_start level kv d (newline_indent level ++ "}" ++ rest)) as [X HX].
    rewrite (string_cons_app "{"). cbn [scan_once].
    change (Ascii.eqb "{" DQUOTE) with false. change (Ascii.eqb "{" "{") with true.
    cbv beta iota.
    rewrite string_nil_app, skip_ws_newline_indent, HX, skip_ws_quote.
    transitivity (object_members pf fuel X []); [reflexivity|].
    rewrite (object_members_read level rest (kv :: d) IH [] fuel X);
      trivial; [|discriminate|lia].
    cbn [app]. now rewrite dict_of_pairs_distinct by now apply distinct_NoDup.
Qed.

End ReadingBack.

Lemma size_of_items {A : Type} (size : A -> nat) (text : A -> string) (sep : string)
    (l : list A) :
  1 <= String.length sep ->
  Forall (fun x => size x <= 2 * String.length (text x)) l ->
  l <> [] ->
  fold_right (fun x acc => S (size x + acc)) 0 l
  <= 2 * String.length (join sep (map text l)) + 1.
Proof.
  intros Hsep H. induction H as [|x l Hx Hl IH]; intros Hne; [congruence|].
  destruct l as [|y l].
  - cbn [fold_right map join]. lia.
  - change (join sep (map text (x :: y :: l)))
      with (text x ++ sep ++ join sep (map text (y :: l))).
    rewrite !length_app. cbn [fold_right] in IH |- *.
    specialize (IH ltac:(discriminate)). lia.
Qed.

Lemma length_newline_indent (level : nat) : 1 <= String.length (newline_indent level).
Proof. unfold newline_indent. rewrite length_app. cbn. lia. Qed.

(** The fuel [json.loads] starts with is enough for the text of a value *)
Lemma json_size_bound (pf : string -> pyfloat) (v : json) :
  forall level : nat,
    reads_back pf v -> json_size v <= 2 * String.length (dumps_at v level).
Proof.
  induction v as [|b|z|f|s|l IH|d IH] using json_induction; intros level Hv.
  1-5: match goal with
       | |- json_size ?v <= _ =>
           destruct (dumps_at_start pf v level Hv) as [c [t [-> _]]]; cbn; lia
       end.
  - destruct l as [|x l]; [cbn; lia|].
    rewrite dumps_list, !length_app. cbn [json_size].
    pose proof (size_of_items json_size (item_text level)
                  ("," ++ newline_indent (S level)) (x :: l)) as H.
    cbn [reads_back] in Hv.
    assert (HF : Forall (fun x => json_size x <= 2 * String.length (item_text level x))
                   (x :: l)).
    { clear H. revert Hv. induction IH as [|y l' Hy Hl' IHl]; intros Hv; constructor.
      - apply Hy. now destruct Hv.
      - apply IHl. now destruct Hv. }
    specialize (H ltac:(cbn; lia) HF ltac:(discriminate)).
    cbn [String.length]. lia.
  - destruct d as [|kv d]; [cbn; lia|].
    rewrite dumps_dict, !length_app. cbn [json_size].
    pose proof (size_of_items (fun kv => json_size (snd kv)) (member_text level)
                  ("," ++ newline_indent (S level)) (kv :: d)) as H.
    cbn [reads_back] in Hv. destruct Hv as [_ Hv].
    assert (HF : Forall (fun kv => json_size (snd kv)
                                   <= 2 * String.length (member_text level kv))
                   (kv :: d)).
    { clear H. revert Hv. induction IH as [|y l' Hy Hl' IHl]; intros Hv; constructor.
      - unfold member_text. rewrite !length_app.
        specialize (Hy (S level) ltac:(now destruct Hv)). lia.
      - apply IHl. now destruct Hv. }
    specialize (H ltac:(cbn; lia) HF ltac:(discriminate)).
    cbn [String.length]. lia.
Qed.

Lemma value_start_no_BOM (c : ascii) (t : string) :
  value_start c = true ->
  starts_with (String "239" (String "187" (String "191" ""))) (String c t) = false.
Proof.
  destruct c as [[] [] [] [] [] [] [] []]; intros H;
    solve [discriminate H | reflexivity].
Qed.

(** [json.loads] gives back the value [json.dumps] was given *)
Lemma loads_dumps (pf : string -> pyfloat) (v : json) :
  reads_back pf v -> json_loads pf (json_dumps v) = Scanned v "".
Proof.
  intros Hv. change (json_dumps v) with (dumps_at v 0). unfold json_loads.
  pose proof (json_size_bound pf v 0 Hv) as Hsize.
  pose proof (scan_once_dumps pf v 0 "" (2 * String.length (dumps_at v 0) + 2)
                Hv eq_refl ltac:(lia)) as Hscan.
  rewrite append_nil_r in Hscan.
  destruct (dumps_at_start pf v 0 Hv) as [c [t [E Hc]]].
  rewrite E in Hscan |- *.
  rewrite (value_start_no_BOM c t Hc), (skip_ws_value c t Hc), Hscan. reflexivity.
Qed.

(** X17: the text a tool returns is a JSON text, and it denotes the value
    the tool was given: [json.loads] reads it back to the very value that
    [json.dumps] wrote, at any depth of nesting, with the strings, the keys
    in their order, the integers and the floats unchanged.  This holds for
    the values of Python: strings and keys that are well-formed UTF-8 (no
    lone surrogate), objects without a repeated key, and floats for which
    [float(repr(x)) == x]. *)
Theorem returned_text_reads_back (env : environment) (obj : json) :
  (forall req : request, answer env req = Ok obj) ->
  reads_back (parse_float env) obj ->
  every_tool_returns env (Ok (json_dumps obj))
  /\ json_loads (parse_float env) (json_dumps obj) = Scanned obj "".
Proof.
  intros H Hv. split.
  - exact (every_tool_follows env (Ok obj) H).
  - now apply loads_dumps.
Qed.

Lemma returned_text_reads_back_witness :
  let name := "caf" ++ String "195" (String "169" " ")
              ++ String "240" (String "159" (String "152" (String "128" ""))) in
  let env := mkEnvironment (fun _ => None) no_files
               (fun _ => Response 200
                           (dq "{'name': '" ++ name ++ dq "', 'price': 0.5, "
                            ++ dq "'tags': [1, -20, null, true, {'a': []}, NaN]}"))
               (fun _ => None) (fun _ => 0%Z)
               (fun s => if String.eqb s "0.5" then FFinite false "5" 0 else FNan) in
  exists obj : json,
    every_tool_returns env (Ok (json_dumps obj))
    /\ json_loads (parse_float env) (json_dumps obj) = Scanned obj "".
Proof.
  cbv zeta.
  exists (JDict [ ("name", JStr ("caf" ++ String "195" (String "169" " ")
                                  ++ String "240" (String "159" (String "152"
                                       (String "128" "")))));
                  ("price", JFloat (FFinite false "5" 0));
                  ("tags", JList [JInt 1; JInt (-20); JNull; JBool true;
                                  JDict [("a", JList [])]; JFloat FNan]) ]).
  apply returned_text_reads_back.
  - intros req. reflexivity.
  - cbn. repeat split; reflexivity.
Defined.

(** ** The layout of arrays and of the values without members *)

(** X18: how [json.dumps(obj, indent=2)] lays out what is not a non-empty
    object.  A non-empty array takes one line per item, indented by two
    spaces per nesting level, between the brackets; an empty array and an
    empty object stay on one line as [[]] and [{}]; [None], the booleans and
    the integers are written [null], [true], [false] and in decimal; the
    floats that are no numbers are written [NaN], [Infinity] and
    [-Infinity]. *)
Theorem layout_of_arrays_and_scalars (level : nat) :
  (forall (v : json) (l : list json),
      dumps_at (JList (v :: l)) level
      = "[" ++ LF ++ repeat_string "  " (S level)
        ++ join ("," ++ LF ++ repeat_string "  " (S level))
             (map (fun item => dumps_at item (S level)) (v :: l))
        ++ LF ++ repeat_string "  " level ++ "]")
  /\ dumps_at (JList []) level = "[]"
  /\ dumps_at (JDict []) level = "{}"
  /\ dumps_at JNull level = "null"
  /\ (forall b : bool, dumps_at (JBool b) level = if b then "true" else "false")
  /\ (forall z : Z, dumps_at (JInt z) level = int_repr z)
  /\ dumps_at (JFloat FNan) level = "NaN"
  /\ (forall sign : bool,
        dumps_at (JFloat (FInf sign)) level = if sign then "-Infinity" else "Infinity")
  /\ (forall obj : json, json_dumps obj = dumps_at obj 0).
Proof.
  split; [intros v l; apply dumps_list|].
  repeat split; try reflexivity; now intros [].
Qed.
